(** * Multi-LLM consensus oracle: a shallow embedding

    The development follows two variants of the consensus engine:

    - the HTTP service, [src/api/oracle.ts] (module [Oracle]):
      [callLLMProvider], [parseOracleResponse] and the handler of
      [POST /oracle/consensus]; its middleware [validateApiKey] and the
      handler of [POST /oracle/evaluate] are in module [Gateway];
    - the agent plugin action, [evaluatePrediction.ts] (module [Plugin]):
      [callLLMProvider] and [getConsensus]; the [validate] and the [handler]
      of the action are in module [Action], those of the evaluator
      [evaluators/predictionMarket.ts] in module [Evaluator].

    JavaScript numbers are IEEE 754 binary64 values, so confidences are
    primitive floats ([PrimFloat.float]): sums, the division of the mean and
    the comparison with the floor are the machine operations.  Counters
    ([optionAVotes], array lengths) hold small non-negative integers, on which
    binary64 arithmetic is exact; they are natural numbers here. *)

From Stdlib Require Import Floats ZArith List String Ascii Bool Lia.
From Stdlib Require Import Permutation.
Import ListNotations.

Set Implicit Arguments.
Set Warnings "-register-all,-inexact-float".

Open Scope string_scope.

(** ** The JavaScript fragment the code uses *)
Module JS.

(** Values that [JSON.parse] and [response.json()] can return, with
    [undefined] for absent properties.  An object is the list of its own
    properties. *)
Inductive value : Type :=
| VUndefined
| VNull
| VBool (b : bool)
| VNum (x : float)
| VStr (s : string)
| VArr (xs : list value)
| VObj (fields : list (string * value)).

Inductive jstype := TUndefined | TObject | TBoolean | TNumber | TString.

Definition typeof (v : value) : jstype :=
  match v with
  | VUndefined => TUndefined
  | VNull => TObject
  | VBool _ => TBoolean
  | VNum _ => TNumber
  | VStr _ => TString
  | VArr _ => TObject
  | VObj _ => TObject
  end.

(** [typeof v !== t] *)
Definition typeof_differs (v : value) (t : jstype) : bool :=
  match typeof v, t with
  | TUndefined, TUndefined | TObject, TObject | TBoolean, TBoolean
  | TNumber, TNumber | TString, TString => false
  | _, _ => true
  end.

(** The boolean, the number and the string that a value of that type is. *)
Definition as_bool (v : value) : bool :=
  match v with VBool b => b | _ => false end.
Definition as_number (v : value) : float :=
  match v with VNum x => x | _ => nan end.
Definition as_string (v : value) : string :=
  match v with VStr s => s | _ => EmptyString end.

(** Exceptions: the constructor of the thrown object and its [message]. *)
Inductive exn : Type :=
| Error (message : string)
| TypeError (message : string)
| SyntaxError (message : string).

Definition message (e : exn) : string :=
  match e with
  | Error m | TypeError m | SyntaxError m => m
  end.

(** A computation that returns or throws. *)
Inductive throws (A : Type) : Type :=
| Ret (a : A)
| Throw (e : exn).
Arguments Ret {A} a.
Arguments Throw {A} e.

Definition bind {A B : Type} (m : throws A) (k : A -> throws B) : throws B :=
  match m with
  | Ret a => k a
  | Throw e => Throw e
  end.

(** [try { m } catch (error) { h error }] *)
Definition try_catch {A : Type} (m : throws A) (h : exn -> A) : A :=
  match m with
  | Ret a => a
  | Throw e => h e
  end.

Declare Scope js_scope.
Delimit Scope js_scope with js.
Notation "x <- m ;; k" := (bind m (fun x => k))
  (at level 61, m at next level, right associativity) : js_scope.

(** Truthiness, as used by [!x] and [x || y]. *)
Definition is_nan (x : float) : bool := negb (x =? x)%float.

Definition truthy (v : value) : bool :=
  match v with
  | VUndefined | VNull => false
  | VBool b => b
  | VNum x => negb (is_nan x || (x =? 0)%float)
  | VStr s => negb (String.eqb s "")
  | VArr _ | VObj _ => true
  end.

Definition truthy_str (s : string) : bool := negb (String.eqb s "").

Fixpoint assoc (k : string) (fields : list (string * value)) : value :=
  match fields with
  | [] => VUndefined
  | (k', v) :: rest => if String.eqb k k' then v else assoc k rest
  end.

(** [v.k] for a property name [k] that no prototype defines: a [TypeError]
    on [null] and [undefined], the own property of an object, [undefined] on
    any other value. *)
Definition get (v : value) (k : string) : throws value :=
  match v with
  | VUndefined | VNull =>
      Throw (TypeError ("Cannot read properties of null or undefined (reading '" ++ k ++ "')"))
  | VObj fields => Ret (assoc k fields)
  | _ => Ret VUndefined
  end.

(** [v?.k]: [undefined] when [v] is [null] or [undefined]. *)
Definition opt_get (v : value) (k : string) : value :=
  match v with
  | VObj fields => assoc k fields
  | _ => VUndefined
  end.

(** [v?.[0]] *)
Definition opt_index0 (v : value) : value :=
  match v with
  | VArr (x :: _) => x
  | VStr (String c _) => VStr (String c EmptyString)
  | VObj fields => assoc "0" fields
  | _ => VUndefined
  end.

(** [v || ''] *)
Definition or_empty (v : value) : value :=
  if truthy v then v else VStr "".

(** *** [Math.min], [Math.max] on two arguments

    [NaN] if an argument is [NaN]; [-0] counts as smaller than [+0]. *)
Definition Math_min (a b : float) : float :=
  if is_nan a || is_nan b then nan
  else if (a <? b)%float then a
  else if (b <? a)%float then b
  else if get_sign a then a else b.

Definition Math_max (a b : float) : float :=
  if is_nan a || is_nan b then nan
  else if (a <? b)%float then b
  else if (b <? a)%float then a
  else if get_sign a then b else a.

(** [Math.ceil(n / 2)] for an array length [n]. *)
Definition ceil_half (n : nat) : nat := (n + 1) / 2.

(** The number [n] of an array length as a binary64 value. *)
Definition of_nat (n : nat) : float :=
  PrimFloat.of_uint63 (Uint63.of_Z (Z.of_nat n)).

(** *** [text.match(/\{[\s\S]*\}/)]

    The leftmost match of the pattern, with the greedy [[\s\S]*]: it starts
    at the first ["{"] and runs to the last ["}"] after it. *)
Definition open_brace : ascii := "{"%char.
Definition close_brace : ascii := "}"%char.

Fixpoint from_first_open (s : string) : option string :=
  match s with
  | EmptyString => None
  | String c r => if Ascii.eqb c open_brace then Some s else from_first_open r
  end.

(** The longest prefix of [s] that ends with ["}"]. *)
Fixpoint upto_last_close (s : string) : option string :=
  match s with
  | EmptyString => None
  | String c r =>
      match upto_last_close r with
      | Some p => Some (String c p)
      | None => if Ascii.eqb c close_brace then Some (String c EmptyString) else None
      end
  end.

(** Whether the character [c] occurs in [s]. *)
Fixpoint occurs (c : ascii) (s : string) : bool :=
  match s with
  | EmptyString => false
  | String d r => Ascii.eqb d c || occurs c r
  end.

(** [jsonMatch[0]], or [None] for a [null] match. *)
Definition match_braces (s : string) : option string :=
  match from_first_open s with
  | None => None
  | Some t => upto_last_close t
  end.

(** The mean as the reductions compute it: the confidences are added from
    the left, starting from [0], and the sum is divided by their number. *)
Definition sum (cs : list float) : float := fold_left PrimFloat.add cs 0%float.
Definition mean (cs : list float) : float := (sum cs / of_nat (List.length cs))%float.

(** [xs.push(x)] *)
Definition push {A : Type} (xs : list A) (x : A) : list A := (xs ++ [x])%list.

(** [xs.join(sep)] on an array of strings. *)
Fixpoint join (sep : string) (xs : list string) : string :=
  match xs with
  | [] => ""
  | [x] => x
  | x :: rest => x ++ sep ++ join sep rest
  end.

End JS.

(** ** The HTTP service: [src/api/oracle.ts] *)
Module Oracle.
Import JS.
Local Open Scope js_scope.

(** [interface OracleResponse] *)
Record OracleResponse : Type := {
  optionATrue : bool;
  optionBTrue : bool;
  confidence : float;
  reasoning : string
}.

(** An element of the [providers] array of the request body. *)
Record ProviderConfig : Type := {
  pc_provider : string;
  pc_model : string;
  pc_apiKey : string
}.

(** What [fetch] resolves to: [response.ok], the status line and the outcome
    of [response.json()]. *)
Record Response : Type := {
  ok : bool;
  status : string;
  statusText : string;
  json : throws value
}.

(** The keys of [LLM_CONFIGS], which are the cases of the two [switch]
    statements. *)
Inductive adapter := OpenAI | DeepSeek | Gemini.

(** [LLM_CONFIGS[provider]] with the [switch] on [provider]: a name that is
    not a key, or that the [switch] does not list, ends in the error
    ["Unsupported provider"]. *)
Definition LLM_CONFIGS (provider : string) : option adapter :=
  if String.eqb provider "openai" then Some OpenAI
  else if String.eqb provider "deepseek" then Some DeepSeek
  else if String.eqb provider "gemini" then Some Gemini
  else None.

(** [data.choices?.[0]?.message?.content || ''] and
    [data.candidates?.[0]?.content?.parts?.[0]?.text || '']; the first
    property access is not optional and throws on [null]. *)
Definition extract_text (a : adapter) (data : value) : throws value :=
  match a with
  | OpenAI | DeepSeek =>
      choices <- get data "choices" ;;
      Ret (or_empty (opt_get (opt_get (opt_index0 choices) "message") "content"))
  | Gemini =>
      candidates <- get data "candidates" ;;
      Ret (or_empty
             (opt_get (opt_index0 (opt_get (opt_get (opt_index0 candidates) "content") "parts"))
                      "text"))
  end.

Section Service.

(** [JSON.parse]: the parsed value, or the [SyntaxError] it throws. *)
Variable JSON_parse : string -> throws value.

(** The outbound call of one request: [fetch] on the endpoint, headers and
    body that [callLLMProvider] builds from the provider, the model and the
    key (prompt, [maxTokens] and [temperature] are those of the request). *)
Variable fetch : string -> string -> string -> throws Response.

Definition callLLMProvider (provider model apiKey : string) : throws value :=
  match LLM_CONFIGS provider with
  | None => Throw (Error ("Unsupported provider: " ++ provider))
  | Some a =>
      response <- fetch provider model apiKey ;;
      if negb (ok response)
      then Throw (Error (provider ++ " API error: " ++ status response ++ " " ++ statusText response))
      else
        data <- json response ;;
        extract_text a data
  end.

(** [Math.max(0, Math.min(1, parsed.confidence))] *)
Definition clamp (c : float) : float := Math_max 0 (Math_min 1 c).

Definition parseOracleResponse (text : value) : throws OracleResponse :=
  match text with
  | VStr s =>
      match match_braces s with
      | None => Throw (Error "No JSON found in response")
      | Some jsonMatch =>
          parsed <- JSON_parse jsonMatch ;;
          a <- get parsed "optionATrue" ;;
          b <- get parsed "optionBTrue" ;;
          c <- get parsed "confidence" ;;
          r <- get parsed "reasoning" ;;
          if typeof_differs a TBoolean || typeof_differs b TBoolean
             || typeof_differs c TNumber || typeof_differs r TString
          then Throw (Error "Invalid response structure")
          else Ret {| optionATrue := as_bool a; optionBTrue := as_bool b;
                      confidence := clamp (as_number c); reasoning := as_string r |}
      end
  | _ => Throw (TypeError "text.match is not a function")
  end.

(** An element of [responses]. *)
Record Attempt : Type := {
  provider : string;
  response : OracleResponse;
  error : option string
}.

Definition provider_error : OracleResponse :=
  {| optionATrue := false; optionBTrue := false;
     confidence := 0; reasoning := "Provider error" |}.

(** The body of the loop over [providers]: the [try] and its [catch]. *)
Definition attempt (pc : ProviderConfig) : Attempt :=
  try_catch
    (rawResponse <- callLLMProvider (pc_provider pc) (pc_model pc) (pc_apiKey pc) ;;
     oracleResponse <- parseOracleResponse rawResponse ;;
     Ret {| provider := pc_provider pc; response := oracleResponse; error := None |})
    (fun e =>
       {| provider := pc_provider pc; response := provider_error;
          error := Some (message e) |}).

(** An element of the [providers] array is an object or [null], and [null]
    has no property: [providerConfig.provider] throws on it. *)
Definition null_element : exn :=
  TypeError "Cannot read properties of null (reading 'provider')".

Definition element (providerConfig : option ProviderConfig) : throws ProviderConfig :=
  match providerConfig with
  | Some pc => Ret pc
  | None => Throw null_element
  end.

(** One turn of the loop.  On an object it is the [try] and its [catch].
    On [null] the [try] throws when it reads [providerConfig.provider], and
    so does the [catch], which reads the same property for the console; the
    error leaves the loop. *)
Definition turn (providerConfig : option ProviderConfig) : throws Attempt :=
  pc <- element providerConfig ;;
  Ret (attempt pc).

(** The loop over [providers]: [responses] when it ends, or the error that
    left it. *)
Definition collect (providers : list (option ProviderConfig)) : throws (list Attempt) :=
  fold_left
    (fun state providerConfig =>
       responses <- state ;;
       r <- turn providerConfig ;;
       Ret (push responses r))
    providers (Ret []).

(** [!r.error && r.response.confidence >= 0.7] *)
Definition no_error (r : Attempt) : bool :=
  match error r with
  | None => true
  | Some m => negb (truthy_str m)
  end.

Definition is_valid (r : Attempt) : bool :=
  no_error r && (0.7 <=? confidence (response r))%float.

(** The variables of the tallying loop. *)
Record Tally : Type := {
  optionAVotes : nat;
  optionBVotes : nat;
  totalConfidence : float;
  reasonings : list string
}.

Definition tally0 : Tally :=
  {| optionAVotes := 0; optionBVotes := 0; totalConfidence := 0; reasonings := [] |}.

Definition tally_step (t : Tally) (r : Attempt) : Tally :=
  let v := response r in
  {| optionAVotes :=
       if optionATrue v && negb (optionBTrue v) then S (optionAVotes t)
       else optionAVotes t;
     optionBVotes :=
       if optionATrue v && negb (optionBTrue v) then optionBVotes t
       else if optionBTrue v && negb (optionATrue v) then S (optionBVotes t)
       else optionBVotes t;
     totalConfidence := (totalConfidence t + confidence v)%float;
     reasonings := push (reasonings t) (provider r ++ ": " ++ reasoning v) |}.

Definition tally (validResponses : list Attempt) : Tally :=
  fold_left tally_step validResponses tally0.

Record Votes : Type := { optionA : nat; optionB : nat }.

(** The [consensus] object of the reply. *)
Record Consensus : Type := {
  c_optionATrue : bool;
  c_optionBTrue : bool;
  c_confidence : float;
  c_reasoning : string;
  c_votes : Votes;
  c_providers : list string;
  c_allResponses : list Attempt
}.

Definition consensusThreshold (validResponses : list Attempt) : nat :=
  ceil_half (List.length validResponses).

Definition reduce (responses validResponses : list Attempt) : Consensus :=
  let t := tally validResponses in
  let avgConfidence := (totalConfidence t / of_nat (List.length validResponses))%float in
  {| c_optionATrue := Nat.leb (consensusThreshold validResponses) (optionAVotes t);
     c_optionBTrue := Nat.leb (consensusThreshold validResponses) (optionBVotes t);
     c_confidence := avgConfidence;
     c_reasoning := join "; " (reasonings t);
     c_votes := {| optionA := optionAVotes t; optionB := optionBVotes t |};
     c_providers := map provider validResponses;
     c_allResponses := responses |}.

(** The body of a request to [POST /oracle/consensus]. *)
Record ConsensusRequest : Type := {
  prompt : string;
  (* [None]: absent or not an array; an element is [None] when it is [null] *)
  providers : option (list (option ProviderConfig))
}.

Inductive Reply : Type :=
| BadRequest (err : string)                            (* status 400 *)
| NoValidResponses (err : string) (responses : list Attempt)   (* status 500 *)
| EvaluationFailed (err details : string)              (* status 500, outer catch *)
| Success (consensus : Consensus).                     (* [res.json(consensus)] *)

(** The handler, with its outer [try] and [catch]. *)
Definition consensus_handler (req : ConsensusRequest) : Reply :=
  match providers req with
  | None => BadRequest "Missing required fields: prompt, providers array"
  | Some providers =>
      if negb (truthy_str (prompt req))
      then BadRequest "Missing required fields: prompt, providers array"
      else
        try_catch
          (responses <- collect providers ;;
           let validResponses := filter is_valid responses in
           Ret (match validResponses with
                | [] => NoValidResponses "No valid responses from providers" responses
                | _ :: _ => Success (reduce responses validResponses)
                end))
          (fun e => EvaluationFailed "Consensus evaluation failed" (message e))
  end.

End Service.

(** The vote a verdict casts. *)
Definition votes_A (v : OracleResponse) : bool := optionATrue v && negb (optionBTrue v).
Definition votes_B (v : OracleResponse) : bool := optionBTrue v && negb (optionATrue v).

(** The entry of a verdict in the reasoning trail. *)
Definition line (r : Attempt) : string := provider r ++ ": " ++ reasoning (response r).

(** The verdict of a reply: every field but [allResponses]. *)
Definition verdict (c : Consensus)
  : bool * bool * float * string * Votes * list string :=
  (c_optionATrue c, c_optionBTrue c, c_confidence c, c_reasoning c, c_votes c,
   c_providers c).

(** The entry that the [catch] of the loop pushes for the error [e]. *)
Definition failure (pc : ProviderConfig) (e : exn) : Attempt :=
  {| provider := pc_provider pc; response := provider_error;
     error := Some (message e) |}.

(** A verdict that was created from provider text, with no error. *)
Definition verdict_of (p : string) (v : OracleResponse) : Attempt :=
  {| provider := p; response := v; error := None |}.

(** The elements of the [providers] array that are objects. *)
Definition objects (providers : list (option ProviderConfig)) : list ProviderConfig :=
  flat_map (fun providerConfig =>
              match providerConfig with
              | Some pc => [pc]
              | None => []
              end) providers.

End Oracle.

(** ** The plugin action: [evaluatePrediction.ts]

    The action exists in two copies; they differ in how the provider is
    called (through the agent runtime, or by [fetch]) and share
    [getConsensus] and the parsing of the reply.  The copy that calls the
    runtime is followed. *)
Module Plugin.
Import JS.
Local Open Scope js_scope.

(** [interface LLMProvider] *)
Record LLMProvider : Type := {
  name : string;
  model : string
}.

(** [interface ProviderResponse] *)
Record ProviderResponse : Type := {
  provider : string;
  pr_model : string;
  optionATrue : bool;
  optionBTrue : bool;
  confidence : float;
  reasoning : string
}.

Record Votes : Type := { optionA : nat; optionB : nat }.

(** [interface ConsensusResult] *)
Record ConsensusResult : Type := {
  cr_optionATrue : bool;
  cr_optionBTrue : bool;
  cr_confidence : float;
  cr_reasoning : string;
  cr_providers : list string;
  cr_votes : Votes
}.

Definition LLM_PROVIDERS : list LLMProvider :=
  [ {| name := "openai"; model := "gpt-4" |};
    {| name := "deepseek"; model := "deepseek-chat" |};
    {| name := "gemini"; model := "gemini-1.5-flash" |} ].

Definition CONSENSUS_THRESHOLD : nat := 2.
Definition MIN_CONFIDENCE : float := 0.7.

(** What the action writes to the console. *)
Inductive log_entry : Type :=
| console_warn (msg : string)
| console_error (msg : string) (err : option exn).

(** [name.toUpperCase()] on the letters a-z. *)
Definition upper (c : ascii) : ascii :=
  let n := nat_of_ascii c in
  if Nat.leb 97 n && Nat.leb n 122 then ascii_of_nat (n - 32) else c.

Fixpoint toUpperCase (s : string) : string :=
  match s with
  | EmptyString => EmptyString
  | String c r => String (upper c) (toUpperCase r)
  end.

(** [a || b] on values that are a string or [undefined]. *)
Definition or_else (a b : option string) : option string :=
  match a with
  | Some s => if truthy_str s then a else b
  | None => b
  end.

(** [!apiKey] *)
Definition missing (k : option string) : bool :=
  match k with
  | Some s => negb (truthy_str s)
  | None => true
  end.

(** The host: the process environment and the agent runtime.
    [generateText] is called with the prompt built from the question and the
    two options, and with the provider that [tempCharacter] names. *)
Record Runtime : Type := {
  process_env : string -> option string;
  getSetting : string -> option string;
  generateText : LLMProvider -> string -> string -> string -> throws value
}.

Section Action.

(** [JSON.parse]: the parsed value, or the [SyntaxError] it throws. *)
Variable JSON_parse : string -> throws value.

Variable runtime : Runtime.
Variables question optionA_text optionB_text : string.

(** The [try] block of [callLLMProvider]: what it logs and returns, or
    what it throws. *)
Definition callLLMProvider_try (p : LLMProvider)
  : throws (list log_entry * option ProviderResponse) :=
  let apiKey := or_else (process_env runtime (toUpperCase (name p) ++ "_API_KEY"))
                        (getSetting runtime (name p ++ "ApiKey")) in
  if missing apiKey
  then Ret ([console_warn ("No API key configured for " ++ name p)], None)
  else
    response <- generateText runtime p question optionA_text optionB_text ;;
    match response with
    | VStr text =>
        match match_braces text with
        | None => Ret ([console_error ("No JSON found in " ++ name p ++ " response") None], None)
        | Some jsonMatch =>
            parsed <- JSON_parse jsonMatch ;;
            a <- get parsed "optionATrue" ;;
            b <- get parsed "optionBTrue" ;;
            c <- get parsed "confidence" ;;
            r <- get parsed "reasoning" ;;
            if typeof_differs a TBoolean || typeof_differs b TBoolean
               || typeof_differs c TNumber || typeof_differs r TString
            then Ret ([console_error ("Invalid response structure from " ++ name p) None],
                      None)
            else Ret ([], Some {| provider := name p; pr_model := model p;
                                  optionATrue := as_bool a; optionBTrue := as_bool b;
                                  confidence := as_number c; reasoning := as_string r |})
        end
    | _ => Throw (TypeError "response.match is not a function")
    end.

Definition callLLMProvider (p : LLMProvider) : list log_entry * option ProviderResponse :=
  try_catch (callLLMProvider_try p)
    (fun e => ([console_error ("Error calling " ++ name p ++ ":") (Some e)], None)).

(** [response && response.confidence >= MIN_CONFIDENCE], with [None] for
    [null]. *)
Definition accepted (response : option ProviderResponse) : option ProviderResponse :=
  match response with
  | Some r => if (MIN_CONFIDENCE <=? confidence r)%float then Some r else None
  | None => None
  end.

(** The collecting loop: the console output so far and [responses]. *)
Definition collect_step (st : list log_entry * list ProviderResponse) (p : LLMProvider)
  : list log_entry * list ProviderResponse :=
  let (log, responses) := st in
  let (out, response) := callLLMProvider p in
  ((log ++ out)%list,
   match accepted response with
   | Some r => push responses r
   | None => responses
   end).

Definition collect (providersToUse : list LLMProvider)
  : list log_entry * list ProviderResponse :=
  fold_left collect_step providersToUse ([], []).

(** What the loop leaves in [responses] and on the console, provider by
    provider. *)
Definition verdicts (roster : list LLMProvider) : list ProviderResponse :=
  flat_map (fun p => match accepted (snd (callLLMProvider p)) with
                     | Some r => [r]
                     | None => []
                     end) roster.

Definition console (roster : list LLMProvider) : list log_entry :=
  flat_map (fun p => fst (callLLMProvider p)) roster.

(** The variables of the tallying loop. *)
Record Tally : Type := {
  optionAVotes : nat;
  optionBVotes : nat;
  totalConfidence : float;
  reasonings : list string;
  usedProviders : list string
}.

Definition tally0 : Tally :=
  {| optionAVotes := 0; optionBVotes := 0; totalConfidence := 0;
     reasonings := []; usedProviders := [] |}.

Definition tally_step (t : Tally) (response : ProviderResponse) : Tally :=
  {| optionAVotes :=
       if optionATrue response && negb (optionBTrue response) then S (optionAVotes t)
       else optionAVotes t;
     optionBVotes :=
       if optionATrue response && negb (optionBTrue response) then optionBVotes t
       else if optionBTrue response && negb (optionATrue response) then S (optionBVotes t)
       else optionBVotes t;
     totalConfidence := (totalConfidence t + confidence response)%float;
     reasonings := push (reasonings t) (provider response ++ ": " ++ reasoning response);
     usedProviders := push (usedProviders t) (provider response) |}.

Definition tally (responses : list ProviderResponse) : Tally :=
  fold_left tally_step responses tally0.

(** [getConsensus] after the collecting loop. *)
Definition reduce (responses : list ProviderResponse) : throws ConsensusResult :=
  match responses with
  | [] => Throw (Error "No valid responses received from AI providers")
  | _ :: _ =>
      let t := tally responses in
      let avgConfidence := (totalConfidence t / of_nat (List.length responses))%float in
      Ret {| cr_optionATrue := Nat.leb CONSENSUS_THRESHOLD (optionAVotes t);
             cr_optionBTrue := Nat.leb CONSENSUS_THRESHOLD (optionBVotes t);
             cr_confidence := avgConfidence;
             cr_reasoning := join "; " (reasonings t);
             cr_providers := usedProviders t;
             cr_votes := {| optionA := optionAVotes t; optionB := optionBVotes t |} |}
  end.

Definition providersToUse (enabledProviders : option (list string)) : list LLMProvider :=
  match enabledProviders with
  | Some enabled => filter (fun p => existsb (String.eqb (name p)) enabled) LLM_PROVIDERS
  | None => LLM_PROVIDERS
  end.

(** [getConsensus] on a roster: the console output, and the result or the
    error thrown. *)
Definition getConsensus_on (roster : list LLMProvider)
  : list log_entry * throws ConsensusResult :=
  let (log, responses) := collect roster in
  (log, reduce responses).

Definition getConsensus (enabledProviders : option (list string))
  : list log_entry * throws ConsensusResult :=
  getConsensus_on (providersToUse enabledProviders).

End Action.

(** The vote a verdict casts. *)
Definition votes_A (v : ProviderResponse) : bool := optionATrue v && negb (optionBTrue v).
Definition votes_B (v : ProviderResponse) : bool := optionBTrue v && negb (optionATrue v).

(** The entry of a verdict in the reasoning trail. *)
Definition line (v : ProviderResponse) : string := provider v ++ ": " ++ reasoning v.

End Plugin.

(** ** The extraction rule as the specification words it *)
Module Spec.
Import JS.

(** The rest of an object whose opening brace has been read, [depth] inner
    braces being open: up to the brace that closes it. *)
Fixpoint close_at (depth : nat) (s : string) : option string :=
  match s with
  | EmptyString => None
  | String c r =>
      if Ascii.eqb c open_brace then option_map (String c) (close_at (S depth) r)
      else if Ascii.eqb c close_brace then
        match depth with
        | 0 => Some (String c EmptyString)
        | S d => option_map (String c) (close_at d r)
        end
      else option_map (String c) (close_at depth r)
  end.

(** The first balanced-brace [{ ... }] substring of the text: it starts at
    the first opening brace that is ever closed, and ends where that brace
    is closed. *)
Fixpoint first_balanced_object (s : string) : option string :=
  match s with
  | EmptyString => None
  | String c r =>
      if Ascii.eqb c open_brace then
        match close_at 0 r with
        | Some m => Some (String c m)
        | None => first_balanced_object r
        end
      else first_balanced_object r
  end.

End Spec.

(** ** Concrete hosts and provider replies *)
Module Samples.
Import JS.

Fixpoint lookup {A : Type} (k : string) (table : list (string * A)) : option A :=
  match table with
  | [] => None
  | (k', a) :: rest => if String.eqb k k' then Some a else lookup k rest
  end.

Definition dquote : string := String "034"%char EmptyString.
Definition quoted (s : string) : string := dquote ++ s ++ dquote.
Definition bool_text (b : bool) : string := if b then "true" else "false".

(** The JSON text of a verdict, [c] being the number as the provider
    writes it. *)
Definition verdict_text (a b : bool) (c r : string) : string :=
  "{" ++ quoted "optionATrue" ++ ":" ++ bool_text a ++ ","
      ++ quoted "optionBTrue" ++ ":" ++ bool_text b ++ ","
      ++ quoted "confidence" ++ ":" ++ c ++ ","
      ++ quoted "reasoning" ++ ":" ++ quoted r ++ "}".

(** The object [JSON.parse] builds from it. *)
Definition verdict_json (a b : bool) (c : float) (r : string) : value :=
  VObj [ ("optionATrue", VBool a); ("optionBTrue", VBool b);
         ("confidence", VNum c); ("reasoning", VStr r) ].

Definition text_A80 := verdict_text true false "0.8" "rates fall".
Definition text_A75 := verdict_text true false "0.75" "trend holds".
Definition text_B90 := verdict_text false true "0.9" "supply grows".
Definition text_A70 := verdict_text true false "0.7" "likely".
Definition text_A50 := verdict_text true false "0.5" "unsure".
Definition text_A150 := verdict_text true false "1.5" "certain".
Definition text_Bneg := verdict_text false true "-0.3" "doubt".
Definition text_both := verdict_text true true "0.9" "either".
Definition text_no_reasoning : string :=
  "{" ++ quoted "optionATrue" ++ ":true," ++ quoted "optionBTrue" ++ ":false,"
      ++ quoted "confidence" ++ ":0.9}".
Definition text_truncated : string := "{" ++ quoted "optionATrue" ++ ":tr}".

(** [JSON.parse] on the texts above; a [SyntaxError] on any other text
    used below. *)
Definition JSON_parse (s : string) : throws value :=
  match lookup s
          [ (text_A80, verdict_json true false 0.8 "rates fall");
            (text_A75, verdict_json true false 0.75 "trend holds");
            (text_B90, verdict_json false true 0.9 "supply grows");
            (text_A70, verdict_json true false 0.7 "likely");
            (text_A50, verdict_json true false 0.5 "unsure");
            (text_A150, verdict_json true false 1.5 "certain");
            (text_Bneg, verdict_json false true (-0.3) "doubt");
            (text_both, verdict_json true true 0.9 "either");
            (text_no_reasoning,
             VObj [ ("optionATrue", VBool true); ("optionBTrue", VBool false);
                    ("confidence", VNum 0.9) ]) ] with
  | Some v => Ret v
  | None => Throw (SyntaxError "Unexpected token in JSON")
  end.

(** A reply that wraps the object in prose. *)
Definition in_prose (text : string) : string :=
  "Here is my assessment: " ++ text ++ " I hope this helps.".

(** *** Hosts of the plugin *)
Definition keys (names : list string) (k : string) : option string :=
  if existsb (String.eqb k) names then Some "sk-test" else None.

Definition all_keys : list string :=
  ["OPENAI_API_KEY"; "DEEPSEEK_API_KEY"; "GEMINI_API_KEY"].

Definition host (env_names : list string) (replies : list (string * throws value))
  : Plugin.Runtime :=
  {| Plugin.process_env := keys env_names;
     Plugin.getSetting := fun _ => None;
     Plugin.generateText := fun p _ _ _ =>
       match lookup (Plugin.name p) replies with
       | Some r => r
       | None => Throw (Error "model provider not configured")
       end |}.

Definition host_2A_1B : Plugin.Runtime :=
  host all_keys
    [ ("openai", Ret (VStr (in_prose text_A80)));
      ("deepseek", Ret (VStr text_A75));
      ("gemini", Ret (VStr text_B90)) ].

Definition host_no_keys : Plugin.Runtime :=
  host [] [ ("openai", Ret (VStr text_A80)) ].

Definition host_no_json : Plugin.Runtime :=
  host all_keys
    [ ("openai", Ret (VStr "I cannot answer that."));
      ("deepseek", Ret (VStr "I cannot answer that."));
      ("gemini", Ret (VStr "I cannot answer that.")) ].

Definition host_one_down : Plugin.Runtime :=
  host all_keys
    [ ("openai", Throw (Error "connect ETIMEDOUT"));
      ("deepseek", Ret (VStr text_A75));
      ("gemini", Ret (VStr text_A80)) ].

Definition host_one_low : Plugin.Runtime :=
  host all_keys
    [ ("openai", Ret (VStr text_A50));
      ("deepseek", Ret (VStr text_A75));
      ("gemini", Ret (VStr text_B90)) ].

Definition host_overconfident : Plugin.Runtime :=
  host all_keys [ ("openai", Ret (VStr text_A150)) ].

Definition host_all_at_floor : Plugin.Runtime :=
  host all_keys
    [ ("openai", Ret (VStr text_A70));
      ("deepseek", Ret (VStr text_A70));
      ("gemini", Ret (VStr text_A70)) ].

Definition question : string := "Will the index close higher this year?".
Definition optionA_text : string := "It closes higher".
Definition optionB_text : string := "It does not close higher".

(** *** Upstreams of the HTTP service *)
Definition openai_body (text : string) : value :=
  VObj [ ("choices",
          VArr [ VObj [ ("message",
                         VObj [ ("role", VStr "assistant");
                                ("content", VStr text) ]) ] ]) ].

Definition gemini_body (text : string) : value :=
  VObj [ ("candidates",
          VArr [ VObj [ ("content",
                         VObj [ ("parts", VArr [ VObj [ ("text", VStr text) ] ]) ]) ] ]) ].

Definition ok_response (body : value) : Oracle.Response :=
  {| Oracle.ok := true; Oracle.status := "200"; Oracle.statusText := "OK";
     Oracle.json := Ret body |}.

Definition unauthorized : Oracle.Response :=
  {| Oracle.ok := false; Oracle.status := "401"; Oracle.statusText := "Unauthorized";
     Oracle.json := Ret (VObj [ ("error", VStr "invalid key") ]) |}.

Definition upstream (replies : list (string * throws Oracle.Response))
  (provider model apiKey : string) : throws Oracle.Response :=
  match lookup provider replies with
  | Some r => r
  | None => Throw (TypeError "fetch failed")
  end.

Definition cfg (provider model : string) : Oracle.ProviderConfig :=
  {| Oracle.pc_provider := provider; Oracle.pc_model := model;
     Oracle.pc_apiKey := "sk-test" |}.

Definition roster : list Oracle.ProviderConfig :=
  [ cfg "openai" "gpt-4"; cfg "deepseek" "deepseek-chat";
    cfg "gemini" "gemini-1.5-flash" ].

Definition request (ps : list Oracle.ProviderConfig) : Oracle.ConsensusRequest :=
  {| Oracle.prompt := question; Oracle.providers := Some (map Some ps) |}.

Definition up_2A_1B := upstream
  [ ("openai", Ret (ok_response (openai_body (in_prose text_A80))));
    ("deepseek", Ret (ok_response (openai_body text_A75)));
    ("gemini", Ret (ok_response (gemini_body text_B90))) ].

Definition up_all_fail := upstream
  [ ("openai", Throw (TypeError "fetch failed"));
    ("deepseek", Ret unauthorized);
    ("gemini", Ret (ok_response (gemini_body "I cannot answer that."))) ].

Definition up_one_down := upstream
  [ ("openai", Ret unauthorized);
    ("deepseek", Ret (ok_response (openai_body text_A75)));
    ("gemini", Ret (ok_response (gemini_body text_A80))) ].

Definition up_one_low := upstream
  [ ("openai", Ret (ok_response (openai_body text_A50)));
    ("deepseek", Ret (ok_response (openai_body text_A75)));
    ("gemini", Ret (ok_response (gemini_body text_B90))) ].

Definition up_ambiguous := upstream
  [ ("openai", Ret (ok_response (openai_body text_both))) ].

Definition up_all_at_floor := upstream
  [ ("openai", Ret (ok_response (openai_body text_A70)));
    ("deepseek", Ret (ok_response (openai_body text_A70)));
    ("gemini", Ret (ok_response (gemini_body text_A70))) ].

Definition up_out_of_range := upstream
  [ ("openai", Ret (ok_response (openai_body text_A150)));
    ("deepseek", Ret (ok_response (openai_body text_Bneg))) ].

(** Three accepted verdicts for A, at 0.7, 0.8 and 0.9. *)
Definition plugin_verdict (p : string) (c : float) (r : string) : Plugin.ProviderResponse :=
  {| Plugin.provider := p; Plugin.pr_model := "m"; Plugin.optionATrue := true;
     Plugin.optionBTrue := false; Plugin.confidence := c; Plugin.reasoning := r |}.

Definition plugin_ascending : list Plugin.ProviderResponse :=
  [ plugin_verdict "openai" 0.7 "likely"; plugin_verdict "deepseek" 0.8 "rates fall";
    plugin_verdict "gemini" 0.9 "supply grows" ].

Definition oracle_verdict (p : string) (c : float) (r : string) : Oracle.Attempt :=
  Oracle.verdict_of p
    {| Oracle.optionATrue := true; Oracle.optionBTrue := false;
       Oracle.confidence := c; Oracle.reasoning := r |}.

Definition oracle_ascending : list Oracle.Attempt :=
  [ oracle_verdict "openai" 0.7 "likely"; oracle_verdict "deepseek" 0.8 "rates fall";
    oracle_verdict "gemini" 0.9 "supply grows" ].

(** A reply with a second pair of braces after the object. *)
Definition text_two_objects : string := text_A80 ++ " (scale: {0..1})".

End Samples.

(** ** [String.prototype.replace] with a string pattern *)
Module Text.

(** [s.startsWith(pat)] *)
Fixpoint starts_with (pat s : string) : bool :=
  match pat, s with
  | EmptyString, _ => true
  | String _ _, EmptyString => false
  | String a pat', String b s' => Ascii.eqb a b && starts_with pat' s'
  end.

(** [s] without its first [n] characters. *)
Fixpoint skip (n : nat) (s : string) : string :=
  match n, s with
  | 0, _ => s
  | S _, EmptyString => EmptyString
  | S n', String _ s' => skip n' s'
  end.

(** The first occurrence of [pat] in [s]: what precedes it and what follows
    it. *)
Fixpoint find_first (pat s : string) : option (string * string) :=
  if starts_with pat s then Some (EmptyString, skip (String.length pat) s)
  else
    match s with
    | EmptyString => None
    | String c r =>
        match find_first pat r with
        | Some (pre, post) => Some (String c pre, post)
        | None => None
        end
    end.

(** The replacement text for a match: [$$] is a dollar sign, [$&] the
    matched text, [$`] what precedes the match and [$'] what follows it; a
    string pattern has no groups, so any other [$] stands for itself. *)
Fixpoint substitution (matched pre post : string) (replacement : string) : string :=
  match replacement with
  | EmptyString => EmptyString
  | String "$" (String "$" r) => String "$" (substitution matched pre post r)
  | String "$" (String "&" r) => matched ++ substitution matched pre post r
  | String "$" (String "`" r) => pre ++ substitution matched pre post r
  | String "$" (String "'" r) => post ++ substitution matched pre post r
  | String c r => String c (substitution matched pre post r)
  end.

(** [s.replace(pat, replacement)]: the first occurrence only. *)
Definition replace (s pat replacement : string) : string :=
  match find_first pat s with
  | Some (pre, post) => pre ++ substitution pat pre post replacement ++ post
  | None => s
  end.

End Text.

(** ** The middleware and the single-provider endpoint of [src/api/oracle.ts] *)
Module Gateway.
Import JS Oracle.
Local Open Scope js_scope.

(** What a middleware does with a request. *)
Inductive Gate : Type :=
| Unauthorized (err : string)      (* status 401 *)
| Next.

(** [===] on values that are a string or [undefined]. *)
Definition same (a b : option string) : bool :=
  match a, b with
  | Some x, Some y => String.eqb x y
  | None, None => true
  | _, _ => false
  end.

(** [validateApiKey], on the [authorization] header of the request and the
    variable [ELIZAOS_API_KEY] of the environment. *)
Definition validateApiKey (authorization ELIZAOS_API_KEY : option string) : Gate :=
  let apiKey := option_map (fun h => Text.replace h "Bearer " "") authorization in
  let validApiKey := ELIZAOS_API_KEY in
  if Plugin.missing validApiKey || negb (same apiKey validApiKey)
  then Unauthorized "Invalid API key"
  else Next.



Section Service.
Variable JSON_parse : string -> throws value.
Variable fetch : string -> string -> string -> throws Response.



End Service.


End Gateway.

(** ** The handler and the validation of the plugin action *)
Module Action.
Import JS Plugin.
Local Open Scope js_scope.

(** [interface PredictionEvaluationContent] *)
Record Content : Type := {
  question : string;
  optionA : string;
  optionB : string;
  providers : option (list string)
}.

Record Message : Type := {
  id : string;
  userId : string;
  roomId : string;
  content : Content
}.

(** The memory that the handler stores. *)
Record Memory : Type := {
  m_id : string;
  m_userId : string;
  m_agentId : string;
  m_roomId : string;
  m_text : string;
  m_question : string;
  m_optionA : string;
  m_optionB : string;
  m_consensus : ConsensusResult;
  m_action : string;
  m_createdAt : float
}.

(** The argument of [callback]. *)
Inductive Payload : Type :=
| Result (text : string) (content : ConsensusResult) (action : string)
| Failure (text : string) (error : string).

Inductive console_entry : Type :=
| log (msg : string)
| from_provider (e : log_entry)
| error (msg : string) (e : exn).

(** What a run of the handler leaves: the value it returns or the error it
    throws, the arguments of the calls of the callback in their order, the
    memory it passed to [createMemory], and the console. *)
Record Outcome : Type := {
  returned : throws bool;
  called_back : list Payload;
  stored : option Memory;
  console : list console_entry
}.

(** [if (callback) { callback(payload) }]: the call that is made, and how it
    ends.  The callback is the caller's and can throw; the call is not
    awaited, so it ends with an error only when the callback throws before it
    returns. *)
Definition notify (callback : option (Payload -> throws unit)) (payload : Payload)
  : list Payload * throws unit :=
  match callback with
  | Some call => ([payload], call payload)
  | None => ([], Ret tt)
  end.

(** [validate]: [!!(content.question && content.optionA && content.optionB)]
    on the content of the message as the object it is. *)
Definition validate (content : value) : throws bool :=
  q <- get content "question" ;;
  if truthy q then
    a <- get content "optionA" ;;
    if truthy a then
      b <- get content "optionB" ;;
      Ret (truthy b)
    else Ret false
  else Ret false.

Definition newline : string := String "010"%char EmptyString.

Definition default_template : string :=
  "AI Consensus Result:" ++ newline ++ newline
  ++ "Question: {{question}}" ++ newline
  ++ "Result: Option {{result}} more likely" ++ newline
  ++ "Confidence: {{confidence}}%" ++ newline
  ++ "Providers: {{providers}}" ++ newline
  ++ "Votes: A={{votesA}}, B={{votesB}}" ++ newline ++ newline
  ++ "Reasoning: {{reasoning}}".

(** [consensus.optionATrue ? 'A' : (consensus.optionBTrue ? 'B' : 'Neither')] *)
Definition result_label (consensus : ConsensusResult) : string :=
  if cr_optionATrue consensus then "A"
  else if cr_optionBTrue consensus then "B" else "Neither".

Section Handler.

Variable JSON_parse : string -> throws value.
Variable runtime : Runtime.

(** [runtime.character.templates?.consensusResult], [runtime.agentId],
    [runtime.messageManager.createMemory] and [Date.now()]. *)
Variable consensusResult_template : option string.
Variable agentId : string.
Variable createMemory : Memory -> throws unit.
Variable now : float.

(** [Math.round] and the conversion of a number to a string. *)
Variable Math_round : float -> float.
Variable Number_toString : float -> string.

Definition resultText (c : Content) (consensus : ConsensusResult) : string :=
  let template :=
    match consensusResult_template with
    | Some t => if truthy_str t then t else default_template
    | None => default_template
    end in
  Text.replace
    (Text.replace
       (Text.replace
          (Text.replace
             (Text.replace
                (Text.replace
                   (Text.replace template "{{question}}" (question c))
                   "{{result}}" (result_label consensus))
                "{{confidence}}"
                (Number_toString (Math_round (cr_confidence consensus * 100)%float)))
             "{{providers}}" (join ", " (cr_providers consensus)))
          "{{votesA}}" (Number_toString (of_nat (Plugin.optionA (cr_votes consensus)))))
       "{{votesB}}" (Number_toString (of_nat (Plugin.optionB (cr_votes consensus)))))
    "{{reasoning}}" (cr_reasoning consensus).

Definition memory_of (message : Message) (consensus : ConsensusResult) : Memory :=
  let c := content message in
  {| m_id := id message ++ "-prediction-result";
     m_userId := userId message;
     m_agentId := agentId;
     m_roomId := roomId message;
     m_text := resultText c consensus;
     m_question := question c;
     m_optionA := optionA c;
     m_optionB := optionB c;
     m_consensus := consensus;
     m_action := "prediction_evaluated";
     m_createdAt := now |}.

(** The [catch] of the handler, entered after the calls [calls] of the
    callback; an error of the callback here leaves the handler. *)
Definition failed (callback : option (Payload -> throws unit)) (calls : list Payload)
  (stored : option Memory) (console : list console_entry) (e : exn) : Outcome :=
  let (call, done) :=
    notify callback (Failure ("Error evaluating prediction: " ++ message e) (message e)) in
  {| returned := _ <- done ;; Ret false;
     called_back := (calls ++ call)%list;
     stored := stored;
     console := push console (error "Error in evaluatePredictionAction:" e) |}.

(** [handler], with the callback if one was given. *)
Definition handler (message : Message) (callback : option (Payload -> throws unit))
  : Outcome :=
  let c := content message in
  let console0 :=
    [ log ("Evaluating prediction: " ++ question c);
      log ("Option A: " ++ optionA c);
      log ("Option B: " ++ optionB c) ] in
  let (out, result) :=
    getConsensus JSON_parse runtime (question c) (optionA c) (optionB c) (providers c) in
  let console1 := (console0 ++ map from_provider out)%list in
  match result with
  | Throw e => failed callback [] None console1 e
  | Ret consensus =>
      let memory := memory_of message consensus in
      match createMemory memory with
      | Throw e => failed callback [] (Some memory) console1 e
      | Ret _ =>
          let (call, done) :=
            notify callback
              (Result (resultText c consensus) consensus "EVALUATE_PREDICTION") in
          match done with
          | Throw e => failed callback call (Some memory) console1 e
          | Ret _ =>
              {| returned := Ret true;
                 called_back := call;
                 stored := Some memory;
                 console := console1 |}
          end
      end
  end.

End Handler.
End Action.

(** ** The evaluator: [evaluators/predictionMarket.ts] *)
Module Evaluator.
Import JS.

(** [k in content] for a name [k] that no prototype defines. *)
Fixpoint has_key (k : string) (fields : list (string * value)) : bool :=
  match fields with
  | [] => false
  | (k', _) :: rest => String.eqb k k' || has_key k rest
  end.

(** [validate], on the content of the message as the object it is. *)
Definition validate (content : value) : bool :=
  match content with
  | VObj fields =>
      has_key "question" fields && (has_key "optionA" fields && has_key "optionB" fields)
  | _ => false
  end.

(** What the handler returns. *)
Record Evaluation : Type := {
  score : float;
  quality : string;
  reasoning : string
}.

Section Handler.

(** The conversion of a number to a string. *)
Variable Number_toString : float -> string.

(** [handler], on [content.consensus] when it is a consensus that the
    action stored, [None] when the content has none. *)
Definition handler (consensus : option Plugin.ConsensusResult) : Evaluation :=
  match consensus with
  | Some consensus =>
      let hasStrongConsensus := (0.8 <? Plugin.cr_confidence consensus)%float in
      let hasMultipleProviders := Nat.leb 2 (List.length (Plugin.cr_providers consensus)) in
      let hasReasonableVotes :=
        Nat.ltb 0 (Plugin.optionA (Plugin.cr_votes consensus))
        || Nat.ltb 0 (Plugin.optionB (Plugin.cr_votes consensus)) in
      let quality :=
        if hasStrongConsensus && hasMultipleProviders && hasReasonableVotes
        then "high" else "medium" in
      {| score := if hasStrongConsensus then 0.9%float else 0.7%float;
         quality := quality;
         reasoning :=
           "Consensus evaluation: confidence="
           ++ Number_toString (Plugin.cr_confidence consensus)
           ++ ", providers="
           ++ Number_toString (of_nat (List.length (Plugin.cr_providers consensus)))
           ++ ", votes=A:"
           ++ Number_toString (of_nat (Plugin.optionA (Plugin.cr_votes consensus)))
           ++ "/B:"
           ++ Number_toString (of_nat (Plugin.optionB (Plugin.cr_votes consensus))) |}
  | None =>
      {| score := 0.5%float; quality := "unknown";
         reasoning := "No consensus data available for evaluation" |}
  end.

End Handler.
End Evaluator.

(** ** A template as a sequence of texts and placeholders *)
Module Template.
Import JS.

(** The placeholders that the handler replaces, in the order of its calls
    of [replace]. *)
Inductive slot : Type :=
| Question | Result | Confidence | Providers | VotesA | VotesB | Reasoning.

(** The text of a placeholder in a template. *)
Definition tag (k : slot) : string :=
  match k with
  | Question => "{{question}}"
  | Result => "{{result}}"
  | Confidence => "{{confidence}}"
  | Providers => "{{providers}}"
  | VotesA => "{{votesA}}"
  | VotesB => "{{votesB}}"
  | Reasoning => "{{reasoning}}"
  end.

Definition same_slot (j k : slot) : bool :=
  match j, k with
  | Question, Question | Result, Result | Confidence, Confidence
  | Providers, Providers | VotesA, VotesA | VotesB, VotesB
  | Reasoning, Reasoning => true
  | _, _ => false
  end.

Inductive piece : Type :=
| Lit (s : string)
| Slot (k : slot).

(** The template that a sequence of pieces spells. *)
Fixpoint text_of (pieces : list piece) : string :=
  match pieces with
  | [] => ""
  | Lit s :: rest => s ++ text_of rest
  | Slot k :: rest => tag k ++ text_of rest
  end.

(** The pieces with the first placeholder [k] replaced by the text [v];
    later occurrences of the placeholder stay. *)
Fixpoint fill (k : slot) (v : string) (pieces : list piece) : list piece :=
  match pieces with
  | [] => []
  | Lit s :: rest => Lit s :: fill k v rest
  | Slot j :: rest => if same_slot k j then Lit v :: rest else Slot j :: fill k v rest
  end.

(** A text that cannot start a placeholder, and one that is also free of
    the [$] patterns of [replace]. *)
Definition braceless (s : string) : bool := negb (occurs open_brace s).
Definition plain (s : string) : bool := braceless s && negb (occurs "$"%char s).

Definition literal (p : piece) : bool :=
  match p with
  | Lit s => braceless s
  | Slot _ => true
  end.

(** The default template of the handler. *)
Definition default_pieces : list piece :=
  [ Lit ("AI Consensus Result:" ++ Action.newline ++ Action.newline ++ "Question: ");
    Slot Question;
    Lit (Action.newline ++ "Result: Option ");
    Slot Result;
    Lit (" more likely" ++ Action.newline ++ "Confidence: ");
    Slot Confidence;
    Lit ("%" ++ Action.newline ++ "Providers: ");
    Slot Providers;
    Lit (Action.newline ++ "Votes: A=");
    Slot VotesA;
    Lit ", B=";
    Slot VotesB;
    Lit (Action.newline ++ Action.newline ++ "Reasoning: ");
    Slot Reasoning ].

End Template.

(** ** Composing two comparisons *)
Module FloatOrder.

(** The comparison of [x] with [z] that follows from the comparisons of [x]
    with [y] and of [y] with [z], neither being [Gt]. *)
Definition then_cmp (c1 c2 : comparison) : comparison :=
  match c1, c2 with
  | Eq, Eq => Eq
  | _, _ => Lt
  end.

End FloatOrder.

(** * Properties *)

(** ** Comparisons of binary64 values *)
Module FloatFacts.
Import JS.
Local Open Scope float_scope.

Lemma SFcompare_antisym (x y : spec_float) :
  SFcompare y x = option_map CompOpp (SFcompare x y).
Proof.
  destruct x as [sx|sx| |sx mx ex], y as [sy|sy| |sy my ey]; simpl;
    try destruct sx; try destruct sy; try reflexivity.
  - rewrite (Z.compare_antisym ey ex). destruct (ey ?= ex)%Z; simpl; try reflexivity.
    rewrite (Pos.compare_cont_antisym mx my Eq). simpl.
    destruct (Pos.compare_cont Eq mx my); reflexivity.
  - rewrite (Z.compare_antisym ey ex). destruct (ey ?= ex)%Z; simpl; try reflexivity.
    rewrite (Pos.compare_cont_antisym mx my Eq). reflexivity.
Qed.

Lemma comparable (x y : float) :
  is_nan x = false -> is_nan y = false ->
  exists c, SFcompare (Prim2SF x) (Prim2SF y) = Some c.
Proof.
  unfold is_nan. intros Hx Hy.
  apply negb_false_iff in Hx, Hy.
  rewrite FloatAxioms.eqb_spec in Hx, Hy. unfold SFeqb in Hx, Hy.
  destruct (Prim2SF x), (Prim2SF y); simpl in *; try discriminate; eauto.
Qed.

Lemma ltb_leb (x y : float) : (x <? y) = true -> (x <=? y) = true.
Proof.
  rewrite FloatAxioms.ltb_spec, FloatAxioms.leb_spec. unfold SFltb, SFleb.
  destruct (SFcompare _ _) as [[]|]; congruence.
Qed.

(** [x < y] excludes [y <= x]. *)
Lemma ltb_not_leb (x y : float) : (x <? y) = true -> (y <=? x) = false.
Proof.
  rewrite FloatAxioms.ltb_spec, FloatAxioms.leb_spec. unfold SFltb, SFleb.
  rewrite (SFcompare_antisym (Prim2SF x) (Prim2SF y)).
  destruct (SFcompare _ _) as [[]|]; simpl; congruence.
Qed.

(** The order is total on numbers other than [NaN]. *)
Lemma not_ltb_leb (x y : float) :
  is_nan x = false -> is_nan y = false -> (x <? y) = false -> (y <=? x) = true.
Proof.
  intros Hx Hy. destruct (@comparable x y Hx Hy) as [c Hc].
  rewrite FloatAxioms.ltb_spec, FloatAxioms.leb_spec. unfold SFltb, SFleb.
  rewrite (SFcompare_antisym (Prim2SF x) (Prim2SF y)), Hc.
  destruct c; simpl; congruence.
Qed.

(** [Math.max(0, d)] stays in the unit interval when [d <= 1]. *)
Lemma max0_bounds (d : float) :
  is_nan d = false -> (d <=? 1) = true ->
  (0 <=? Math_max 0 d) = true /\ (Math_max 0 d <=? 1) = true.
Proof.
  intros Hd Hd1. unfold Math_max. change (is_nan 0) with false.
  rewrite Hd. simpl orb. cbv iota.
  destruct (0 <? d) eqn:E0.
  - split; [now apply ltb_leb | assumption].
  - destruct (d <? 0) eqn:E1; [now vm_compute|].
    change (get_sign 0) with false. now vm_compute.
Qed.

(** The clamp of [parseOracleResponse] lands in [[0, 1]] on every number. *)
Lemma clamp_bounds (c : float) :
  is_nan c = false ->
  (0 <=? Oracle.clamp c) = true /\ (Oracle.clamp c <=? 1) = true.
Proof.
  intros Hc. unfold Oracle.clamp, Math_min.
  change (is_nan 1) with false. rewrite Hc. simpl orb. cbv iota.
  destruct (1 <? c) eqn:E1; [now vm_compute|].
  destruct (c <? 1) eqn:E2.
  - apply max0_bounds; [assumption | now apply ltb_leb].
  - change (get_sign 1) with false. cbv iota. apply max0_bounds; [assumption|].
    apply not_ltb_leb; auto.
Qed.

End FloatFacts.

(** ** The brace pattern and the array helpers *)
Module JSFacts.
Import JS.

Lemma fold_push (A B : Type) (f : B -> A) (l : list B) (acc : list A) :
  fold_left (fun xs x => push xs (f x)) l acc = (acc ++ map f l)%list.
Proof.
  revert acc. induction l as [|x l IH]; intros acc; simpl.
  - now rewrite app_nil_r.
  - rewrite IH. unfold push. now rewrite <- app_assoc.
Qed.

Lemma occurs_app (c : ascii) (a b : string) :
  occurs c (a ++ b) = occurs c a || occurs c b.
Proof.
  induction a as [|d a IH]; simpl; [reflexivity|].
  now rewrite IH, orb_assoc.
Qed.

Lemma braces_differ : Ascii.eqb open_brace close_brace = false.
Proof. reflexivity. Qed.

Lemma from_first_open_some (s t : string) :
  from_first_open s = Some t ->
  exists pre r, s = pre ++ t /\ t = String open_brace r /\ occurs open_brace pre = false.
Proof.
  induction s as [|c s IH]; simpl; [discriminate|].
  destruct (Ascii.eqb c open_brace) eqn:E.
  - intros [= <-]. apply Ascii.eqb_eq in E. subst c.
    exists "", s. auto.
  - intros H. destruct (IH H) as (pre & r & -> & -> & Hpre).
    exists (String c pre), r. simpl. rewrite E, Hpre. auto.
Qed.

Lemma upto_last_close_none (t : string) :
  upto_last_close t = None <-> occurs close_brace t = false.
Proof.
  induction t as [|c t IH]; simpl; [tauto|].
  destruct (upto_last_close t) as [p|].
  - split; [discriminate|]. intros H. apply orb_false_iff in H.
    destruct H as [_ H]. apply IH in H. discriminate.
  - destruct (Ascii.eqb c close_brace); simpl.
    + split; discriminate.
    + split; intros _; [now apply IH | reflexivity].
Qed.

Lemma upto_last_close_some (t p : string) :
  upto_last_close t = Some p ->
  exists q post, p = q ++ String close_brace "" /\ t = p ++ post
                 /\ occurs close_brace post = false.
Proof.
  revert p. induction t as [|c t IH]; intros p; simpl; [discriminate|].
  destruct (upto_last_close t) as [p'|] eqn:E.
  - intros [= <-]. destruct (IH p' eq_refl) as (q & post & -> & -> & Hpost).
    exists (String c q), post. auto.
  - destruct (Ascii.eqb c close_brace) eqn:Ec; [|discriminate].
    intros [= <-]. apply Ascii.eqb_eq in Ec. subst c.
    exists "", t. simpl. split; [reflexivity|]. split; [reflexivity|].
    now apply upto_last_close_none.
Qed.

(** The match runs from the first opening brace to the last closing brace. *)
Lemma match_braces_some (s m : string) :
  match_braces s = Some m ->
  exists pre mid post,
    s = pre ++ m ++ post
    /\ m = String open_brace (mid ++ String close_brace "")
    /\ occurs open_brace pre = false
    /\ occurs close_brace post = false.
Proof.
  unfold match_braces. destruct (from_first_open s) as [t|] eqn:E; [|discriminate].
  intros H. destruct (from_first_open_some _ E) as (pre & r & -> & -> & Hpre).
  destruct (upto_last_close_some _ H) as (q & post & -> & Ht & Hpost).
  destruct q as [|d q]; simpl in Ht.
  - injection Ht as Hc _. discriminate Hc.
  - injection Ht as <- Hr. exists pre, q, post. rewrite Hr. simpl. auto.
Qed.

(** There is no match exactly when no closing brace follows an opening one. *)
Lemma match_braces_none (s : string) :
  match_braces s = None <->
  (forall pre rest, s = pre ++ String open_brace rest -> occurs close_brace rest = false).
Proof.
  unfold match_braces. induction s as [|c s IH]; simpl.
  - split; [|reflexivity]. intros _ [|d pre] rest; discriminate.
  - destruct (Ascii.eqb c open_brace) eqn:E.
    + apply Ascii.eqb_eq in E. subst c.
      change (match upto_last_close s with
              | Some p => Some (String open_brace p)
              | None => if Ascii.eqb open_brace close_brace
                        then Some (String open_brace "") else None
              end = None <->
              (forall pre rest, String open_brace s = pre ++ String open_brace rest ->
                                occurs close_brace rest = false)).
      rewrite braces_differ. split.
      * intros H pre rest Hs.
        assert (Hn : occurs close_brace s = false).
        { apply upto_last_close_none. destruct (upto_last_close s); [discriminate|reflexivity]. }
        destruct pre as [|d pre]; simpl in Hs.
        -- injection Hs as Hs. now subst.
        -- injection Hs as _ Hs. subst s. rewrite occurs_app in Hn. apply orb_false_iff in Hn. destruct Hn as [_ Hn].
           exact Hn.
      * intros H. specialize (H "" s eq_refl).
        apply upto_last_close_none in H. now rewrite H.
    + rewrite IH. split.
      * intros H pre rest Hs. destruct pre as [|d pre]; simpl in Hs.
        -- injection Hs as Hc _. subst c. rewrite Ascii.eqb_refl in E. discriminate.
        -- injection Hs as _ Hs. now apply (H pre).
      * intros H pre rest Hs. apply (H (String c pre)). simpl. now rewrite Hs.
Qed.

End JSFacts.

(** ** The reduction of the HTTP service *)
Module OracleFacts.
Import JS Oracle.
Local Open Scope js_scope.

(** One turn of the tallying loop. *)
Lemma http_tally_step_votes (t : Tally) (r : Attempt) :
  optionAVotes (tally_step t r)
    = optionAVotes t + (if votes_A (response r) then 1 else 0)
  /\ optionBVotes (tally_step t r)
    = optionBVotes t + (if votes_B (response r) then 1 else 0).
Proof.
  unfold tally_step, votes_A, votes_B. simpl.
  destruct (optionATrue (response r)), (optionBTrue (response r)); simpl; lia.
Qed.

Lemma http_tally_votes_A (l : list Attempt) (t : Tally) :
  optionAVotes (fold_left tally_step l t)
    = optionAVotes t + List.length (filter (fun r => votes_A (response r)) l).
Proof.
  revert t. induction l as [|r l IH]; intros t; simpl; [lia|].
  rewrite IH. destruct (http_tally_step_votes t r) as [-> _].
  destruct (votes_A (response r)); simpl; lia.
Qed.

Lemma http_tally_votes_B (l : list Attempt) (t : Tally) :
  optionBVotes (fold_left tally_step l t)
    = optionBVotes t + List.length (filter (fun r => votes_B (response r)) l).
Proof.
  revert t. induction l as [|r l IH]; intros t; simpl; [lia|].
  rewrite IH. destruct (http_tally_step_votes t r) as [_ ->].
  destruct (votes_B (response r)); simpl; lia.
Qed.

Lemma http_tally_total (l : list Attempt) (t : Tally) :
  totalConfidence (fold_left tally_step l t)
    = fold_left PrimFloat.add (map (fun r => confidence (response r)) l) (totalConfidence t).
Proof.
  revert t. induction l as [|r l IH]; intros t; simpl; [reflexivity|].
  now rewrite IH.
Qed.

Lemma http_tally_reasonings (l : list Attempt) (t : Tally) :
  reasonings (fold_left tally_step l t) = (reasonings t ++ map line l)%list.
Proof.
  revert t. induction l as [|r l IH]; intros t; simpl.
  - now rewrite app_nil_r.
  - rewrite IH. simpl. unfold push, line. now rewrite <- app_assoc.
Qed.

(** The reply is read off the list of valid responses. *)
Lemma http_reduce_fields (all l : list Attempt) :
  c_votes (reduce all l)
    = {| optionA := List.length (filter (fun r => votes_A (response r)) l);
         optionB := List.length (filter (fun r => votes_B (response r)) l) |}
  /\ c_confidence (reduce all l) = mean (map (fun r => confidence (response r)) l)
  /\ c_reasoning (reduce all l) = join "; " (map line l)
  /\ c_providers (reduce all l) = map provider l
  /\ c_optionATrue (reduce all l)
     = Nat.leb (ceil_half (List.length l))
               (List.length (filter (fun r => votes_A (response r)) l))
  /\ c_optionBTrue (reduce all l)
     = Nat.leb (ceil_half (List.length l))
               (List.length (filter (fun r => votes_B (response r)) l)).
Proof.
  unfold reduce, tally, consensusThreshold, mean, sum. simpl.
  rewrite http_tally_votes_A, http_tally_votes_B, http_tally_total, http_tally_reasonings.
  repeat split; try reflexivity. now rewrite length_map.
Qed.

Section Service.
Variable JSON_parse : string -> throws value.
Variable fetch : string -> string -> string -> throws Response.

(** What the parser returns has a clamped confidence, hence one in the
    unit interval: [JSON.parse] yields no [NaN]. *)
Lemma parse_confidence_clamped (text : value) (v : OracleResponse) :
  parseOracleResponse JSON_parse text = Ret v ->
  exists c, confidence v = clamp c.
Proof.
  unfold parseOracleResponse. destruct text; try discriminate.
  destruct (match_braces s) as [m|]; [|discriminate].
  destruct (JSON_parse m) as [parsed|e]; [|discriminate]. simpl.
  destruct (get parsed "optionATrue") as [a|]; [|discriminate]. simpl.
  destruct (get parsed "optionBTrue") as [b|]; [|discriminate]. simpl.
  destruct (get parsed "confidence") as [c|]; [|discriminate]. simpl.
  destruct (get parsed "reasoning") as [r|]; [|discriminate]. simpl.
  destruct (typeof_differs a TBoolean || typeof_differs b TBoolean
            || typeof_differs c TNumber || typeof_differs r TString);
    [discriminate|].
  intros [= <-]. simpl. eauto.
Qed.

Lemma parse_confidence_bounds (text : value) (v : OracleResponse) :
  parseOracleResponse JSON_parse text = Ret v ->
  is_nan (confidence v) = false ->
  (0 <=? confidence v)%float = true /\ (confidence v <=? 1)%float = true.
Proof.
  intros H Hn. destruct (parse_confidence_clamped text H) as [c Hc].
  rewrite Hc in *. apply FloatFacts.clamp_bounds.
  destruct (is_nan c) eqn:E; [|reflexivity].
  unfold clamp, Math_min in Hn. rewrite E, orb_true_r in Hn.
  vm_compute in Hn. discriminate Hn.
Qed.

(** The loop, from a state it has reached. *)
Lemma collect_thrown (entries : list (option ProviderConfig)) (e : exn) :
  fold_left
    (fun state providerConfig =>
       responses <- state ;;
       r <- turn JSON_parse fetch providerConfig ;;
       Ret (push responses r))
    entries (Throw e) = Throw e.
Proof. induction entries as [|x entries IH]; [reflexivity | exact IH]. Qed.

Lemma collect_objects_from (ps : list ProviderConfig) (acc : list Attempt) :
  fold_left
    (fun state providerConfig =>
       responses <- state ;;
       r <- turn JSON_parse fetch providerConfig ;;
       Ret (push responses r))
    (map Some ps) (Ret acc)
  = Ret (acc ++ map (attempt JSON_parse fetch) ps)%list.
Proof.
  revert acc. induction ps as [|pc ps IH]; intros acc; simpl.
  - now rewrite app_nil_r.
  - rewrite IH. unfold push. now rewrite <- app_assoc.
Qed.

Lemma collect_null_from (entries : list (option ProviderConfig)) (acc : list Attempt) :
  In None entries ->
  fold_left
    (fun state providerConfig =>
       responses <- state ;;
       r <- turn JSON_parse fetch providerConfig ;;
       Ret (push responses r))
    entries (Ret acc)
  = Throw null_element.
Proof.
  revert acc. induction entries as [|x entries IH]; intros acc Hin; [destruct Hin|].
  destruct x as [pc|]; simpl.
  - destruct Hin as [Hin|Hin]; [discriminate Hin|]. now apply IH.
  - apply collect_thrown.
Qed.

(** On an array of objects the loop makes one attempt per element. *)
Lemma collect_map (ps : list ProviderConfig) :
  collect JSON_parse fetch (map Some ps) = Ret (map (attempt JSON_parse fetch) ps).
Proof. unfold collect. now rewrite collect_objects_from. Qed.

(** An element that is [null] ends the loop with its [TypeError]. *)
Lemma collect_null (entries : list (option ProviderConfig)) :
  In None entries -> collect JSON_parse fetch entries = Throw null_element.
Proof. apply collect_null_from. Qed.

(** An array has a [null] element or is an array of objects. *)
Lemma elements_cases (entries : list (option ProviderConfig)) :
  In None entries \/ entries = map Some (objects entries).
Proof.
  induction entries as [|x entries IH]; [now right|].
  destruct x as [pc|]; [|left; now left].
  destruct IH as [IH|IH]; [left; now right|].
  right. simpl. now rewrite <- IH.
Qed.

Lemma objects_map (ps : list ProviderConfig) : objects (map Some ps) = ps.
Proof. induction ps as [|pc ps IH]; simpl; [reflexivity | now rewrite IH]. Qed.

Lemma map_Some_no_null (ps : list ProviderConfig) : ~ In None (map Some ps).
Proof. intros H. apply in_map_iff in H. destruct H as (pc & H & _). discriminate H. Qed.

(** The reply of the handler on a well-formed request. *)
Lemma handler_cases (req : ConsensusRequest) (ps : list ProviderConfig) :
  providers req = Some (map Some ps) -> truthy_str (prompt req) = true ->
  let responses := map (attempt JSON_parse fetch) ps in
  consensus_handler JSON_parse fetch req
    = match filter is_valid responses with
      | [] => NoValidResponses "No valid responses from providers" responses
      | _ :: _ => Success (reduce responses (filter is_valid responses))
      end.
Proof.
  intros Hps Hprompt. unfold consensus_handler. rewrite Hps, Hprompt. simpl.
  rewrite collect_map. reflexivity.
Qed.

(** The reply on a request whose array has a [null] element. *)
Lemma handler_null (req : ConsensusRequest) (entries : list (option ProviderConfig)) :
  providers req = Some entries -> truthy_str (prompt req) = true ->
  In None entries ->
  consensus_handler JSON_parse fetch req
    = EvaluationFailed "Consensus evaluation failed" (message null_element).
Proof.
  intros Hps Hprompt Hnull. unfold consensus_handler. rewrite Hps, Hprompt. simpl.
  now rewrite (collect_null entries Hnull).
Qed.

(** What a success of the handler is made of. *)
Lemma handler_success (req : ConsensusRequest) (c : Consensus) :
  consensus_handler JSON_parse fetch req = Success c ->
  exists ps,
    providers req = Some (map Some ps)
    /\ truthy_str (prompt req) = true
    /\ filter is_valid (map (attempt JSON_parse fetch) ps) <> []
    /\ c = reduce (map (attempt JSON_parse fetch) ps)
             (filter is_valid (map (attempt JSON_parse fetch) ps)).
Proof.
  intros H.
  destruct (providers req) as [entries|] eqn:Hps;
    [|unfold consensus_handler in H; rewrite Hps in H; discriminate H].
  destruct (truthy_str (prompt req)) eqn:Hprompt;
    [|unfold consensus_handler in H; rewrite Hps, Hprompt in H; discriminate H].
  destruct (elements_cases entries) as [Hnull|Hobj].
  - rewrite (handler_null req Hps Hprompt Hnull) in H. discriminate H.
  - exists (objects entries). split; [now f_equal|].
    rewrite Hobj in Hps. split; [reflexivity|].
    rewrite (handler_cases req (objects entries) Hps Hprompt) in H.
    destruct (filter is_valid (map (attempt JSON_parse fetch) (objects entries)))
      as [|x valid]; [discriminate H|].
    injection H as <-. split; [discriminate | reflexivity].
Qed.

End Service.
End OracleFacts.

(** ** The reduction of the plugin action *)
Module PluginFacts.
Import JS Plugin.

Lemma plugin_tally_step_votes (t : Tally) (v : ProviderResponse) :
  optionAVotes (tally_step t v) = optionAVotes t + (if votes_A v then 1 else 0)
  /\ optionBVotes (tally_step t v) = optionBVotes t + (if votes_B v then 1 else 0).
Proof.
  unfold tally_step, votes_A, votes_B. simpl.
  destruct (optionATrue v), (optionBTrue v); simpl; lia.
Qed.

Lemma plugin_tally_votes_A (l : list ProviderResponse) (t : Tally) :
  optionAVotes (fold_left tally_step l t)
    = optionAVotes t + List.length (filter votes_A l).
Proof.
  revert t. induction l as [|v l IH]; intros t; simpl; [lia|].
  rewrite IH. destruct (plugin_tally_step_votes t v) as [-> _].
  destruct (votes_A v); simpl; lia.
Qed.

Lemma plugin_tally_votes_B (l : list ProviderResponse) (t : Tally) :
  optionBVotes (fold_left tally_step l t)
    = optionBVotes t + List.length (filter votes_B l).
Proof.
  revert t. induction l as [|v l IH]; intros t; simpl; [lia|].
  rewrite IH. destruct (plugin_tally_step_votes t v) as [_ ->].
  destruct (votes_B v); simpl; lia.
Qed.

Lemma plugin_tally_total (l : list ProviderResponse) (t : Tally) :
  totalConfidence (fold_left tally_step l t)
    = fold_left PrimFloat.add (map confidence l) (totalConfidence t).
Proof.
  revert t. induction l as [|v l IH]; intros t; simpl; [reflexivity|].
  now rewrite IH.
Qed.

Lemma plugin_tally_reasonings (l : list ProviderResponse) (t : Tally) :
  reasonings (fold_left tally_step l t) = (reasonings t ++ map line l)%list.
Proof.
  revert t. induction l as [|v l IH]; intros t; simpl.
  - now rewrite app_nil_r.
  - rewrite IH. simpl. unfold push, line. now rewrite <- app_assoc.
Qed.

Lemma plugin_tally_providers (l : list ProviderResponse) (t : Tally) :
  usedProviders (fold_left tally_step l t) = (usedProviders t ++ map provider l)%list.
Proof.
  revert t. induction l as [|v l IH]; intros t; simpl.
  - now rewrite app_nil_r.
  - rewrite IH. simpl. unfold push. now rewrite <- app_assoc.
Qed.

(** The result is read off the list of accepted responses. *)
Lemma plugin_reduce_fields (l : list ProviderResponse) :
  l <> [] ->
  reduce l
    = Ret {| cr_optionATrue := Nat.leb CONSENSUS_THRESHOLD (List.length (filter votes_A l));
             cr_optionBTrue := Nat.leb CONSENSUS_THRESHOLD (List.length (filter votes_B l));
             cr_confidence := mean (map confidence l);
             cr_reasoning := join "; " (map line l);
             cr_providers := map provider l;
             cr_votes := {| optionA := List.length (filter votes_A l);
                            optionB := List.length (filter votes_B l) |} |}.
Proof.
  intros Hl. destruct l as [|v l]; [congruence|].
  unfold reduce, tally, mean, sum.
  rewrite plugin_tally_votes_A, plugin_tally_votes_B, plugin_tally_total, plugin_tally_reasonings, plugin_tally_providers.
  simpl. now rewrite length_map.
Qed.

Section Action.
Variable JSON_parse : string -> throws value.
Variable runtime : Runtime.
Variables question optionA_text optionB_text : string.

Lemma collect_from (roster : list LLMProvider) (log : list log_entry)
  (responses : list ProviderResponse) :
  fold_left (collect_step JSON_parse runtime question optionA_text optionB_text)
            roster (log, responses)
    = ((log ++ console JSON_parse runtime question optionA_text optionB_text roster)%list,
       (responses ++ verdicts JSON_parse runtime question optionA_text optionB_text roster)%list).
Proof.
  revert log responses.
  induction roster as [|p roster IH]; intros log responses; cbn [fold_left].
  - unfold Plugin.console, Plugin.verdicts. simpl. now rewrite !app_nil_r.
  - destruct (collect_step JSON_parse runtime question optionA_text optionB_text
                (log, responses) p) as [log' responses'] eqn:E.
    rewrite IH. unfold collect_step in E.
    destruct (callLLMProvider JSON_parse runtime question optionA_text optionB_text p)
      as [out response] eqn:Ec.
    injection E as <- <-.
    unfold Plugin.console, Plugin.verdicts. cbn [flat_map]. rewrite Ec. simpl.
    destruct (accepted response) as [r|]; unfold push;
      now rewrite <- !app_assoc.
Qed.

Lemma collect_spec (roster : list LLMProvider) :
  collect JSON_parse runtime question optionA_text optionB_text roster
    = (console JSON_parse runtime question optionA_text optionB_text roster,
       verdicts JSON_parse runtime question optionA_text optionB_text roster).
Proof. unfold collect. now rewrite collect_from. Qed.

Lemma getConsensus_on_spec (roster : list LLMProvider) :
  getConsensus_on JSON_parse runtime question optionA_text optionB_text roster
    = (console JSON_parse runtime question optionA_text optionB_text roster,
       reduce (verdicts JSON_parse runtime question optionA_text optionB_text roster)).
Proof. unfold getConsensus_on. now rewrite collect_spec. Qed.

End Action.
End PluginFacts.

(** ** Dropping a provider that contributes no accepted verdict *)
Module DropFacts.
Import JS.

Lemma oracle_verdict_of_valid (all all' l : list Oracle.Attempt) :
  Oracle.verdict (Oracle.reduce all l) = Oracle.verdict (Oracle.reduce all' l).
Proof. reflexivity. Qed.

Section Service.
Variable JSON_parse : string -> throws value.
Variable fetch : string -> string -> string -> throws Oracle.Response.

Lemma oracle_valid_without (l1 l2 : list Oracle.ProviderConfig) (pc : Oracle.ProviderConfig) :
  Oracle.is_valid (Oracle.attempt JSON_parse fetch pc) = false ->
  filter Oracle.is_valid (map (Oracle.attempt JSON_parse fetch) (l1 ++ pc :: l2)%list)
    = filter Oracle.is_valid (map (Oracle.attempt JSON_parse fetch) (l1 ++ l2)%list).
Proof.
  intros H. rewrite !map_app, !filter_app. simpl. now rewrite H.
Qed.

(** The handler gives the same verdict with and without a provider whose
    entry is not valid. *)
Lemma oracle_handler_without (prompt : string)
  (l1 l2 : list Oracle.ProviderConfig) (pc : Oracle.ProviderConfig) :
  truthy_str prompt = true ->
  Oracle.is_valid (Oracle.attempt JSON_parse fetch pc) = false ->
  match Oracle.consensus_handler JSON_parse fetch
          {| Oracle.prompt := prompt; Oracle.providers := Some (map Some (l1 ++ pc :: l2)) |},
        Oracle.consensus_handler JSON_parse fetch
          {| Oracle.prompt := prompt; Oracle.providers := Some (map Some (l1 ++ l2)) |} with
  | Oracle.Success c, Oracle.Success c' => Oracle.verdict c = Oracle.verdict c'
  | Oracle.NoValidResponses _ _, Oracle.NoValidResponses _ _ => True
  | _, _ => False
  end.
Proof.
  intros Hprompt H.
  rewrite (OracleFacts.handler_cases JSON_parse fetch
             {| Oracle.prompt := prompt; Oracle.providers := Some (map Some (l1 ++ pc :: l2)) |}
             (l1 ++ pc :: l2)%list eq_refl Hprompt).
  rewrite (OracleFacts.handler_cases JSON_parse fetch
             {| Oracle.prompt := prompt; Oracle.providers := Some (map Some (l1 ++ l2)) |}
             (l1 ++ l2)%list eq_refl Hprompt).
  rewrite (oracle_valid_without l1 l2 pc H).
  destruct (filter Oracle.is_valid (map (Oracle.attempt JSON_parse fetch) (l1 ++ l2)%list));
    [exact I | reflexivity].
Qed.

End Service.

Section Action.
Variable JSON_parse : string -> throws value.
Variable runtime : Plugin.Runtime.
Variables q a b : string.

Lemma plugin_verdicts_without (l1 l2 : list Plugin.LLMProvider) (p : Plugin.LLMProvider) :
  Plugin.accepted (snd (Plugin.callLLMProvider JSON_parse runtime q a b p)) = None ->
  Plugin.verdicts JSON_parse runtime q a b (l1 ++ p :: l2)%list
    = Plugin.verdicts JSON_parse runtime q a b (l1 ++ l2)%list.
Proof.
  intros H. unfold Plugin.verdicts. rewrite !flat_map_app. simpl. now rewrite H.
Qed.

Lemma plugin_result_without (l1 l2 : list Plugin.LLMProvider) (p : Plugin.LLMProvider) :
  Plugin.accepted (snd (Plugin.callLLMProvider JSON_parse runtime q a b p)) = None ->
  snd (Plugin.getConsensus_on JSON_parse runtime q a b (l1 ++ p :: l2)%list)
    = snd (Plugin.getConsensus_on JSON_parse runtime q a b (l1 ++ l2)%list).
Proof.
  intros H. rewrite !PluginFacts.getConsensus_on_spec. simpl.
  now rewrite (plugin_verdicts_without l1 l2 p H).
Qed.

End Action.
End DropFacts.


(** ** Permuting the accepted verdicts *)
Module OrderFacts.

Lemma filter_length_perm (A : Type) (f : A -> bool) (l l' : list A) :
  Permutation l l' -> List.length (filter f l) = List.length (filter f l').
Proof.
  induction 1 as [|x l l' _ IH|x y l|l l' l'' _ IH1 _ IH2]; simpl.
  - reflexivity.
  - destruct (f x); simpl; congruence.
  - destruct (f x), (f y); reflexivity.
  - congruence.
Qed.

Lemma filter_perm (A : Type) (f : A -> bool) (l l' : list A) :
  Permutation l l' -> Permutation (filter f l) (filter f l').
Proof.
  induction 1 as [|x l l' _ IH|x y l|l l' l'' _ IH1 _ IH2]; simpl.
  - constructor.
  - destruct (f x); [now constructor | assumption].
  - destruct (f x), (f y); try reflexivity. constructor.
  - now transitivity (filter f l').
Qed.

Lemma flat_map_perm (A B : Type) (f : A -> list B) (l l' : list A) :
  Permutation l l' -> Permutation (flat_map f l) (flat_map f l').
Proof.
  induction 1 as [|x l l' _ IH|x y l|l l' l'' _ IH1 _ IH2]; simpl.
  - constructor.
  - now apply Permutation_app_head.
  - rewrite !app_assoc. apply Permutation_app_tail, Permutation_app_comm.
  - now transitivity (flat_map f l').
Qed.

(** The six orders of three elements. *)
Lemma three_orders (A : Type) (a b c : A) (l : list A) :
  Permutation [a; b; c] l ->
  l = [a; b; c] \/ l = [a; c; b] \/ l = [b; a; c]
  \/ l = [b; c; a] \/ l = [c; a; b] \/ l = [c; b; a].
Proof.
  intros H. pose proof (Permutation_length H) as Hl.
  destruct l as [|x [|y [|z [|w l]]]]; try discriminate Hl.
  assert (Hin : In a [x; y; z]) by (apply (Permutation_in a H); now left).
  destruct Hin as [->|[->|[->|[]]]].
  - apply Permutation_cons_inv in H. apply Permutation_length_2_inv in H.
    destruct H as [[= <- <-]|[= <- <-]]; auto.
  - apply (@Permutation_cons_app_inv A [b; c] [x] [z] a) in H.
    apply Permutation_length_2_inv in H.
    destruct H as [[= <- <-]|[= <- <-]]; auto 10.
  - apply (@Permutation_cons_app_inv A [b; c] [x; y] [] a) in H.
    apply Permutation_length_2_inv in H.
    destruct H as [[= <- <-]|[= <- <-]]; auto 10.
Qed.

End OrderFacts.


(** * The claims *)

(** C1. The vote rule of the tallying loop, in both variants.  One turn of
    the loop on an accepted verdict adds exactly one vote for A iff
    [optionATrue] is true and [optionBTrue] is false, and leaves the count of
    A unchanged otherwise; the same holds for B with the flags exchanged; a
    verdict whose two flags are equal changes neither count.  In every case
    the turn adds the confidence of the verdict to the running total and
    appends its line to the reasoning trail, so the reply has the mean over
    all accepted verdicts and the lines of all of them. *)
Theorem C1_vote_rule :
  (forall (t : Oracle.Tally) (r : Oracle.Attempt),
      let v := Oracle.response r in
      let t' := Oracle.tally_step t r in
      (Oracle.optionAVotes t' = S (Oracle.optionAVotes t)
         <-> Oracle.optionATrue v = true /\ Oracle.optionBTrue v = false)
      /\ (Oracle.optionAVotes t' = Oracle.optionAVotes t
         <-> ~ (Oracle.optionATrue v = true /\ Oracle.optionBTrue v = false))
      /\ (Oracle.optionBVotes t' = S (Oracle.optionBVotes t)
         <-> Oracle.optionBTrue v = true /\ Oracle.optionATrue v = false)
      /\ (Oracle.optionBVotes t' = Oracle.optionBVotes t
         <-> ~ (Oracle.optionBTrue v = true /\ Oracle.optionATrue v = false))
      /\ (Oracle.optionATrue v = Oracle.optionBTrue v ->
          Oracle.optionAVotes t' = Oracle.optionAVotes t
          /\ Oracle.optionBVotes t' = Oracle.optionBVotes t)
      /\ Oracle.totalConfidence t' = (Oracle.totalConfidence t + Oracle.confidence v)%float
      /\ Oracle.reasonings t' = (Oracle.reasonings t ++ [Oracle.line r])%list)
  /\ (forall all l : list Oracle.Attempt,
      Oracle.c_votes (Oracle.reduce all l)
        = {| Oracle.optionA :=
               List.length (filter (fun r => Oracle.votes_A (Oracle.response r)) l);
             Oracle.optionB :=
               List.length (filter (fun r => Oracle.votes_B (Oracle.response r)) l) |}
      /\ Oracle.c_confidence (Oracle.reduce all l)
         = JS.mean (map (fun r => Oracle.confidence (Oracle.response r)) l)
      /\ Oracle.c_reasoning (Oracle.reduce all l) = JS.join "; " (map Oracle.line l))
  /\ (forall (t : Plugin.Tally) (v : Plugin.ProviderResponse),
      let t' := Plugin.tally_step t v in
      (Plugin.optionAVotes t' = S (Plugin.optionAVotes t)
         <-> Plugin.optionATrue v = true /\ Plugin.optionBTrue v = false)
      /\ (Plugin.optionAVotes t' = Plugin.optionAVotes t
         <-> ~ (Plugin.optionATrue v = true /\ Plugin.optionBTrue v = false))
      /\ (Plugin.optionBVotes t' = S (Plugin.optionBVotes t)
         <-> Plugin.optionBTrue v = true /\ Plugin.optionATrue v = false)
      /\ (Plugin.optionBVotes t' = Plugin.optionBVotes t
         <-> ~ (Plugin.optionBTrue v = true /\ Plugin.optionATrue v = false))
      /\ (Plugin.optionATrue v = Plugin.optionBTrue v ->
          Plugin.optionAVotes t' = Plugin.optionAVotes t
          /\ Plugin.optionBVotes t' = Plugin.optionBVotes t)
      /\ Plugin.totalConfidence t' = (Plugin.totalConfidence t + Plugin.confidence v)%float
      /\ Plugin.reasonings t' = (Plugin.reasonings t ++ [Plugin.line v])%list)
  /\ (forall (v : Plugin.ProviderResponse) (l : list Plugin.ProviderResponse),
      exists r, Plugin.reduce (v :: l) = JS.Ret r
        /\ Plugin.cr_votes r
           = {| Plugin.optionA := List.length (filter Plugin.votes_A (v :: l));
                Plugin.optionB := List.length (filter Plugin.votes_B (v :: l)) |}
        /\ Plugin.cr_confidence r = JS.mean (map Plugin.confidence (v :: l))
        /\ Plugin.cr_reasoning r = JS.join "; " (map Plugin.line (v :: l))).
Proof.
  split; [|split; [|split]].
  - intros t r v t'. subst v t'. unfold Oracle.tally_step, Oracle.line, JS.push. simpl.
    destruct (Oracle.optionATrue (Oracle.response r)),
             (Oracle.optionBTrue (Oracle.response r)); simpl;
      repeat split; try reflexivity; try lia; try tauto; try congruence;
      intuition (try lia; try congruence).
  - intros all l. destruct (OracleFacts.http_reduce_fields all l) as (Hv & Hc & Hr & _).
    auto.
  - intros t v t'. subst t'. unfold Plugin.tally_step, Plugin.line, JS.push. simpl.
    destruct (Plugin.optionATrue v), (Plugin.optionBTrue v); simpl;
      repeat split; try reflexivity; try lia; try tauto; try congruence;
      intuition (try lia; try congruence).
  - intros v l. eexists. split.
    + apply PluginFacts.plugin_reduce_fields. discriminate.
    + simpl. auto.
Qed.

(** C2. Three accepted verdicts, A at 0.8, A at 0.75 and B at 0.9, whatever
    their providers and reasonings, and in whatever order they were
    collected: with the threshold 2 (the constant of the plugin, and
    [ceil(3 / 2)] in the HTTP service) the result has [optionATrue = true],
    [optionBTrue = false], the votes [{A: 2, B: 1}] and the confidence
    [(0.8 + 0.75 + 0.9) / 3].  The binary64 mean of these three confidences is
    the same in each of the six orders. *)
Theorem C2_two_for_A_one_for_B :
  forall p1 p2 p3 m1 m2 m3 r1 r2 r3 : string,
    (let vs :=
       [ {| Plugin.provider := p1; Plugin.pr_model := m1; Plugin.optionATrue := true;
            Plugin.optionBTrue := false; Plugin.confidence := 0.8; Plugin.reasoning := r1 |};
         {| Plugin.provider := p2; Plugin.pr_model := m2; Plugin.optionATrue := true;
            Plugin.optionBTrue := false; Plugin.confidence := 0.75; Plugin.reasoning := r2 |};
         {| Plugin.provider := p3; Plugin.pr_model := m3; Plugin.optionATrue := false;
            Plugin.optionBTrue := true; Plugin.confidence := 0.9; Plugin.reasoning := r3 |} ] in
     Plugin.CONSENSUS_THRESHOLD = 2
     /\ Forall (fun v => Plugin.accepted (Some v) = Some v) vs
     /\ forall l, Permutation vs l ->
          exists r, Plugin.reduce l = JS.Ret r
            /\ Plugin.cr_optionATrue r = true
            /\ Plugin.cr_optionBTrue r = false
            /\ Plugin.cr_votes r = {| Plugin.optionA := 2; Plugin.optionB := 1 |}
            /\ Plugin.cr_confidence r = ((0.8 + 0.75 + 0.9) / 3)%float)
    /\ (let vs :=
          [ Oracle.verdict_of p1
              {| Oracle.optionATrue := true; Oracle.optionBTrue := false;
                 Oracle.confidence := 0.8; Oracle.reasoning := r1 |};
            Oracle.verdict_of p2
              {| Oracle.optionATrue := true; Oracle.optionBTrue := false;
                 Oracle.confidence := 0.75; Oracle.reasoning := r2 |};
            Oracle.verdict_of p3
              {| Oracle.optionATrue := false; Oracle.optionBTrue := true;
                 Oracle.confidence := 0.9; Oracle.reasoning := r3 |} ] in
        forall all l, Permutation vs l ->
          filter Oracle.is_valid l = l
          /\ Oracle.consensusThreshold l = 2
          /\ Oracle.c_optionATrue (Oracle.reduce all l) = true
          /\ Oracle.c_optionBTrue (Oracle.reduce all l) = false
          /\ Oracle.c_votes (Oracle.reduce all l)
             = {| Oracle.optionA := 2; Oracle.optionB := 1 |}
          /\ Oracle.c_confidence (Oracle.reduce all l) = ((0.8 + 0.75 + 0.9) / 3)%float).
Proof.
  intros. split.
  - split; [reflexivity|]. split; [repeat constructor|].
    intros l H. apply OrderFacts.three_orders in H.
    destruct H as [ -> | [ -> | [ -> | [ -> | [ -> | -> ]]]]];
      (eexists; split; [reflexivity|]; repeat split; reflexivity).
  - intros vs all l H. subst vs. apply OrderFacts.three_orders in H.
    destruct H as [ -> | [ -> | [ -> | [ -> | [ -> | -> ]]]]]; repeat split; reflexivity.
Qed.

(** C2 on the three verdicts collected with the vote for B first. *)
Lemma C2_witness :
  exists r,
    Plugin.reduce
      [ {| Plugin.provider := "gemini"; Plugin.pr_model := "gemini-1.5-flash";
           Plugin.optionATrue := false; Plugin.optionBTrue := true;
           Plugin.confidence := 0.9; Plugin.reasoning := "supply grows" |};
        {| Plugin.provider := "openai"; Plugin.pr_model := "gpt-4";
           Plugin.optionATrue := true; Plugin.optionBTrue := false;
           Plugin.confidence := 0.8; Plugin.reasoning := "likely" |};
        {| Plugin.provider := "deepseek"; Plugin.pr_model := "deepseek-chat";
           Plugin.optionATrue := true; Plugin.optionBTrue := false;
           Plugin.confidence := 0.75; Plugin.reasoning := "rates fall" |} ] = JS.Ret r
    /\ Plugin.cr_optionATrue r = true
    /\ Plugin.cr_optionBTrue r = false
    /\ Plugin.cr_votes r = {| Plugin.optionA := 2; Plugin.optionB := 1 |}
    /\ Plugin.cr_confidence r = ((0.8 + 0.75 + 0.9) / 3)%float.
Proof.
  destruct (C2_two_for_A_one_for_B "openai" "deepseek" "gemini" "gpt-4" "deepseek-chat"
              "gemini-1.5-flash" "likely" "rates fall" "supply grows")
    as [(_ & _ & Hplugin) _].
  apply Hplugin.
  apply (perm_trans (l' := [ {| Plugin.provider := "openai"; Plugin.pr_model := "gpt-4";
                                Plugin.optionATrue := true; Plugin.optionBTrue := false;
                                Plugin.confidence := 0.8; Plugin.reasoning := "likely" |};
                             {| Plugin.provider := "gemini";
                                Plugin.pr_model := "gemini-1.5-flash";
                                Plugin.optionATrue := false; Plugin.optionBTrue := true;
                                Plugin.confidence := 0.9;
                                Plugin.reasoning := "supply grows" |};
                             {| Plugin.provider := "deepseek";
                                Plugin.pr_model := "deepseek-chat";
                                Plugin.optionATrue := true; Plugin.optionBTrue := false;
                                Plugin.confidence := 0.75;
                                Plugin.reasoning := "rates fall" |} ])).
  - apply perm_skip, perm_swap.
  - apply perm_swap.
Defined.

(** C3, as stated, fails in the plugin: the error that [getConsensus] throws
    when no verdict is accepted is the same whatever made the providers fail,
    and the failures are only written to the console.  Two hosts show it, one
    without any API key, one whose providers answer without a JSON object:
    both evaluations throw the same error while their failures differ, so no
    reading of the error gives the failures back. *)
Lemma C3_counterexample :
  let run := fun host =>
    Plugin.getConsensus Samples.JSON_parse host Samples.question
      Samples.optionA_text Samples.optionB_text None in
  snd (run Samples.host_no_keys)
    = JS.Throw (JS.Error "No valid responses received from AI providers")
  /\ snd (run Samples.host_no_json)
     = JS.Throw (JS.Error "No valid responses received from AI providers")
  /\ fst (run Samples.host_no_keys)
     = [ Plugin.console_warn "No API key configured for openai";
         Plugin.console_warn "No API key configured for deepseek";
         Plugin.console_warn "No API key configured for gemini" ]
  /\ fst (run Samples.host_no_json)
     = [ Plugin.console_error "No JSON found in openai response" None;
         Plugin.console_error "No JSON found in deepseek response" None;
         Plugin.console_error "No JSON found in gemini response" None ]
  /\ ~ (exists decode : JS.exn -> list Plugin.log_entry,
          forall JSON_parse runtime q a b enabled e,
            snd (Plugin.getConsensus JSON_parse runtime q a b enabled) = JS.Throw e ->
            decode e = fst (Plugin.getConsensus JSON_parse runtime q a b enabled)).
Proof.
  repeat split; try reflexivity.
  intros [decode H].
  pose proof (H Samples.JSON_parse Samples.host_no_keys Samples.question
                Samples.optionA_text Samples.optionB_text None _ eq_refl) as H1.
  pose proof (H Samples.JSON_parse Samples.host_no_json Samples.question
                Samples.optionA_text Samples.optionB_text None _ eq_refl) as H2.
  vm_compute in H1, H2. rewrite H1 in H2. discriminate H2.
Qed.

(** C3, amended.  When no verdict is accepted the evaluation fails and no
    consensus is returned, in both variants, and a consensus is returned only
    if some verdict was accepted.  The HTTP service replies with the error
    ["No valid responses from providers"] and the list of all attempts, one
    per provider, failures with their message; the plugin throws an error
    with a fixed message and no failure list.  A request whose [providers]
    array has a [null] element gets no consensus either: the service replies
    with the error of its outer [catch]. *)
Theorem C3_no_accepted_verdict_fails :
  (forall (JSON_parse : string -> JS.throws JS.value)
          (fetch : string -> string -> string -> JS.throws Oracle.Response)
          (req : Oracle.ConsensusRequest) (ps : list Oracle.ProviderConfig),
      Oracle.providers req = Some (map Some ps) ->
      JS.truthy_str (Oracle.prompt req) = true ->
      let responses := map (Oracle.attempt JSON_parse fetch) ps in
      (filter Oracle.is_valid responses = [] ->
       Oracle.consensus_handler JSON_parse fetch req
         = Oracle.NoValidResponses "No valid responses from providers" responses)
      /\ (forall c, Oracle.consensus_handler JSON_parse fetch req = Oracle.Success c ->
                    filter Oracle.is_valid responses <> []))
  /\ (forall (JSON_parse : string -> JS.throws JS.value) (runtime : Plugin.Runtime)
             (q a b : string) (roster : list Plugin.LLMProvider),
      (Plugin.verdicts JSON_parse runtime q a b roster = [] ->
       Plugin.getConsensus_on JSON_parse runtime q a b roster
         = (Plugin.console JSON_parse runtime q a b roster,
            JS.Throw (JS.Error "No valid responses received from AI providers")))
      /\ (forall r, snd (Plugin.getConsensus_on JSON_parse runtime q a b roster) = JS.Ret r ->
                    Plugin.verdicts JSON_parse runtime q a b roster <> []))
  /\ (forall (JSON_parse : string -> JS.throws JS.value)
             (fetch : string -> string -> string -> JS.throws Oracle.Response)
             (req : Oracle.ConsensusRequest),
      (forall c, Oracle.consensus_handler JSON_parse fetch req = Oracle.Success c ->
         exists ps,
           Oracle.providers req = Some (map Some ps)
           /\ filter Oracle.is_valid (map (Oracle.attempt JSON_parse fetch) ps) <> [])
      /\ (forall entries,
            Oracle.providers req = Some entries ->
            JS.truthy_str (Oracle.prompt req) = true ->
            In None entries ->
            Oracle.consensus_handler JSON_parse fetch req
              = Oracle.EvaluationFailed "Consensus evaluation failed"
                  "Cannot read properties of null (reading 'provider')")).
Proof.
  split; [|split].
  3: { intros JSON_parse fetch req. split.
       - intros c H.
         destruct (OracleFacts.handler_success JSON_parse fetch req H)
           as (ps & Hps & _ & Hne & _).
         exists ps. auto.
       - intros entries Hps Hprompt Hnull.
         apply (OracleFacts.handler_null JSON_parse fetch req Hps Hprompt Hnull). }
  - intros JSON_parse fetch req ps Hps Hprompt responses.
    rewrite (OracleFacts.handler_cases JSON_parse fetch req ps Hps Hprompt).
    fold responses. split.
    + now intros ->.
    + intros c. destruct (filter Oracle.is_valid responses); [discriminate|].
      intros _. discriminate.
  - intros JSON_parse runtime q a b roster.
    rewrite PluginFacts.getConsensus_on_spec. split.
    + now intros ->.
    + intros r. simpl.
      destruct (Plugin.verdicts JSON_parse runtime q a b roster); [discriminate|].
      intros _. discriminate.
Qed.

(** C3 on an upstream where every provider fails, and on a host without
    API keys. *)
Lemma C3_witness :
  Oracle.consensus_handler Samples.JSON_parse Samples.up_all_fail
      (Samples.request Samples.roster)
    = Oracle.NoValidResponses "No valid responses from providers"
        (map (Oracle.attempt Samples.JSON_parse Samples.up_all_fail) Samples.roster)
  /\ Plugin.getConsensus_on Samples.JSON_parse Samples.host_no_keys Samples.question
       Samples.optionA_text Samples.optionB_text Plugin.LLM_PROVIDERS
     = (Plugin.console Samples.JSON_parse Samples.host_no_keys Samples.question
          Samples.optionA_text Samples.optionB_text Plugin.LLM_PROVIDERS,
        JS.Throw (JS.Error "No valid responses received from AI providers")).
Proof.
  split.
  - apply (proj1 C3_no_accepted_verdict_fails Samples.JSON_parse Samples.up_all_fail
             (Samples.request Samples.roster) Samples.roster eq_refl eq_refl).
    reflexivity.
  - apply (proj1 (proj2 C3_no_accepted_verdict_fails) Samples.JSON_parse
             Samples.host_no_keys
             Samples.question Samples.optionA_text Samples.optionB_text
             Plugin.LLM_PROVIDERS).
    reflexivity.
Defined.

(** C4.  Every verdict is to have a confidence in [[0, 1]], an upstream
    value outside being clamped when the verdict is created.  The parser of
    the HTTP service does so ([FloatFacts.clamp_bounds]); the plugin does
    not.  On a reply whose JSON object has the confidence [1.5]
    ([Samples.text_A150]) the plugin's [callLLMProvider] returns a verdict of
    confidence [1.5], which is above [1], accepted, and reported as the
    confidence of the consensus; on a confidence of [-0.3] it returns
    [-0.3].  The parser of the HTTP service returns [1] and [0] on the same
    texts. *)
Theorem C4_plugin_confidence_not_clamped :
  Plugin.callLLMProvider Samples.JSON_parse Samples.host_overconfident Samples.question
      Samples.optionA_text Samples.optionB_text
      {| Plugin.name := "openai"; Plugin.model := "gpt-4" |}
    = ([], Some {| Plugin.provider := "openai"; Plugin.pr_model := "gpt-4";
                   Plugin.optionATrue := true; Plugin.optionBTrue := false;
                   Plugin.confidence := 1.5; Plugin.reasoning := "certain" |})
  /\ (1 <? 1.5)%float = true
  /\ (exists r,
        snd (Plugin.getConsensus Samples.JSON_parse Samples.host_overconfident
               Samples.question Samples.optionA_text Samples.optionB_text None)
          = JS.Ret r
        /\ Plugin.cr_confidence r = 1.5%float)
  /\ Oracle.parseOracleResponse Samples.JSON_parse (JS.VStr Samples.text_A150)
     = JS.Ret {| Oracle.optionATrue := true; Oracle.optionBTrue := false;
                 Oracle.confidence := 1; Oracle.reasoning := "certain" |}
  /\ Oracle.parseOracleResponse Samples.JSON_parse (JS.VStr Samples.text_Bneg)
     = JS.Ret {| Oracle.optionATrue := false; Oracle.optionBTrue := true;
                 Oracle.confidence := 0; Oracle.reasoning := "doubt" |}
  /\ snd (Plugin.callLLMProvider Samples.JSON_parse
            (Samples.host Samples.all_keys
               [("openai", JS.Ret (JS.VStr Samples.text_Bneg))])
            Samples.question Samples.optionA_text Samples.optionB_text
            {| Plugin.name := "openai"; Plugin.model := "gpt-4" |})
     = Some {| Plugin.provider := "openai"; Plugin.pr_model := "gpt-4";
               Plugin.optionATrue := false; Plugin.optionBTrue := true;
               Plugin.confidence := (-0.3)%float; Plugin.reasoning := "doubt" |}.
Proof.
  split; [reflexivity|]. split; [reflexivity|]. split.
  - eexists. split; reflexivity.
  - repeat split; reflexivity.
Qed.

(** C5, as stated, fails: the pattern is greedy, so the parser takes the text
    from the first opening brace to the last closing brace, not the first
    balanced object.  On a reply that has a second pair of braces after the
    object the two differ, and the parser fails where the first balanced
    object would have parsed. *)
Lemma C5_counterexample :
  Spec.first_balanced_object Samples.text_two_objects = Some Samples.text_A80
  /\ JS.match_braces Samples.text_two_objects
     = Some (Samples.text_A80 ++ " (scale: {0..1}")
  /\ JS.match_braces Samples.text_two_objects
     <> Spec.first_balanced_object Samples.text_two_objects
  /\ Oracle.parseOracleResponse Samples.JSON_parse (JS.VStr Samples.text_two_objects)
     = JS.Throw (JS.SyntaxError "Unexpected token in JSON")
  /\ Oracle.parseOracleResponse Samples.JSON_parse (JS.VStr Samples.text_A80)
     = JS.Ret {| Oracle.optionATrue := true; Oracle.optionBTrue := false;
                 Oracle.confidence := 0.8; Oracle.reasoning := "rates fall" |}.
Proof.
  split; [reflexivity|]. split; [reflexivity|]. split; [|split; reflexivity].
  vm_compute. discriminate.
Qed.

(** C5, amended.  For every raw text the parser takes the substring from
    the first opening brace to the last closing brace of the text.  If there
    is none, that is if no closing brace follows an opening one, it fails with
    the error ["No JSON found in response"]; if [JSON.parse] throws on the
    substring it fails with that error; if one of [optionATrue] (boolean),
    [optionBTrue] (boolean), [confidence] (number), [reasoning] (string) is
    absent or of another type it fails with ["Invalid response structure"];
    otherwise it returns the verdict, the confidence clamped.  The plugin
    takes the same substring and makes the same checks; each failure makes
    [callLLMProvider] log it and return [null], and a valid object gives the
    verdict with the confidence as parsed. *)
Theorem C5_parser_cases :
  forall (JSON_parse : string -> JS.throws JS.value) (text : string),
    (JS.match_braces text = None ->
     (forall pre rest, text = pre ++ String JS.open_brace rest ->
                       JS.occurs JS.close_brace rest = false)
     /\ Oracle.parseOracleResponse JSON_parse (JS.VStr text)
        = JS.Throw (JS.Error "No JSON found in response"))
    /\ (forall m, JS.match_braces text = Some m ->
        (exists pre mid post,
            text = pre ++ m ++ post
            /\ m = String JS.open_brace (mid ++ String JS.close_brace "")
            /\ JS.occurs JS.open_brace pre = false
            /\ JS.occurs JS.close_brace post = false)
        /\ (forall e, JSON_parse m = JS.Throw e ->
                      Oracle.parseOracleResponse JSON_parse (JS.VStr text) = JS.Throw e)
        /\ (forall fields, JSON_parse m = JS.Ret (JS.VObj fields) ->
            let a := JS.assoc "optionATrue" fields in
            let b := JS.assoc "optionBTrue" fields in
            let c := JS.assoc "confidence" fields in
            let r := JS.assoc "reasoning" fields in
            (JS.typeof a <> JS.TBoolean \/ JS.typeof b <> JS.TBoolean
             \/ JS.typeof c <> JS.TNumber \/ JS.typeof r <> JS.TString ->
             Oracle.parseOracleResponse JSON_parse (JS.VStr text)
               = JS.Throw (JS.Error "Invalid response structure"))
            /\ (forall va vb vc vr,
                   a = JS.VBool va -> b = JS.VBool vb -> c = JS.VNum vc -> r = JS.VStr vr ->
                   Oracle.parseOracleResponse JSON_parse (JS.VStr text)
                     = JS.Ret {| Oracle.optionATrue := va; Oracle.optionBTrue := vb;
                                 Oracle.confidence := Oracle.clamp vc;
                                 Oracle.reasoning := vr |})))
    /\ (forall (runtime : Plugin.Runtime) (q a b : string) (p : Plugin.LLMProvider),
        Plugin.missing
          (Plugin.or_else
             (Plugin.process_env runtime (Plugin.toUpperCase (Plugin.name p) ++ "_API_KEY"))
             (Plugin.getSetting runtime (Plugin.name p ++ "ApiKey"))) = false ->
        Plugin.generateText runtime p q a b = JS.Ret (JS.VStr text) ->
        let call := Plugin.callLLMProvider JSON_parse runtime q a b p in
        (JS.match_braces text = None ->
         call = ([Plugin.console_error ("No JSON found in " ++ Plugin.name p ++ " response")
                    None], None))
        /\ (forall m, JS.match_braces text = Some m ->
            (forall e, JSON_parse m = JS.Throw e ->
               call = ([Plugin.console_error ("Error calling " ++ Plugin.name p ++ ":")
                          (Some e)], None))
            /\ (forall fields, JSON_parse m = JS.Ret (JS.VObj fields) ->
                let fa := JS.assoc "optionATrue" fields in
                let fb := JS.assoc "optionBTrue" fields in
                let fc := JS.assoc "confidence" fields in
                let fr := JS.assoc "reasoning" fields in
                (JS.typeof fa <> JS.TBoolean \/ JS.typeof fb <> JS.TBoolean
                 \/ JS.typeof fc <> JS.TNumber \/ JS.typeof fr <> JS.TString ->
                 call = ([Plugin.console_error
                            ("Invalid response structure from " ++ Plugin.name p) None],
                         None))
                /\ (forall va vb vc vr,
                       fa = JS.VBool va -> fb = JS.VBool vb ->
                       fc = JS.VNum vc -> fr = JS.VStr vr ->
                       call = ([], Some {| Plugin.provider := Plugin.name p;
                                           Plugin.pr_model := Plugin.model p;
                                           Plugin.optionATrue := va;
                                           Plugin.optionBTrue := vb;
                                           Plugin.confidence := vc;
                                           Plugin.reasoning := vr |}))))).
Proof.
  intros JSON_parse text. split; [|split].
  - intros H. split; [now apply JSFacts.match_braces_none|].
    unfold Oracle.parseOracleResponse. now rewrite H.
  - intros m H. split; [now apply JSFacts.match_braces_some|].
    unfold Oracle.parseOracleResponse. rewrite H. split.
    + now intros e ->.
    + intros fields ->. simpl. split.
      * intros Hbad.
        destruct (JS.assoc "optionATrue" fields), (JS.assoc "optionBTrue" fields),
                 (JS.assoc "confidence" fields), (JS.assoc "reasoning" fields);
          simpl in *; try reflexivity; exfalso; intuition congruence.
      * now intros va vb vc vr -> -> -> ->.
  - intros runtime q a b p Hkey Htext call. subst call.
    unfold Plugin.callLLMProvider, Plugin.callLLMProvider_try.
    rewrite Hkey, Htext. simpl. split; [now intros ->|].
    intros m ->. split; [now intros e ->|].
    intros fields ->. simpl. split.
    + intros Hbad.
      destruct (JS.assoc "optionATrue" fields), (JS.assoc "optionBTrue" fields),
               (JS.assoc "confidence" fields), (JS.assoc "reasoning" fields);
        simpl in *; try reflexivity; exfalso; intuition congruence.
    + now intros va vb vc vr -> -> -> ->.
Qed.

(** C5 on a reply in prose, a reply without braces, a truncated object
    and an object without [reasoning]. *)
Lemma C5_witness :
  Oracle.parseOracleResponse Samples.JSON_parse
      (JS.VStr (Samples.in_prose Samples.text_A80))
    = JS.Ret {| Oracle.optionATrue := true; Oracle.optionBTrue := false;
                Oracle.confidence := Oracle.clamp 0.8; Oracle.reasoning := "rates fall" |}
  /\ Oracle.parseOracleResponse Samples.JSON_parse (JS.VStr "I cannot answer that.")
     = JS.Throw (JS.Error "No JSON found in response")
  /\ Oracle.parseOracleResponse Samples.JSON_parse (JS.VStr Samples.text_truncated)
     = JS.Throw (JS.SyntaxError "Unexpected token in JSON")
  /\ Oracle.parseOracleResponse Samples.JSON_parse (JS.VStr Samples.text_no_reasoning)
     = JS.Throw (JS.Error "Invalid response structure").
Proof.
  split; [|split; [|split]].
  - destruct (C5_parser_cases Samples.JSON_parse (Samples.in_prose Samples.text_A80))
      as (_ & H & _).
    destruct (H Samples.text_A80 eq_refl) as (_ & _ & Hf).
    apply (proj2 (Hf _ eq_refl)); reflexivity.
  - apply (proj1 (C5_parser_cases Samples.JSON_parse "I cannot answer that.")).
    reflexivity.
  - destruct (C5_parser_cases Samples.JSON_parse Samples.text_truncated) as (_ & H & _).
    destruct (H Samples.text_truncated eq_refl) as (_ & He & _).
    apply He. reflexivity.
  - destruct (C5_parser_cases Samples.JSON_parse Samples.text_no_reasoning)
      as (_ & H & _).
    destruct (H Samples.text_no_reasoning eq_refl) as (_ & _ & Hf).
    apply (proj1 (Hf _ eq_refl)). right. right. right. discriminate.
Defined.

(** C6.  The floor is 0.7 in both variants.  A verdict is accepted iff its
    confidence is at least 0.7.  A provider whose verdict has a confidence
    below 0.7 is dropped before the reduction: the evaluation gives the same
    flags, votes, mean confidence, reasoning trail and providers list as the
    evaluation without that provider.  A verdict of at least 0.7 reaches the
    reduction: in the plugin the collecting loop leaves in [responses]
    exactly the verdicts that a provider of the roster returned with a
    confidence of at least 0.7, the result is the reduction of that list, and
    such a verdict makes the evaluation succeed with its provider in the
    providers list; in the HTTP service a verdict created without error and
    of at least 0.7 is among the valid responses of a success, its provider
    is in the providers list, and the fields of every success are computed
    from the entries of [allResponses] that have no error and a confidence
    of at least 0.7. *)
Theorem C6_confidence_floor :
  Plugin.MIN_CONFIDENCE = 0.7%float
  /\ (forall (p : string) (v : Oracle.OracleResponse),
        Oracle.is_valid (Oracle.verdict_of p v) = true
        <-> (0.7 <=? Oracle.confidence v)%float = true)
  /\ (forall v : Plugin.ProviderResponse,
        Plugin.accepted (Some v) = Some v
        <-> (0.7 <=? Plugin.confidence v)%float = true)
  /\ (forall (JSON_parse : string -> JS.throws JS.value)
             (fetch : string -> string -> string -> JS.throws Oracle.Response)
             (prompt : string) (l1 l2 : list Oracle.ProviderConfig)
             (pc : Oracle.ProviderConfig),
        JS.truthy_str prompt = true ->
        (Oracle.confidence (Oracle.response (Oracle.attempt JSON_parse fetch pc)) <? 0.7)%float
          = true ->
        match Oracle.consensus_handler JSON_parse fetch
                {| Oracle.prompt := prompt; Oracle.providers := Some (map Some (l1 ++ pc :: l2)) |},
              Oracle.consensus_handler JSON_parse fetch
                {| Oracle.prompt := prompt; Oracle.providers := Some (map Some (l1 ++ l2)) |} with
        | Oracle.Success c, Oracle.Success c' => Oracle.verdict c = Oracle.verdict c'
        | Oracle.NoValidResponses _ _, Oracle.NoValidResponses _ _ => True
        | _, _ => False
        end)
  /\ (forall (JSON_parse : string -> JS.throws JS.value) (runtime : Plugin.Runtime)
             (q a b : string) (l1 l2 : list Plugin.LLMProvider) (p : Plugin.LLMProvider)
             (v : Plugin.ProviderResponse),
        snd (Plugin.callLLMProvider JSON_parse runtime q a b p) = Some v ->
        (Plugin.confidence v <? 0.7)%float = true ->
        snd (Plugin.getConsensus_on JSON_parse runtime q a b (l1 ++ p :: l2)%list)
          = snd (Plugin.getConsensus_on JSON_parse runtime q a b (l1 ++ l2)%list))
  /\ (forall (JSON_parse : string -> JS.throws JS.value) (runtime : Plugin.Runtime)
             (q a b : string) (roster : list Plugin.LLMProvider),
        let responses := snd (Plugin.collect JSON_parse runtime q a b roster) in
        (forall v,
            In v responses
            <-> exists p, In p roster
                  /\ snd (Plugin.callLLMProvider JSON_parse runtime q a b p) = Some v
                  /\ (0.7 <=? Plugin.confidence v)%float = true)
        /\ snd (Plugin.getConsensus_on JSON_parse runtime q a b roster)
           = Plugin.reduce responses
        /\ (forall p v,
              In p roster ->
              snd (Plugin.callLLMProvider JSON_parse runtime q a b p) = Some v ->
              (0.7 <=? Plugin.confidence v)%float = true ->
              exists r,
                snd (Plugin.getConsensus_on JSON_parse runtime q a b roster) = JS.Ret r
                /\ In (Plugin.provider v) (Plugin.cr_providers r)
                /\ Plugin.cr_providers r = map Plugin.provider responses
                /\ Plugin.cr_confidence r = JS.mean (map Plugin.confidence responses)
                /\ Plugin.cr_reasoning r = JS.join "; " (map Plugin.line responses)))
  /\ (forall (JSON_parse : string -> JS.throws JS.value)
             (fetch : string -> string -> string -> JS.throws Oracle.Response)
             (prompt : string) (ps : list Oracle.ProviderConfig)
             (pc : Oracle.ProviderConfig) (p : string) (v : Oracle.OracleResponse),
        JS.truthy_str prompt = true ->
        In pc ps ->
        Oracle.attempt JSON_parse fetch pc = Oracle.verdict_of p v ->
        (0.7 <=? Oracle.confidence v)%float = true ->
        exists c,
          Oracle.consensus_handler JSON_parse fetch
            {| Oracle.prompt := prompt; Oracle.providers := Some (map Some ps) |}
            = Oracle.Success c
          /\ In (Oracle.verdict_of p v) (filter Oracle.is_valid (Oracle.c_allResponses c))
          /\ In p (Oracle.c_providers c))
  /\ (forall (JSON_parse : string -> JS.throws JS.value)
             (fetch : string -> string -> string -> JS.throws Oracle.Response)
             (req : Oracle.ConsensusRequest) (c : Oracle.Consensus),
        Oracle.consensus_handler JSON_parse fetch req = Oracle.Success c ->
        let validResponses :=
          filter (fun r => Oracle.no_error r
                           && (0.7 <=? Oracle.confidence (Oracle.response r))%float)
                 (Oracle.c_allResponses c) in
        (exists ps, Oracle.providers req = Some (map Some ps)
                    /\ Oracle.c_allResponses c = map (Oracle.attempt JSON_parse fetch) ps)
        /\ Oracle.c_providers c = map Oracle.provider validResponses
        /\ Oracle.c_confidence c
           = JS.mean (map (fun r => Oracle.confidence (Oracle.response r)) validResponses)
        /\ Oracle.c_reasoning c = JS.join "; " (map Oracle.line validResponses)
        /\ Oracle.c_votes c
           = {| Oracle.optionA :=
                  List.length (filter (fun r => Oracle.votes_A (Oracle.response r))
                                 validResponses);
                Oracle.optionB :=
                  List.length (filter (fun r => Oracle.votes_B (Oracle.response r))
                                 validResponses) |}).
Proof.
  split; [reflexivity|]. split; [|split; [|split; [|split; [|split; [|split]]]]].
  - intros p v. unfold Oracle.is_valid, Oracle.verdict_of. simpl. tauto.
  - intros v. unfold Plugin.accepted, Plugin.MIN_CONFIDENCE.
    destruct (0.7 <=? Plugin.confidence v)%float; split; congruence.
  - intros JSON_parse fetch prompt l1 l2 pc Hprompt Hlow.
    apply DropFacts.oracle_handler_without; [assumption|].
    unfold Oracle.is_valid. rewrite (FloatFacts.ltb_not_leb Hlow).
    apply andb_false_r.
  - intros JSON_parse runtime q a b l1 l2 p v Hv Hlow.
    apply DropFacts.plugin_result_without. rewrite Hv. unfold Plugin.accepted.
    unfold Plugin.MIN_CONFIDENCE. now rewrite (FloatFacts.ltb_not_leb Hlow).
  - intros JSON_parse runtime q a b roster responses. subst responses.
    rewrite PluginFacts.getConsensus_on_spec, PluginFacts.collect_spec. cbn [snd].
    assert (Hin : forall v,
               In v (Plugin.verdicts JSON_parse runtime q a b roster)
               <-> exists p, In p roster
                     /\ snd (Plugin.callLLMProvider JSON_parse runtime q a b p) = Some v
                     /\ (0.7 <=? Plugin.confidence v)%float = true).
    { intros v. unfold Plugin.verdicts. rewrite in_flat_map. split.
      - intros (p & Hp & Hv). exists p. split; [exact Hp|].
        destruct (snd (Plugin.callLLMProvider JSON_parse runtime q a b p)) as [w|];
          [|destruct Hv].
        unfold Plugin.accepted, Plugin.MIN_CONFIDENCE in Hv.
        destruct (0.7 <=? Plugin.confidence w)%float eqn:E; [|destruct Hv].
        destruct Hv as [<-|[]]. split; [reflexivity | exact E].
      - intros (p & Hp & Hc & Hconf). exists p. split; [exact Hp|].
        rewrite Hc. unfold Plugin.accepted, Plugin.MIN_CONFIDENCE. rewrite Hconf.
        now left. }
    split; [exact Hin|]. split; [reflexivity|].
    intros p v Hp Hc Hconf.
    assert (Hv : In v (Plugin.verdicts JSON_parse runtime q a b roster)).
    { apply Hin. exists p. auto. }
    assert (Hne : Plugin.verdicts JSON_parse runtime q a b roster <> []).
    { intros E. rewrite E in Hv. destruct Hv. }
    rewrite (PluginFacts.plugin_reduce_fields Hne). eexists. split; [reflexivity|].
    cbn [Plugin.cr_providers Plugin.cr_confidence Plugin.cr_reasoning].
    split; [now apply in_map|]. repeat split.
  - intros JSON_parse fetch prompt ps pc p v Hprompt Hpc Hatt Hconf.
    rewrite (OracleFacts.handler_cases JSON_parse fetch
               {| Oracle.prompt := prompt; Oracle.providers := Some (map Some ps) |}
               ps eq_refl Hprompt).
    assert (Hv : In (Oracle.verdict_of p v)
                   (filter Oracle.is_valid (map (Oracle.attempt JSON_parse fetch) ps))).
    { apply filter_In. split.
      - rewrite <- Hatt. now apply in_map.
      - unfold Oracle.is_valid, Oracle.verdict_of. simpl. exact Hconf. }
    destruct (filter Oracle.is_valid (map (Oracle.attempt JSON_parse fetch) ps))
      as [|x valid] eqn:E; [destruct Hv|].
    eexists. split; [reflexivity|].
    simpl Oracle.c_allResponses. rewrite E. split; [exact Hv|].
    destruct (OracleFacts.http_reduce_fields (map (Oracle.attempt JSON_parse fetch) ps)
                (x :: valid)) as (_ & _ & _ & Hp & _).
    rewrite Hp. now apply (in_map Oracle.provider) in Hv.
  - intros JSON_parse fetch req c H validResponses.
    destruct (OracleFacts.handler_success JSON_parse fetch req H)
      as (ps & Hps & _ & _ & Hc).
    assert (Hall : Oracle.c_allResponses c = map (Oracle.attempt JSON_parse fetch) ps).
    { rewrite Hc. reflexivity. }
    assert (Hvalid : validResponses
                     = filter Oracle.is_valid (map (Oracle.attempt JSON_parse fetch) ps)).
    { subst validResponses. rewrite Hall. reflexivity. }
    split; [exists ps; split; [exact Hps | exact Hall]|].
    rewrite Hvalid, Hc.
    destruct (OracleFacts.http_reduce_fields (map (Oracle.attempt JSON_parse fetch) ps)
                (filter Oracle.is_valid (map (Oracle.attempt JSON_parse fetch) ps)))
      as (Hv & Hm & Hr & Hp & _).
    auto.
Qed.

(** C6 on an evaluation whose first provider answers with confidence 0.5,
    and whose second answers with confidence 0.75. *)
Lemma C6_witness :
  match Oracle.consensus_handler Samples.JSON_parse Samples.up_one_low
          (Samples.request Samples.roster),
        Oracle.consensus_handler Samples.JSON_parse Samples.up_one_low
          (Samples.request (tl Samples.roster)) with
  | Oracle.Success c, Oracle.Success c' => Oracle.verdict c = Oracle.verdict c'
  | Oracle.NoValidResponses _ _, Oracle.NoValidResponses _ _ => True
  | _, _ => False
  end
  /\ snd (Plugin.getConsensus_on Samples.JSON_parse Samples.host_one_low Samples.question
            Samples.optionA_text Samples.optionB_text Plugin.LLM_PROVIDERS)
     = snd (Plugin.getConsensus_on Samples.JSON_parse Samples.host_one_low Samples.question
              Samples.optionA_text Samples.optionB_text (tl Plugin.LLM_PROVIDERS))
  /\ (exists r,
        snd (Plugin.getConsensus_on Samples.JSON_parse Samples.host_one_low Samples.question
               Samples.optionA_text Samples.optionB_text Plugin.LLM_PROVIDERS) = JS.Ret r
        /\ In "deepseek" (Plugin.cr_providers r))
  /\ (exists c,
        Oracle.consensus_handler Samples.JSON_parse Samples.up_one_low
          (Samples.request Samples.roster) = Oracle.Success c
        /\ In "deepseek" (Oracle.c_providers c)).
Proof.
  destruct C6_confidence_floor as (_ & _ & _ & Hhttp & Hplugin & Hloop & Hreach & _).
  split; [|split; [|split]].
  - apply (Hhttp Samples.JSON_parse Samples.up_one_low Samples.question []
             (tl Samples.roster) (Samples.cfg "openai" "gpt-4")); reflexivity.
  - apply (Hplugin Samples.JSON_parse Samples.host_one_low Samples.question
             Samples.optionA_text Samples.optionB_text [] (tl Plugin.LLM_PROVIDERS)
             {| Plugin.name := "openai"; Plugin.model := "gpt-4" |}
             {| Plugin.provider := "openai"; Plugin.pr_model := "gpt-4";
                Plugin.optionATrue := true; Plugin.optionBTrue := false;
                Plugin.confidence := 0.5; Plugin.reasoning := "unsure" |});
      reflexivity.
  - destruct (Hloop Samples.JSON_parse Samples.host_one_low Samples.question
                Samples.optionA_text Samples.optionB_text Plugin.LLM_PROVIDERS)
      as (_ & _ & Hin).
    destruct (Hin {| Plugin.name := "deepseek"; Plugin.model := "deepseek-chat" |}
                  {| Plugin.provider := "deepseek"; Plugin.pr_model := "deepseek-chat";
                     Plugin.optionATrue := true; Plugin.optionBTrue := false;
                     Plugin.confidence := 0.75; Plugin.reasoning := "trend holds" |})
      as (r & Hr & Hp & _).
    + right. now left.
    + reflexivity.
    + reflexivity.
    + exists r. split; [exact Hr | exact Hp].
  - destruct (Hreach Samples.JSON_parse Samples.up_one_low Samples.question
                Samples.roster (Samples.cfg "deepseek" "deepseek-chat") "deepseek"
                {| Oracle.optionATrue := true; Oracle.optionBTrue := false;
                   Oracle.confidence := 0.75; Oracle.reasoning := "trend holds" |})
      as (c & Hc & _ & Hp).
    + reflexivity.
    + right. now left.
    + reflexivity.
    + reflexivity.
    + exists c. split; [exact Hc | exact Hp].
Defined.
(** C7.  In every consensus that is returned, [optionATrue] is true iff the
    votes for A reach the threshold, and [optionBTrue] iff the votes for B do;
    the threshold is [ceil(n / 2)] for [n] accepted verdicts in the HTTP
    service and [2] in the plugin.  Both flags can be false: with a single
    accepted verdict that has both options true in the HTTP service, with one
    vote each in the plugin. *)
Theorem C7_flags_follow_threshold :
  (forall (JSON_parse : string -> JS.throws JS.value)
          (fetch : string -> string -> string -> JS.throws Oracle.Response)
          (req : Oracle.ConsensusRequest) (c : Oracle.Consensus),
      Oracle.consensus_handler JSON_parse fetch req = Oracle.Success c ->
      let n := List.length (Oracle.c_providers c) in
      (Oracle.c_optionATrue c = true
         <-> JS.ceil_half n <= Oracle.optionA (Oracle.c_votes c))
      /\ (Oracle.c_optionBTrue c = true
         <-> JS.ceil_half n <= Oracle.optionB (Oracle.c_votes c))
      /\ n <= 2 * JS.ceil_half n <= n + 1)
  /\ (forall (JSON_parse : string -> JS.throws JS.value) (runtime : Plugin.Runtime)
             (q a b : string) (enabled : option (list string))
             (r : Plugin.ConsensusResult),
      snd (Plugin.getConsensus JSON_parse runtime q a b enabled) = JS.Ret r ->
      (Plugin.cr_optionATrue r = true <-> 2 <= Plugin.optionA (Plugin.cr_votes r))
      /\ (Plugin.cr_optionBTrue r = true <-> 2 <= Plugin.optionB (Plugin.cr_votes r)))
  /\ (exists c,
        Oracle.consensus_handler Samples.JSON_parse Samples.up_ambiguous
          (Samples.request [Samples.cfg "openai" "gpt-4"]) = Oracle.Success c
        /\ Oracle.c_optionATrue c = false /\ Oracle.c_optionBTrue c = false)
  /\ (exists r,
        snd (Plugin.getConsensus Samples.JSON_parse Samples.host_one_low Samples.question
               Samples.optionA_text Samples.optionB_text None) = JS.Ret r
        /\ Plugin.cr_optionATrue r = false /\ Plugin.cr_optionBTrue r = false).
Proof.
  split; [|split; [|split]].
  - intros JSON_parse fetch req c H n.
    destruct (OracleFacts.handler_success JSON_parse fetch req H)
      as (ps & _ & _ & Hne & Hc).
    destruct (filter Oracle.is_valid (map (Oracle.attempt JSON_parse fetch) ps))
      as [|x valid] eqn:E; [congruence|].
    subst c n.
    destruct (OracleFacts.http_reduce_fields (map (Oracle.attempt JSON_parse fetch) ps)
                (x :: valid))
      as (Hv & _ & _ & Hp & HA & HB).
    rewrite Hv, Hp, HA, HB, length_map. cbn [Oracle.optionA Oracle.optionB].
    rewrite !Nat.leb_le. split; [reflexivity|]. split; [reflexivity|].
    unfold JS.ceil_half.
    pose proof (Nat.div_mod_eq (List.length (x :: valid) + 1) 2).
    pose proof (Nat.mod_upper_bound (List.length (x :: valid) + 1) 2).
    lia.
  - intros JSON_parse runtime q a b enabled r.
    unfold Plugin.getConsensus. rewrite PluginFacts.getConsensus_on_spec. simpl.
    destruct (Plugin.verdicts JSON_parse runtime q a b (Plugin.providersToUse enabled))
      as [|v l] eqn:E; [discriminate|].
    rewrite PluginFacts.plugin_reduce_fields by discriminate.
    generalize (List.length (filter Plugin.votes_A (v :: l)))
               (List.length (filter Plugin.votes_B (v :: l))).
    intros na nb H. injection H as <-.
    cbn [Plugin.cr_optionATrue Plugin.cr_optionBTrue Plugin.cr_votes
         Plugin.optionA Plugin.optionB].
    unfold Plugin.CONSENSUS_THRESHOLD.
    destruct na as [|[|na]], nb as [|[|nb]]; simpl;
      repeat split; intros; try reflexivity; try discriminate; lia.
  - eexists. split; [reflexivity|]. split; reflexivity.
  - eexists. split; [reflexivity|]. split; reflexivity.
Qed.

(** C7 on the evaluation with two votes for A and one for B. *)
Lemma C7_witness :
  exists c,
    Oracle.consensus_handler Samples.JSON_parse Samples.up_2A_1B
      (Samples.request Samples.roster) = Oracle.Success c
    /\ (Oracle.c_optionATrue c = true
        <-> JS.ceil_half (List.length (Oracle.c_providers c))
            <= Oracle.optionA (Oracle.c_votes c)).
Proof.
  eexists. split; [reflexivity|].
  apply (proj1 C7_flags_follow_threshold Samples.JSON_parse Samples.up_2A_1B
           (Samples.request Samples.roster)).
  reflexivity.
Defined.

(** C8.  The failure of one provider is absorbed, in both variants.

    In the plugin, [callLLMProvider] returns [null] when the API key is
    missing, when [generateText] throws, when the text has no JSON object,
    when [JSON.parse] throws on it, and when a field is absent or of another
    type; an evaluation in which a provider returns [null] gives the result
    of the evaluation without that provider, and a consensus as soon as one
    verdict of the others is accepted.

    In the HTTP service, an unsupported provider, a rejected [fetch], a
    response that is not [ok], and a text that the parser refuses each leave
    an entry with the error message, which the filter drops; the handler then
    returns a consensus with the same verdict as without that provider, the
    failure being kept in [allResponses]. *)
Theorem C8_provider_failure_absorbed :
  (forall (JSON_parse : string -> JS.throws JS.value) (runtime : Plugin.Runtime)
          (q a b : string) (p : Plugin.LLMProvider),
      let call := Plugin.callLLMProvider JSON_parse runtime q a b in
      let key := Plugin.or_else
                   (Plugin.process_env runtime
                      (Plugin.toUpperCase (Plugin.name p) ++ "_API_KEY"))
                   (Plugin.getSetting runtime (Plugin.name p ++ "ApiKey")) in
      (Plugin.missing key = true -> snd (call p) = None)
      /\ (forall e,
             Plugin.callLLMProvider_try JSON_parse runtime q a b p = JS.Throw e ->
             snd (call p) = None)
      /\ (Plugin.missing key = false ->
          (forall e, Plugin.generateText runtime p q a b = JS.Throw e ->
                     snd (call p) = None)
          /\ (forall text, Plugin.generateText runtime p q a b = JS.Ret (JS.VStr text) ->
              (JS.match_braces text = None -> snd (call p) = None)
              /\ (forall m, JS.match_braces text = Some m ->
                  (forall e, JSON_parse m = JS.Throw e -> snd (call p) = None)
                  /\ (forall fields, JSON_parse m = JS.Ret (JS.VObj fields) ->
                      JS.typeof (JS.assoc "optionATrue" fields) <> JS.TBoolean
                      \/ JS.typeof (JS.assoc "optionBTrue" fields) <> JS.TBoolean
                      \/ JS.typeof (JS.assoc "confidence" fields) <> JS.TNumber
                      \/ JS.typeof (JS.assoc "reasoning" fields) <> JS.TString ->
                      snd (call p) = None)))))
  /\ (forall (JSON_parse : string -> JS.throws JS.value) (runtime : Plugin.Runtime)
             (q a b : string) (l1 l2 : list Plugin.LLMProvider) (p : Plugin.LLMProvider),
      snd (Plugin.callLLMProvider JSON_parse runtime q a b p) = None ->
      snd (Plugin.getConsensus_on JSON_parse runtime q a b (l1 ++ p :: l2)%list)
        = snd (Plugin.getConsensus_on JSON_parse runtime q a b (l1 ++ l2)%list)
      /\ (Plugin.verdicts JSON_parse runtime q a b (l1 ++ l2)%list <> [] ->
          exists r,
            snd (Plugin.getConsensus_on JSON_parse runtime q a b (l1 ++ p :: l2)%list)
              = JS.Ret r))
  /\ (forall (JSON_parse : string -> JS.throws JS.value)
             (fetch : string -> string -> string -> JS.throws Oracle.Response)
             (pc : Oracle.ProviderConfig),
      let provider := Oracle.pc_provider pc in
      let sent := fetch provider (Oracle.pc_model pc) (Oracle.pc_apiKey pc) in
      let call := Oracle.callLLMProvider fetch provider (Oracle.pc_model pc)
                    (Oracle.pc_apiKey pc) in
      (Oracle.LLM_CONFIGS provider = None ->
       Oracle.attempt JSON_parse fetch pc
         = Oracle.failure pc (JS.Error ("Unsupported provider: " ++ provider)))
      /\ (forall adapter, Oracle.LLM_CONFIGS provider = Some adapter ->
          (forall e, sent = JS.Throw e ->
                     Oracle.attempt JSON_parse fetch pc = Oracle.failure pc e)
          /\ (forall response, sent = JS.Ret response -> Oracle.ok response = false ->
              Oracle.attempt JSON_parse fetch pc
                = Oracle.failure pc
                    (JS.Error (provider ++ " API error: " ++ Oracle.status response
                                        ++ " " ++ Oracle.statusText response))))
      /\ (forall e, call = JS.Throw e ->
                    Oracle.attempt JSON_parse fetch pc = Oracle.failure pc e)
      /\ (forall raw e, call = JS.Ret raw ->
                        Oracle.parseOracleResponse JSON_parse raw = JS.Throw e ->
                        Oracle.attempt JSON_parse fetch pc = Oracle.failure pc e)
      /\ (forall e, Oracle.is_valid (Oracle.failure pc e) = false))
  /\ (forall (JSON_parse : string -> JS.throws JS.value)
             (fetch : string -> string -> string -> JS.throws Oracle.Response)
             (prompt : string) (l1 l2 : list Oracle.ProviderConfig)
             (pc : Oracle.ProviderConfig) (e : JS.exn),
      JS.truthy_str prompt = true ->
      Oracle.attempt JSON_parse fetch pc = Oracle.failure pc e ->
      filter Oracle.is_valid (map (Oracle.attempt JSON_parse fetch) (l1 ++ l2)%list) <> [] ->
      exists c c',
        Oracle.consensus_handler JSON_parse fetch
          {| Oracle.prompt := prompt; Oracle.providers := Some (map Some (l1 ++ pc :: l2)) |}
          = Oracle.Success c
        /\ Oracle.consensus_handler JSON_parse fetch
             {| Oracle.prompt := prompt; Oracle.providers := Some (map Some (l1 ++ l2)) |}
           = Oracle.Success c'
        /\ Oracle.verdict c = Oracle.verdict c'
        /\ In (Oracle.failure pc e) (Oracle.c_allResponses c)).
Proof.
  split; [|split; [|split]].
  - intros JSON_parse runtime q a b p call key. subst call.
    unfold Plugin.callLLMProvider, Plugin.callLLMProvider_try. fold key.
    split; [now intros ->|]. split.
    { intros e. destruct (Plugin.missing key); [discriminate|]. now intros ->. }
    intros ->. split; [now intros e ->|].
    intros text ->. simpl. split; [now intros ->|].
    intros m ->. split; [now intros e ->|].
    intros fields ->. simpl. intros Hbad.
    destruct (JS.assoc "optionATrue" fields), (JS.assoc "optionBTrue" fields),
             (JS.assoc "confidence" fields), (JS.assoc "reasoning" fields);
      simpl in *; try reflexivity; exfalso; intuition congruence.
  - intros JSON_parse runtime q a b l1 l2 p Hnull.
    assert (Hdrop : Plugin.accepted (snd (Plugin.callLLMProvider JSON_parse runtime q a b p))
                    = None) by now rewrite Hnull.
    split; [now apply DropFacts.plugin_result_without|].
    intros Hsome. rewrite (DropFacts.plugin_result_without _ _ _ _ _ l1 l2 p Hdrop).
    rewrite PluginFacts.getConsensus_on_spec. simpl.
    rewrite PluginFacts.plugin_reduce_fields by assumption. eauto.
  - intros JSON_parse fetch pc provider sent call. subst provider sent call.
    unfold Oracle.attempt, Oracle.callLLMProvider, Oracle.failure.
    split; [now intros ->|]. split.
    { intros adapter ->. split; [now intros e ->|].
      intros response -> Hok. simpl. now rewrite Hok. }
    split; [now intros e ->|]. split.
    { intros raw e -> Hparse. simpl. now rewrite Hparse. }
    intros e. unfold Oracle.is_valid. simpl. apply andb_false_r.
  - intros JSON_parse fetch prompt l1 l2 pc e Hprompt Hfail Hsome.
    assert (Hdrop : Oracle.is_valid (Oracle.attempt JSON_parse fetch pc) = false).
    { rewrite Hfail. unfold Oracle.is_valid. simpl. apply andb_false_r. }
    rewrite (OracleFacts.handler_cases JSON_parse fetch
               {| Oracle.prompt := prompt; Oracle.providers := Some (map Some (l1 ++ pc :: l2)) |}
               (l1 ++ pc :: l2)%list eq_refl Hprompt).
    rewrite (OracleFacts.handler_cases JSON_parse fetch
               {| Oracle.prompt := prompt; Oracle.providers := Some (map Some (l1 ++ l2)) |}
               (l1 ++ l2)%list eq_refl Hprompt).
    rewrite (DropFacts.oracle_valid_without JSON_parse fetch l1 l2 pc Hdrop).
    destruct (filter Oracle.is_valid (map (Oracle.attempt JSON_parse fetch) (l1 ++ l2)%list))
      as [|x valid]; [congruence|].
    do 2 eexists. split; [reflexivity|]. split; [reflexivity|]. split; [reflexivity|].
    simpl. rewrite map_app. apply in_or_app. right. simpl. now left.
Qed.

(** C8 on a host whose first provider times out, and on an upstream whose
    first provider answers 401. *)
Lemma C8_witness :
  (exists r,
      snd (Plugin.getConsensus_on Samples.JSON_parse Samples.host_one_down Samples.question
             Samples.optionA_text Samples.optionB_text Plugin.LLM_PROVIDERS) = JS.Ret r)
  /\ (exists c c',
        Oracle.consensus_handler Samples.JSON_parse Samples.up_one_down
          (Samples.request Samples.roster) = Oracle.Success c
        /\ Oracle.consensus_handler Samples.JSON_parse Samples.up_one_down
             (Samples.request (tl Samples.roster)) = Oracle.Success c'
        /\ Oracle.verdict c = Oracle.verdict c'
        /\ In (Oracle.failure (Samples.cfg "openai" "gpt-4")
                 (JS.Error "openai API error: 401 Unauthorized"))
              (Oracle.c_allResponses c)).
Proof.
  destruct C8_provider_failure_absorbed as (_ & Hplugin & _ & Hhttp). split.
  - apply (Hplugin Samples.JSON_parse Samples.host_one_down Samples.question
             Samples.optionA_text Samples.optionB_text [] (tl Plugin.LLM_PROVIDERS)
             {| Plugin.name := "openai"; Plugin.model := "gpt-4" |} eq_refl).
    discriminate.
  - apply (Hhttp Samples.JSON_parse Samples.up_one_down Samples.question []
             (tl Samples.roster) (Samples.cfg "openai" "gpt-4")
             (JS.Error "openai API error: 401 Unauthorized") eq_refl eq_refl).
    discriminate.
Defined.
(** C9, as stated, fails: the reasoning string and the providers list follow
    the order of collection, and the binary64 sum of the confidences depends
    on the order of its terms.  Three verdicts for A at 0.7, 0.8 and 0.9,
    reduced in this order and in the reverse order, give different reasoning
    strings, different providers lists and different mean confidences. *)
Lemma C9_counterexample :
  Permutation Samples.plugin_ascending (rev Samples.plugin_ascending)
  /\ (exists r r',
        Plugin.reduce Samples.plugin_ascending = JS.Ret r
        /\ Plugin.reduce (rev Samples.plugin_ascending) = JS.Ret r'
        /\ r <> r'
        /\ Plugin.cr_reasoning r <> Plugin.cr_reasoning r'
        /\ Plugin.cr_providers r <> Plugin.cr_providers r'
        /\ (Plugin.cr_confidence r <? Plugin.cr_confidence r')%float = true)
  /\ Permutation Samples.oracle_ascending (rev Samples.oracle_ascending)
  /\ (let c := Oracle.reduce Samples.oracle_ascending Samples.oracle_ascending in
      let c' := Oracle.reduce Samples.oracle_ascending (rev Samples.oracle_ascending) in
      Oracle.c_reasoning c <> Oracle.c_reasoning c'
      /\ Oracle.c_providers c <> Oracle.c_providers c'
      /\ (Oracle.c_confidence c <? Oracle.c_confidence c')%float = true).
Proof.
  split; [apply Permutation_rev|]. split.
  - do 2 eexists. split; [reflexivity|]. split; [reflexivity|].
    split; [|split; [|split]].
    + intros H. apply (f_equal Plugin.cr_providers) in H. discriminate H.
    + vm_compute. discriminate.
    + vm_compute. discriminate.
    + reflexivity.
  - split; [apply Permutation_rev|]. split; [|split].
    + vm_compute. discriminate.
    + vm_compute. discriminate.
    + reflexivity.
Qed.

(** C9, amended.  For every permutation of the accepted verdicts the
    reduction gives the same vote counts and the same two flags, and fails in
    the same way on none; the providers list is the corresponding
    permutation; the reasoning string joins the lines in the order of
    collection and the confidence is the mean summed in that order.  The
    same holds for a permutation of the roster that is evaluated: the
    accepted verdicts of the two evaluations are permutations of each other,
    and in the HTTP service a [providers] array with a [null] element ends
    the loop with the same error in either order. *)
Theorem C9_votes_independent_of_order :
  (forall l l' : list Plugin.ProviderResponse,
      Permutation l l' ->
      match Plugin.reduce l, Plugin.reduce l' with
      | JS.Ret r, JS.Ret r' =>
          Plugin.cr_optionATrue r = Plugin.cr_optionATrue r'
          /\ Plugin.cr_optionBTrue r = Plugin.cr_optionBTrue r'
          /\ Plugin.cr_votes r = Plugin.cr_votes r'
          /\ Permutation (Plugin.cr_providers r) (Plugin.cr_providers r')
          /\ Plugin.cr_reasoning r = JS.join "; " (map Plugin.line l)
          /\ Plugin.cr_reasoning r' = JS.join "; " (map Plugin.line l')
          /\ Plugin.cr_confidence r = JS.mean (map Plugin.confidence l)
          /\ Plugin.cr_confidence r' = JS.mean (map Plugin.confidence l')
      | JS.Throw e, JS.Throw e' => e = e'
      | _, _ => False
      end)
  /\ (forall all all' l l' : list Oracle.Attempt,
      Permutation l l' ->
      let c := Oracle.reduce all l in
      let c' := Oracle.reduce all' l' in
      Oracle.c_optionATrue c = Oracle.c_optionATrue c'
      /\ Oracle.c_optionBTrue c = Oracle.c_optionBTrue c'
      /\ Oracle.c_votes c = Oracle.c_votes c'
      /\ Permutation (Oracle.c_providers c) (Oracle.c_providers c')
      /\ Oracle.c_reasoning c = JS.join "; " (map Oracle.line l)
      /\ Oracle.c_reasoning c' = JS.join "; " (map Oracle.line l')
      /\ Oracle.c_confidence c
         = JS.mean (map (fun r => Oracle.confidence (Oracle.response r)) l)
      /\ Oracle.c_confidence c'
         = JS.mean (map (fun r => Oracle.confidence (Oracle.response r)) l'))
  /\ (forall (JSON_parse : string -> JS.throws JS.value) (runtime : Plugin.Runtime)
             (q a b : string) (roster roster' : list Plugin.LLMProvider),
      Permutation roster roster' ->
      Permutation (Plugin.verdicts JSON_parse runtime q a b roster)
                  (Plugin.verdicts JSON_parse runtime q a b roster'))
  /\ (forall (JSON_parse : string -> JS.throws JS.value)
             (fetch : string -> string -> string -> JS.throws Oracle.Response)
             (ps ps' : list (option Oracle.ProviderConfig)),
      Permutation ps ps' ->
      match Oracle.collect JSON_parse fetch ps, Oracle.collect JSON_parse fetch ps' with
      | JS.Ret responses, JS.Ret responses' =>
          Permutation (filter Oracle.is_valid responses)
                      (filter Oracle.is_valid responses')
      | JS.Throw e, JS.Throw e' => e = e'
      | _, _ => False
      end).
Proof.
  split; [|split; [|split]].
  - intros l l' H.
    destruct l as [|v l].
    { apply Permutation_nil in H. subst l'. reflexivity. }
    destruct l' as [|v' l'].
    { symmetry in H. apply Permutation_nil in H. discriminate H. }
    rewrite !PluginFacts.plugin_reduce_fields by discriminate.
    cbn [Plugin.cr_optionATrue Plugin.cr_optionBTrue Plugin.cr_votes Plugin.cr_providers
         Plugin.cr_reasoning Plugin.cr_confidence].
    rewrite (OrderFacts.filter_length_perm Plugin.votes_A H),
            (OrderFacts.filter_length_perm Plugin.votes_B H).
    repeat split; try reflexivity. now apply Permutation_map.
  - intros all all' l l' H c c'. subst c c'.
    destruct (OracleFacts.http_reduce_fields all l) as (Hv & Hc & Hr & Hp & HA & HB).
    destruct (OracleFacts.http_reduce_fields all' l') as (Hv' & Hc' & Hr' & Hp' & HA' & HB').
    rewrite Hv, Hv', Hc, Hc', Hr, Hr', Hp, Hp', HA, HA', HB, HB'.
    rewrite (OrderFacts.filter_length_perm (fun r => Oracle.votes_A (Oracle.response r)) H),
            (OrderFacts.filter_length_perm (fun r => Oracle.votes_B (Oracle.response r)) H),
            (Permutation_length H).
    repeat split; try reflexivity. now apply Permutation_map.
  - intros JSON_parse runtime q a b roster roster' H.
    now apply OrderFacts.flat_map_perm.
  - intros JSON_parse fetch ps ps' H.
    destruct (OracleFacts.elements_cases ps) as [Hnull|Hobj].
    + rewrite (OracleFacts.collect_null JSON_parse fetch ps Hnull).
      rewrite (OracleFacts.collect_null JSON_parse fetch ps'
                 (Permutation_in None H Hnull)).
      reflexivity.
    + destruct (OracleFacts.elements_cases ps') as [Hnull'|Hobj'].
      { apply Permutation_sym in H. apply (Permutation_in None H) in Hnull'.
        rewrite Hobj in Hnull'. now apply OracleFacts.map_Some_no_null in Hnull'. }
      assert (Hperm : Permutation (Oracle.objects ps) (Oracle.objects ps'))
        by now apply OrderFacts.flat_map_perm.
      rewrite Hobj, Hobj', !OracleFacts.collect_map.
      now apply OrderFacts.filter_perm, Permutation_map.
Qed.

(** C9 on three verdicts and their reversal. *)
Lemma C9_witness :
  match Plugin.reduce Samples.plugin_ascending,
        Plugin.reduce (rev Samples.plugin_ascending) with
  | JS.Ret r, JS.Ret r' =>
      Plugin.cr_optionATrue r = Plugin.cr_optionATrue r'
      /\ Plugin.cr_optionBTrue r = Plugin.cr_optionBTrue r'
      /\ Plugin.cr_votes r = Plugin.cr_votes r'
      /\ Permutation (Plugin.cr_providers r) (Plugin.cr_providers r')
      /\ Plugin.cr_reasoning r = JS.join "; " (map Plugin.line Samples.plugin_ascending)
      /\ Plugin.cr_reasoning r'
         = JS.join "; " (map Plugin.line (rev Samples.plugin_ascending))
      /\ Plugin.cr_confidence r = JS.mean (map Plugin.confidence Samples.plugin_ascending)
      /\ Plugin.cr_confidence r'
         = JS.mean (map Plugin.confidence (rev Samples.plugin_ascending))
  | JS.Throw e, JS.Throw e' => e = e'
  | _, _ => False
  end.
Proof.
  apply (proj1 C9_votes_independent_of_order Samples.plugin_ascending
           (rev Samples.plugin_ascending)).
  apply Permutation_rev.
Defined.

(** C10, as stated, fails: the mean is computed in binary64 arithmetic and
    can round below the floor.  With three accepted verdicts of confidence
    0.7 the sum is 2.0999999999999996 and the reported confidence
    0.6999999999999998, which is below 0.7, in both variants. *)
Lemma C10_counterexample :
  (exists r,
      snd (Plugin.getConsensus Samples.JSON_parse Samples.host_all_at_floor
             Samples.question Samples.optionA_text Samples.optionB_text None) = JS.Ret r
      /\ List.length (Plugin.cr_providers r) = 3
      /\ (Plugin.cr_confidence r <? 0.7)%float = true
      /\ (0.7 <=? Plugin.cr_confidence r)%float = false)
  /\ (exists c,
        Oracle.consensus_handler Samples.JSON_parse Samples.up_all_at_floor
          (Samples.request Samples.roster) = Oracle.Success c
        /\ List.length (Oracle.c_providers c) = 3
        /\ (Oracle.c_confidence c <? 0.7)%float = true
        /\ (0.7 <=? Oracle.c_confidence c)%float = false).
Proof.
  split; eexists; (split; [reflexivity|]); repeat split; reflexivity.
Qed.

(** C10, amended.  Whenever the reduction succeeds, at least one verdict
    was accepted, every accepted verdict has a confidence of at least 0.7,
    and the reported confidence is their mean in binary64 arithmetic: the
    confidences added from the left and the sum divided by their number. *)
Theorem C10_confidence_is_mean_of_accepted :
  (forall (JSON_parse : string -> JS.throws JS.value) (runtime : Plugin.Runtime)
          (q a b : string) (enabled : option (list string)) (r : Plugin.ConsensusResult),
      snd (Plugin.getConsensus JSON_parse runtime q a b enabled) = JS.Ret r ->
      let l := Plugin.verdicts JSON_parse runtime q a b (Plugin.providersToUse enabled) in
      l <> []
      /\ Forall (fun v => (0.7 <=? Plugin.confidence v)%float = true) l
      /\ Plugin.cr_confidence r = JS.mean (map Plugin.confidence l))
  /\ (forall (JSON_parse : string -> JS.throws JS.value)
             (fetch : string -> string -> string -> JS.throws Oracle.Response)
             (req : Oracle.ConsensusRequest) (c : Oracle.Consensus),
      Oracle.consensus_handler JSON_parse fetch req = Oracle.Success c ->
      exists ps,
        Oracle.providers req = Some (map Some ps)
        /\ let l := filter Oracle.is_valid (map (Oracle.attempt JSON_parse fetch) ps) in
           l <> []
           /\ Forall (fun r => (0.7 <=? Oracle.confidence (Oracle.response r))%float = true) l
           /\ Oracle.c_confidence c
              = JS.mean (map (fun r => Oracle.confidence (Oracle.response r)) l)).
Proof.
  split.
  - intros JSON_parse runtime q a b enabled r H l.
    unfold Plugin.getConsensus in H. rewrite PluginFacts.getConsensus_on_spec in H.
    simpl in H. fold l in H.
    assert (Hl : l <> []).
    { intros E. subst l. rewrite E in H. discriminate H. }
    split; [exact Hl|]. split.
    + subst l. unfold Plugin.verdicts. apply Forall_forall. intros v Hv.
      apply in_flat_map in Hv. destruct Hv as (p & _ & Hv).
      destruct (snd (Plugin.callLLMProvider JSON_parse runtime q a b p)) as [w|];
        simpl in Hv; [|contradiction].
      unfold Plugin.MIN_CONFIDENCE in Hv.
      destruct (0.7 <=? Plugin.confidence w)%float eqn:E; simpl in Hv; [|contradiction].
      destruct Hv as [<-|[]]. exact E.
    + rewrite (PluginFacts.plugin_reduce_fields Hl) in H. now injection H as <-.
  - intros JSON_parse fetch req c H.
    destruct (OracleFacts.handler_success JSON_parse fetch req H)
      as (ps & Hps & _ & Hne & Hc).
    exists ps. split; [exact Hps|]. intros l. fold l in Hne, Hc.
    split; [exact Hne|]. split.
    + subst l. apply Forall_forall. intros r Hr.
      apply filter_In in Hr. destruct Hr as [_ Hr].
      unfold Oracle.is_valid in Hr. apply andb_prop in Hr. tauto.
    + subst c. apply (OracleFacts.http_reduce_fields _ l).
Qed.

(** C10 on the evaluation with three verdicts at the floor. *)
Lemma C10_witness :
  exists r,
    snd (Plugin.getConsensus Samples.JSON_parse Samples.host_all_at_floor Samples.question
           Samples.optionA_text Samples.optionB_text None) = JS.Ret r
    /\ (let l := Plugin.verdicts Samples.JSON_parse Samples.host_all_at_floor
                   Samples.question Samples.optionA_text Samples.optionB_text
                   (Plugin.providersToUse None) in
        l <> []
        /\ Forall (fun v => (0.7 <=? Plugin.confidence v)%float = true) l
        /\ Plugin.cr_confidence r = JS.mean (map Plugin.confidence l)).
Proof.
  eexists. split; [reflexivity|].
  apply (proj1 C10_confidence_is_mean_of_accepted Samples.JSON_parse
           Samples.host_all_at_floor Samples.question Samples.optionA_text
           Samples.optionB_text None).
  reflexivity.
Defined.

(** ** The order of binary64 values is transitive *)
Module FloatOrderFacts.
Import JS FloatOrder.
Local Open Scope float_scope.

Lemma Zcmp_trans (a b c : Z) (c1 c2 : comparison) :
  (a ?= b)%Z = c1 -> (b ?= c)%Z = c2 -> c1 <> Gt -> c2 <> Gt ->
  (a ?= c)%Z = then_cmp c1 c2.
Proof.
  intros H1 H2 N1 N2. subst c1 c2.
  destruct (Z.compare_spec a b), (Z.compare_spec b c); try congruence; simpl;
    first [ apply Z.compare_eq_iff; lia | apply Z.compare_lt_iff; lia ].
Qed.

Lemma Pcmp_trans (a b c : positive) (c1 c2 : comparison) :
  Pos.compare_cont Eq a b = c1 -> Pos.compare_cont Eq b c = c2 ->
  c1 <> Gt -> c2 <> Gt ->
  Pos.compare_cont Eq a c = then_cmp c1 c2.
Proof.
  change (Pos.compare_cont Eq a b) with (Pos.compare a b).
  change (Pos.compare_cont Eq b c) with (Pos.compare b c).
  change (Pos.compare_cont Eq a c) with (Pos.compare a c).
  intros H1 H2 N1 N2. subst c1 c2.
  destruct (Pos.compare_spec a b), (Pos.compare_spec b c); try congruence; simpl;
    first [ apply Pos.compare_eq_iff; lia | apply Pos.compare_lt_iff; lia ].
Qed.

Lemma Pcmp_trans_opp (a b c : positive) (c1 c2 : comparison) :
  CompOpp (Pos.compare_cont Eq a b) = c1 -> CompOpp (Pos.compare_cont Eq b c) = c2 ->
  c1 <> Gt -> c2 <> Gt ->
  CompOpp (Pos.compare_cont Eq a c) = then_cmp c1 c2.
Proof.
  change (Pos.compare_cont Eq a b) with (Pos.compare a b).
  change (Pos.compare_cont Eq b c) with (Pos.compare b c).
  change (Pos.compare_cont Eq a c) with (Pos.compare a c).
  intros H1 H2 N1 N2. subst c1 c2.
  destruct (Pos.compare_spec a b), (Pos.compare_spec b c); simpl in *; try congruence;
    first [ replace (Pos.compare a c) with Eq by (symmetry; apply Pos.compare_eq_iff; lia)
          | replace (Pos.compare a c) with Gt by (symmetry; apply Pos.compare_gt_iff; lia) ];
    reflexivity.
Qed.

Lemma then_cmp_Lt_r (c : comparison) : then_cmp c Lt = Lt.
Proof. now destruct c. Qed.

Lemma then_cmp_Lt_l (c : comparison) : then_cmp Lt c = Lt.
Proof. now destruct c. Qed.

(** Finite numbers of the same sign are compared by exponent, then by
    mantissa. *)
Lemma finite_pos_trans (mx my mz : positive) (ex ey ez : Z) :
  let cmp := fun e1 m1 e2 m2 =>
    match (e1 ?= e2)%Z with
    | Eq => Pos.compare_cont Eq m1 m2
    | Lt => Lt
    | Gt => Gt
    end in
  cmp ex mx ey my <> Gt -> cmp ey my ez mz <> Gt ->
  cmp ex mx ez mz = then_cmp (cmp ex mx ey my) (cmp ey my ez mz).
Proof.
  intros cmp. subst cmp. cbv beta.
  destruct (Z.compare_spec ex ey), (Z.compare_spec ey ez); intros N1 N2;
    try congruence; subst.
  - rewrite !Z.compare_refl in *. now apply (Pcmp_trans mx my mz).
  - replace (ey ?= ez)%Z with Lt by (symmetry; apply Z.compare_lt_iff; lia).
    now rewrite then_cmp_Lt_r.
  - replace (ex ?= ez)%Z with Lt by (symmetry; apply Z.compare_lt_iff; lia).
    now rewrite then_cmp_Lt_l.
  - replace (ex ?= ez)%Z with Lt by (symmetry; apply Z.compare_lt_iff; lia).
    reflexivity.
Qed.

Lemma finite_neg_trans (mx my mz : positive) (ex ey ez : Z) :
  let cmp := fun e1 m1 e2 m2 =>
    match (e1 ?= e2)%Z with
    | Eq => CompOpp (Pos.compare_cont Eq m1 m2)
    | Lt => Gt
    | Gt => Lt
    end in
  cmp ex mx ey my <> Gt -> cmp ey my ez mz <> Gt ->
  cmp ex mx ez mz = then_cmp (cmp ex mx ey my) (cmp ey my ez mz).
Proof.
  intros cmp. subst cmp. cbv beta.
  destruct (Z.compare_spec ex ey), (Z.compare_spec ey ez); intros N1 N2;
    try congruence; subst.
  - rewrite !Z.compare_refl in *. now apply (Pcmp_trans_opp mx my mz).
  - replace (ey ?= ez)%Z with Gt by (symmetry; apply Z.compare_gt_iff; lia).
    now rewrite then_cmp_Lt_r.
  - replace (ex ?= ez)%Z with Gt by (symmetry; apply Z.compare_gt_iff; lia).
    now rewrite then_cmp_Lt_l.
  - replace (ex ?= ez)%Z with Gt by (symmetry; apply Z.compare_gt_iff; lia).
    reflexivity.
Qed.

(** Two comparisons that are not [Gt] compose. *)
Lemma SFcompare_trans (x y z : spec_float) (c1 c2 : comparison) :
  SFcompare x y = Some c1 -> SFcompare y z = Some c2 ->
  c1 <> Gt -> c2 <> Gt ->
  SFcompare x z = Some (then_cmp c1 c2).
Proof.
  destruct x as [sx|sx| |sx mx ex], y as [sy|sy| |sy my ey], z as [sz|sz| |sz mz ez];
    simpl; try discriminate;
    try destruct sx; try destruct sy; try destruct sz;
    intros H1 H2 N1 N2;
    try (injection H1 as H1); try (injection H2 as H2); subst c1 c2;
    try congruence; try reflexivity;
    try (now rewrite then_cmp_Lt_r); try (now rewrite then_cmp_Lt_l).
  - f_equal. now apply finite_neg_trans.
  - f_equal. now apply finite_pos_trans.
Qed.

Lemma leb_trans (x y z : float) :
  (x <=? y) = true -> (y <=? z) = true -> (x <=? z) = true.
Proof.
  rewrite !FloatAxioms.leb_spec. unfold SFleb.
  destruct (SFcompare (Prim2SF x) (Prim2SF y)) as [c1|] eqn:E1; [|discriminate].
  destruct (SFcompare (Prim2SF y) (Prim2SF z)) as [c2|] eqn:E2; [|destruct c1; discriminate].
  intros H1 H2.
  rewrite (SFcompare_trans _ _ _ E1 E2) by (destruct c1, c2; discriminate).
  destruct c1, c2; simpl; congruence.
Qed.

Lemma ltb_leb_trans (x y z : float) :
  (x <? y) = true -> (y <=? z) = true -> (x <? z) = true.
Proof.
  rewrite !FloatAxioms.ltb_spec, FloatAxioms.leb_spec. unfold SFltb, SFleb.
  destruct (SFcompare (Prim2SF x) (Prim2SF y)) as [c1|] eqn:E1; [|discriminate].
  destruct (SFcompare (Prim2SF y) (Prim2SF z)) as [c2|] eqn:E2; [|destruct c1; discriminate].
  intros H1 H2.
  rewrite (SFcompare_trans _ _ _ E1 E2) by (destruct c1, c2; discriminate).
  destruct c1, c2; simpl; congruence.
Qed.

Lemma leb_ltb_trans (x y z : float) :
  (x <=? y) = true -> (y <? z) = true -> (x <? z) = true.
Proof.
  rewrite !FloatAxioms.ltb_spec, FloatAxioms.leb_spec. unfold SFltb, SFleb.
  destruct (SFcompare (Prim2SF x) (Prim2SF y)) as [c1|] eqn:E1; [|discriminate].
  destruct (SFcompare (Prim2SF y) (Prim2SF z)) as [c2|] eqn:E2; [|destruct c1; discriminate].
  intros H1 H2.
  rewrite (SFcompare_trans _ _ _ E1 E2) by (destruct c1, c2; discriminate).
  destruct c1, c2; simpl; congruence.
Qed.

End FloatOrderFacts.

(** * Further properties of the code *)

(** ** The clamp of the parser *)
Module ClampFacts.
Import JS.
Local Open Scope float_scope.

Lemma ltb_asym (x y : float) : (x <? y) = true -> (y <? x) = false.
Proof.
  intros H. destruct (y <? x) eqn:E; [|reflexivity].
  apply FloatFacts.ltb_leb in E. rewrite (FloatFacts.ltb_not_leb H) in E. discriminate E.
Qed.

(** The three branches of the clamp on a number. *)
Lemma clamp_branches (c : float) :
  is_nan c = false ->
  Oracle.clamp c
    = if 1 <? c then 1 else if 0 <? c then c else 0.
Proof.
  intros Hc. unfold Oracle.clamp, Math_min.
  change (is_nan 1) with false. rewrite Hc. simpl orb. cbv iota.
  destruct (1 <? c) eqn:E1; [reflexivity|].
  assert (Hmin : (if c <? 1 then c else if get_sign 1 then 1 else c) = c)
    by (destruct (c <? 1); reflexivity).
  rewrite Hmin. unfold Math_max. change (is_nan 0) with false. rewrite Hc.
  simpl orb. cbv iota.
  destruct (0 <? c) eqn:E0; [reflexivity|].
  destruct (c <? 0); reflexivity.
Qed.

Lemma SFcompare_refl (x : spec_float) :
  x <> S754_nan -> SFcompare x x = Some Eq.
Proof.
  destruct x as [s|s| |s m e]; simpl; intros H; try congruence.
  - now destruct s.
  - destruct s; rewrite Z.compare_refl;
      change (Pos.compare_cont Eq m m) with (Pos.compare m m);
      now rewrite Pos.compare_refl.
Qed.

(** No number is below or equal to [NaN]. *)
Lemma leb_nan (x c : float) : is_nan c = true -> (x <=? c) = false.
Proof.
  unfold is_nan. intros H. apply negb_true_iff in H.
  rewrite FloatAxioms.eqb_spec in H. unfold SFeqb in H.
  rewrite FloatAxioms.leb_spec. unfold SFleb.
  destruct (Prim2SF c) eqn:E;
    try (rewrite SFcompare_refl in H by discriminate; discriminate H).
  destruct (Prim2SF x); reflexivity.
Qed.

End ClampFacts.

(** The clamp of [parseOracleResponse] on a number: [1] above [1], [0]
    below [0], the number itself when it is positive and at most [1]; the
    result is in the unit interval, and clamping twice is clamping once. *)
Theorem clamp_piecewise :
  forall c : float,
    JS.is_nan c = false ->
    ((1 <? c)%float = true -> Oracle.clamp c = 1%float)
    /\ ((c <? 0)%float = true -> Oracle.clamp c = 0%float)
    /\ ((0 <? c)%float = true -> (c <=? 1)%float = true -> Oracle.clamp c = c)
    /\ (0 <=? Oracle.clamp c)%float = true
    /\ (Oracle.clamp c <=? 1)%float = true
    /\ Oracle.clamp (Oracle.clamp c) = Oracle.clamp c.
Proof.
  intros c Hc. pose proof (@ClampFacts.clamp_branches c Hc) as Hb.
  split; [|split; [|split; [|split; [|split]]]].
  - intros H. now rewrite Hb, H.
  - intros H. rewrite Hb.
    assert (H0 : (0 <? c)%float = false) by now apply ClampFacts.ltb_asym.
    assert (H1 : (1 <? c)%float = false).
    { destruct (1 <? c)%float eqn:E; [|reflexivity].
      assert (H10 : (1 <? 0)%float = true).
      { apply (@FloatOrderFacts.ltb_leb_trans 1%float c 0%float E). now apply FloatFacts.ltb_leb. }
      vm_compute in H10. discriminate H10. }
    now rewrite H0, H1.
  - intros H0 H1. rewrite Hb, H0.
    destruct (1 <? c)%float eqn:E; [|reflexivity].
    rewrite (FloatFacts.ltb_not_leb E) in H1. discriminate H1.
  - now apply FloatFacts.clamp_bounds.
  - now apply FloatFacts.clamp_bounds.
  - rewrite Hb. destruct (1 <? c)%float eqn:E1; [now vm_compute|].
    destruct (0 <? c)%float eqn:E0; [|now vm_compute].
    rewrite (@ClampFacts.clamp_branches c Hc), E1, E0. reflexivity.
Qed.

Lemma clamp_piecewise_witness :
  Oracle.clamp 1.5 = 1%float /\ Oracle.clamp (-0.3) = 0%float
  /\ Oracle.clamp 0.8 = 0.8%float.
Proof.
  split; [|split].
  - apply (proj1 (clamp_piecewise 1.5 eq_refl)). reflexivity.
  - apply (proj1 (proj2 (clamp_piecewise (-0.3) eq_refl))). reflexivity.
  - apply (proj1 (proj2 (proj2 (clamp_piecewise 0.8 eq_refl)))); reflexivity.
Defined.

(** Clamping never changes the side of the floor a confidence is on: the
    HTTP service accepts a verdict exactly when the number that the provider
    wrote is at least 0.7, whatever the number ([NaN] included). *)
Theorem clamp_keeps_floor_decision :
  forall (p r : string) (a b : bool) (c : float),
    (0.7 <=? Oracle.clamp c)%float = (0.7 <=? c)%float
    /\ Oracle.is_valid
         (Oracle.verdict_of p
            {| Oracle.optionATrue := a; Oracle.optionBTrue := b;
               Oracle.confidence := Oracle.clamp c; Oracle.reasoning := r |})
       = (0.7 <=? c)%float.
Proof.
  intros p r a b c.
  assert (H : (0.7 <=? Oracle.clamp c)%float = (0.7 <=? c)%float).
  { destruct (JS.is_nan c) eqn:Hc.
    - rewrite (@ClampFacts.leb_nan 0.7%float c Hc).
      unfold Oracle.clamp, JS.Math_min. rewrite Hc, orb_true_r. now vm_compute.
    - rewrite (@ClampFacts.clamp_branches c Hc).
      destruct (1 <? c)%float eqn:E1.
      + symmetry. apply (@FloatOrderFacts.leb_trans 0.7%float 1%float c); [reflexivity|].
        now apply FloatFacts.ltb_leb.
      + destruct (0 <? c)%float eqn:E0; [reflexivity|].
        destruct (0.7 <=? c)%float eqn:E7; [|reflexivity].
        assert (H0 : (0 <? c)%float = true)
          by (apply (@FloatOrderFacts.ltb_leb_trans 0%float 0.7%float c); [reflexivity | exact E7]).
        rewrite H0 in E0. discriminate E0. }
  split; [exact H|]. unfold Oracle.is_valid, Oracle.verdict_of. simpl. exact H.
Qed.

(** ** Counting votes and providers *)
Module CountFacts.
Import JS.

Lemma exclusive_counts (A : Type) (f g : A -> bool) (l : list A) :
  (forall x, f x && g x = false) ->
  List.length (filter f l) + List.length (filter g l) <= List.length l.
Proof.
  intros H. induction l as [|x l IH]; simpl; [lia|].
  specialize (H x). destruct (f x), (g x); simpl in *; try discriminate; lia.
Qed.

Lemma plugin_votes_exclusive (v : Plugin.ProviderResponse) :
  Plugin.votes_A v && Plugin.votes_B v = false.
Proof.
  unfold Plugin.votes_A, Plugin.votes_B.
  destruct (Plugin.optionATrue v), (Plugin.optionBTrue v); reflexivity.
Qed.

Lemma http_votes_exclusive (r : Oracle.Attempt) :
  Oracle.votes_A (Oracle.response r) && Oracle.votes_B (Oracle.response r) = false.
Proof.
  unfold Oracle.votes_A, Oracle.votes_B.
  destruct (Oracle.optionATrue (Oracle.response r)),
           (Oracle.optionBTrue (Oracle.response r)); reflexivity.
Qed.

Lemma ceil_half_bounds (n : nat) : n <= 2 * ceil_half n <= n + 1.
Proof.
  unfold ceil_half.
  pose proof (Nat.div_mod_eq (n + 1) 2). pose proof (Nat.mod_upper_bound (n + 1) 2).
  lia.
Qed.

Lemma filter_length_le (A : Type) (f : A -> bool) (l : list A) :
  List.length (filter f l) <= List.length l.
Proof.
  induction l as [|x l IH]; simpl; [lia|]. destruct (f x); simpl; lia.
Qed.

Section Action.
Variable JSON_parse : string -> throws value.
Variable runtime : Plugin.Runtime.
Variables q a b : string.

(** At most one verdict per provider of the roster. *)
Lemma verdicts_length (roster : list Plugin.LLMProvider) :
  List.length (Plugin.verdicts JSON_parse runtime q a b roster) <= List.length roster.
Proof.
  unfold Plugin.verdicts. induction roster as [|p roster IH]; simpl; [lia|].
  rewrite length_app.
  destruct (Plugin.accepted (snd (Plugin.callLLMProvider JSON_parse runtime q a b p)));
    simpl; lia.
Qed.

End Action.

Lemma roster_length (enabled : option (list string)) :
  List.length (Plugin.providersToUse enabled) <= 3.
Proof.
  change 3 with (List.length Plugin.LLM_PROVIDERS).
  destruct enabled as [names|]; unfold Plugin.providersToUse; [|lia].
  apply filter_length_le.
Qed.

Section Service.
Variable JSON_parse : string -> throws value.
Variable fetch : string -> string -> string -> throws Oracle.Response.


(** What a success of the handler is made of. *)
Lemma success_inv (req : Oracle.ConsensusRequest) (c : Oracle.Consensus) :
  Oracle.consensus_handler JSON_parse fetch req = Oracle.Success c ->
  exists ps,
    Oracle.providers req = Some (map Some ps)
    /\ filter Oracle.is_valid (map (Oracle.attempt JSON_parse fetch) ps) <> []
    /\ c = Oracle.reduce (map (Oracle.attempt JSON_parse fetch) ps)
             (filter Oracle.is_valid (map (Oracle.attempt JSON_parse fetch) ps)).
Proof.
  intros H.
  destruct (OracleFacts.handler_success JSON_parse fetch req H) as (ps & Hps & _ & Hne & Hc).
  exists ps. auto.
Qed.

End Service.
End CountFacts.

(** The votes of a consensus are cast by distinct accepted verdicts: the
    two counts together do not exceed the number of providers of the result,
    which has at least one provider, and at most three in the plugin and at
    most the number of attempts in the HTTP service. *)
Theorem votes_within_providers :
  (forall (JSON_parse : string -> JS.throws JS.value) (runtime : Plugin.Runtime)
          (q a b : string) (enabled : option (list string)) (r : Plugin.ConsensusResult),
      snd (Plugin.getConsensus JSON_parse runtime q a b enabled) = JS.Ret r ->
      Plugin.optionA (Plugin.cr_votes r) + Plugin.optionB (Plugin.cr_votes r)
        <= List.length (Plugin.cr_providers r)
      /\ 1 <= List.length (Plugin.cr_providers r) <= 3)
  /\ (forall (JSON_parse : string -> JS.throws JS.value)
             (fetch : string -> string -> string -> JS.throws Oracle.Response)
             (req : Oracle.ConsensusRequest) (c : Oracle.Consensus),
      Oracle.consensus_handler JSON_parse fetch req = Oracle.Success c ->
      Oracle.optionA (Oracle.c_votes c) + Oracle.optionB (Oracle.c_votes c)
        <= List.length (Oracle.c_providers c)
      /\ 1 <= List.length (Oracle.c_providers c) <= List.length (Oracle.c_allResponses c)).
Proof.
  split.
  - intros JSON_parse runtime q a b enabled r H.
    unfold Plugin.getConsensus in H. rewrite PluginFacts.getConsensus_on_spec in H.
    simpl in H.
    pose proof (CountFacts.verdicts_length JSON_parse runtime q a b
                  (Plugin.providersToUse enabled)) as Hn.
    pose proof (CountFacts.roster_length enabled) as Hr.
    destruct (Plugin.verdicts JSON_parse runtime q a b (Plugin.providersToUse enabled))
      as [|v l]; [discriminate|].
    set (vs := v :: l) in *.
    assert (Hne : vs <> []) by discriminate.
    assert (Hlen : 1 <= List.length vs) by (simpl; lia).
    clearbody vs.
    rewrite (PluginFacts.plugin_reduce_fields Hne) in H.
    injection H as <-.
    cbn [Plugin.cr_votes Plugin.cr_providers Plugin.optionA Plugin.optionB].
    rewrite length_map.
    pose proof (CountFacts.exclusive_counts Plugin.votes_A Plugin.votes_B vs
                  CountFacts.plugin_votes_exclusive).
    lia.
  - intros JSON_parse fetch req c H.
    destruct (CountFacts.success_inv JSON_parse fetch req H) as (ps & _ & Hne & ->).
    set (all := map (Oracle.attempt JSON_parse fetch) ps) in *.
    destruct (OracleFacts.http_reduce_fields all (filter Oracle.is_valid all))
      as (Hv & _ & _ & Hp & _ & _).
    rewrite Hv, Hp, length_map. cbn [Oracle.optionA Oracle.optionB].
    pose proof (CountFacts.exclusive_counts
                  (fun r => Oracle.votes_A (Oracle.response r))
                  (fun r => Oracle.votes_B (Oracle.response r))
                  (filter Oracle.is_valid all) CountFacts.http_votes_exclusive).
    pose proof (CountFacts.filter_length_le Oracle.is_valid all).
    destruct (filter Oracle.is_valid all); [congruence|].
    simpl Oracle.c_allResponses. simpl List.length in *. lia.
Qed.

Lemma votes_within_providers_witness :
  exists r,
    snd (Plugin.getConsensus Samples.JSON_parse Samples.host_2A_1B Samples.question
           Samples.optionA_text Samples.optionB_text None) = JS.Ret r
    /\ Plugin.optionA (Plugin.cr_votes r) + Plugin.optionB (Plugin.cr_votes r)
       <= List.length (Plugin.cr_providers r)
    /\ 1 <= List.length (Plugin.cr_providers r) <= 3.
Proof.
  eexists. split; [reflexivity|].
  apply (proj1 votes_within_providers Samples.JSON_parse Samples.host_2A_1B
           Samples.question Samples.optionA_text Samples.optionB_text None).
  reflexivity.
Defined.

(** The plugin never reports both options as true: with at most three
    providers, two votes for A and two votes for B cannot both be cast. *)
Theorem plugin_flags_exclusive :
  forall (JSON_parse : string -> JS.throws JS.value) (runtime : Plugin.Runtime)
         (q a b : string) (enabled : option (list string)) (r : Plugin.ConsensusResult),
    snd (Plugin.getConsensus JSON_parse runtime q a b enabled) = JS.Ret r ->
    Plugin.cr_optionATrue r && Plugin.cr_optionBTrue r = false.
Proof.
  intros JSON_parse runtime q a b enabled r H.
  unfold Plugin.getConsensus in H. rewrite PluginFacts.getConsensus_on_spec in H.
  simpl in H.
  pose proof (CountFacts.verdicts_length JSON_parse runtime q a b
                (Plugin.providersToUse enabled)) as Hn.
  pose proof (CountFacts.roster_length enabled) as Hr.
  destruct (Plugin.verdicts JSON_parse runtime q a b (Plugin.providersToUse enabled))
    as [|v l]; [discriminate|].
  set (vs := v :: l) in *.
  assert (Hne : vs <> []) by discriminate.
  clearbody vs.
  rewrite (PluginFacts.plugin_reduce_fields Hne) in H.
  pose proof (CountFacts.exclusive_counts Plugin.votes_A Plugin.votes_B vs
                CountFacts.plugin_votes_exclusive) as Hx.
  revert H Hx.
  generalize (List.length (filter Plugin.votes_A vs))
             (List.length (filter Plugin.votes_B vs)).
  intros na nb H Hx. injection H as <-.
  cbn [Plugin.cr_optionATrue Plugin.cr_optionBTrue]. unfold Plugin.CONSENSUS_THRESHOLD.
  destruct na as [|[|na]], nb as [|[|nb]]; simpl; try reflexivity. lia.
Qed.

Lemma plugin_flags_exclusive_witness :
  exists r,
    snd (Plugin.getConsensus Samples.JSON_parse Samples.host_2A_1B Samples.question
           Samples.optionA_text Samples.optionB_text None) = JS.Ret r
    /\ Plugin.cr_optionATrue r && Plugin.cr_optionBTrue r = false.
Proof.
  eexists. split; [reflexivity|].
  apply (plugin_flags_exclusive Samples.JSON_parse Samples.host_2A_1B Samples.question
           Samples.optionA_text Samples.optionB_text None).
  reflexivity.
Defined.

(** In the HTTP service both options are reported true exactly on an even
    split: every accepted verdict votes, and A and B get the same number of
    votes. *)
Theorem http_both_true_iff_even_split :
  forall (JSON_parse : string -> JS.throws JS.value)
         (fetch : string -> string -> string -> JS.throws Oracle.Response)
         (req : Oracle.ConsensusRequest) (c : Oracle.Consensus),
    Oracle.consensus_handler JSON_parse fetch req = Oracle.Success c ->
    (Oracle.c_optionATrue c = true /\ Oracle.c_optionBTrue c = true
     <-> Oracle.optionA (Oracle.c_votes c) = Oracle.optionB (Oracle.c_votes c)
         /\ Oracle.optionA (Oracle.c_votes c) + Oracle.optionB (Oracle.c_votes c)
            = List.length (Oracle.c_providers c)).
Proof.
  intros JSON_parse fetch req c H.
  destruct (CountFacts.success_inv JSON_parse fetch req H) as (ps & _ & Hne & ->).
  set (all := map (Oracle.attempt JSON_parse fetch) ps) in *.
  destruct (OracleFacts.http_reduce_fields all (filter Oracle.is_valid all))
    as (Hv & _ & _ & Hp & HA & HB).
  rewrite Hv, Hp, HA, HB, length_map. cbn [Oracle.optionA Oracle.optionB].
  pose proof (CountFacts.exclusive_counts
                (fun r => Oracle.votes_A (Oracle.response r))
                (fun r => Oracle.votes_B (Oracle.response r))
                (filter Oracle.is_valid all) CountFacts.http_votes_exclusive) as Hx.
  pose proof (CountFacts.ceil_half_bounds (List.length (filter Oracle.is_valid all))) as Hc.
  rewrite !Nat.leb_le. lia.
Qed.

Lemma http_both_true_iff_even_split_witness :
  exists c,
    Oracle.consensus_handler Samples.JSON_parse Samples.up_one_low
      (Samples.request Samples.roster) = Oracle.Success c
    /\ (Oracle.c_optionATrue c = true /\ Oracle.c_optionBTrue c = true
        <-> Oracle.optionA (Oracle.c_votes c) = Oracle.optionB (Oracle.c_votes c)
            /\ Oracle.optionA (Oracle.c_votes c) + Oracle.optionB (Oracle.c_votes c)
               = List.length (Oracle.c_providers c)).
Proof.
  eexists. split; [reflexivity|].
  apply (http_both_true_iff_even_split Samples.JSON_parse Samples.up_one_low
           (Samples.request Samples.roster)).
  reflexivity.
Defined.



(** ** The selection of providers in the plugin *)
Module RosterFacts.
Import JS.

Lemma existsb_eqb_In (k : string) (names : list string) :
  existsb (String.eqb k) names = true <-> In k names.
Proof.
  rewrite existsb_exists. split.
  - intros (x & Hx & E). apply String.eqb_eq in E. now subst.
  - intros H. exists k. split; [assumption | apply String.eqb_refl].
Qed.

Lemma existsb_eqb_same (k : string) (e1 e2 : list string) :
  (In k e1 <-> In k e2) ->
  existsb (String.eqb k) e1 = existsb (String.eqb k) e2.
Proof.
  intros H.
  destruct (existsb (String.eqb k) e1) eqn:E1, (existsb (String.eqb k) e2) eqn:E2;
    try reflexivity.
  - apply existsb_eqb_In, H, existsb_eqb_In in E1. congruence.
  - apply existsb_eqb_In, H, existsb_eqb_In in E2. congruence.
Qed.

End RosterFacts.

(** The caller's [providers] array selects among the three configured
    providers: a provider is used iff it is configured and its name is in the
    array; names that are not configured are skipped; the order and the
    repetitions in the array do not matter, the roster keeps the configured
    order and has no provider twice. *)
Theorem enabled_providers_select :
  forall enabled : list string,
    (forall p, In p (Plugin.providersToUse (Some enabled))
               <-> In p Plugin.LLM_PROVIDERS /\ In (Plugin.name p) enabled)
    /\ NoDup (map Plugin.name (Plugin.providersToUse (Some enabled)))
    /\ (forall enabled' : list string,
           (forall n, In n enabled <-> In n enabled') ->
           Plugin.providersToUse (Some enabled) = Plugin.providersToUse (Some enabled'))
    /\ Plugin.providersToUse (Some (map Plugin.name Plugin.LLM_PROVIDERS))
       = Plugin.providersToUse None.
Proof.
  intros enabled. split; [|split; [|split]].
  - intros p. unfold Plugin.providersToUse. rewrite filter_In.
    now rewrite RosterFacts.existsb_eqb_In.
  - unfold Plugin.providersToUse, Plugin.LLM_PROVIDERS. cbn [filter Plugin.name].
    destruct (existsb (String.eqb "openai") enabled),
             (existsb (String.eqb "deepseek") enabled),
             (existsb (String.eqb "gemini") enabled); cbn [map Plugin.name];
      repeat (apply NoDup_cons;
              [simpl; intros Hin;
               repeat (destruct Hin as [Hin|Hin]; [discriminate Hin|]); exact Hin|]);
      apply NoDup_nil.
  - intros enabled' H. unfold Plugin.providersToUse. apply filter_ext.
    intros p. apply RosterFacts.existsb_eqb_same, H.
  - reflexivity.
Qed.

Lemma enabled_providers_select_witness :
  Plugin.providersToUse (Some ["gemini"; "openai"; "gemini"])
    = Plugin.providersToUse (Some ["openai"; "gemini"]).
Proof.
  apply (proj1 (proj2 (proj2 (enabled_providers_select
                                ["gemini"; "openai"; "gemini"])))).
  intros n. simpl. tauto.
Defined.

(** When the caller's [providers] array names none of the configured
    providers (the empty array included), no provider is called: nothing is
    written to the console and [getConsensus] throws
    ["No valid responses received from AI providers"], whatever the host. *)
Theorem no_configured_provider_named :
  forall (JSON_parse : string -> JS.throws JS.value) (runtime : Plugin.Runtime)
         (q a b : string) (enabled : list string),
    (forall p, In p Plugin.LLM_PROVIDERS -> ~ In (Plugin.name p) enabled) ->
    Plugin.getConsensus JSON_parse runtime q a b (Some enabled)
      = ([], JS.Throw (JS.Error "No valid responses received from AI providers")).
Proof.
  intros JSON_parse runtime q a b enabled H.
  assert (E : Plugin.providersToUse (Some enabled) = []).
  { unfold Plugin.providersToUse.
    assert (Hf : forall p, In p Plugin.LLM_PROVIDERS ->
                           existsb (String.eqb (Plugin.name p)) enabled = false).
    { intros p Hp. destruct (existsb (String.eqb (Plugin.name p)) enabled) eqn:Ex;
        [|reflexivity].
      apply RosterFacts.existsb_eqb_In in Ex. now apply H in Ex. }
    induction Plugin.LLM_PROVIDERS as [|p l IH]; [reflexivity|].
    cbn [filter]. rewrite (Hf p (or_introl eq_refl)).
    apply IH.
    - intros p' Hp'. apply H. now right.
    - intros p' Hp'. apply Hf. now right. }
  unfold Plugin.getConsensus. rewrite E. reflexivity.
Qed.

Lemma no_configured_provider_named_witness :
  Plugin.getConsensus Samples.JSON_parse Samples.host_2A_1B Samples.question
      Samples.optionA_text Samples.optionB_text (Some ["mistral"])
    = ([], JS.Throw (JS.Error "No valid responses received from AI providers")).
Proof.
  apply (no_configured_provider_named Samples.JSON_parse Samples.host_2A_1B
           Samples.question Samples.optionA_text Samples.optionB_text ["mistral"]).
  intros p Hp. simpl in Hp. simpl.
  destruct Hp as [<-|[<-|[<-|[]]]]; simpl; intuition congruence.
Defined.

(** ** Replacing the first occurrence *)
Module TextFacts.

Lemma find_first_prefix (pat rest : string) :
  Text.find_first pat (pat ++ rest) = Some (EmptyString, rest).
Proof.
  assert (Hs : forall p r, Text.starts_with p (p ++ r) = true).
  { induction p as [|c p IH]; intros r; simpl; [now destruct r|].
    now rewrite Ascii.eqb_refl, IH. }
  assert (Hk : forall p r, Text.skip (String.length p) (p ++ r) = r).
  { induction p as [|c p IH]; intros r; simpl; [reflexivity | apply IH]. }
  destruct (pat ++ rest) eqn:E; simpl; rewrite <- E, Hs, Hk; reflexivity.
Qed.

Lemma replace_absent (s pat replacement : string) :
  Text.find_first pat s = None -> Text.replace s pat replacement = s.
Proof. unfold Text.replace. now intros ->. Qed.

End TextFacts.

(** [validateApiKey] lets a request through only if the server has a
    non-empty [ELIZAOS_API_KEY]: without one every request is refused, with
    or without a header.  With one, a request without [authorization] header
    is refused, the header ["Bearer " ++ key] is accepted, and so is the bare
    key as header when it does not contain ["Bearer "]; a request is accepted
    exactly when the header without its first ["Bearer "] is the key. *)
Theorem api_key_gate :
  (forall authorization key,
      Plugin.missing key = true ->
      Gateway.validateApiKey authorization key = Gateway.Unauthorized "Invalid API key")
  /\ (forall key,
      Gateway.validateApiKey None key = Gateway.Unauthorized "Invalid API key")
  /\ (forall k : string,
      k <> "" ->
      Gateway.validateApiKey (Some ("Bearer " ++ k)) (Some k) = Gateway.Next)
  /\ (forall k : string,
      k <> "" -> Text.find_first "Bearer " k = None ->
      Gateway.validateApiKey (Some k) (Some k) = Gateway.Next)
  /\ (forall authorization key,
      Gateway.validateApiKey authorization key = Gateway.Next
      <-> exists h k, authorization = Some h /\ key = Some k /\ k <> ""
                      /\ Text.replace h "Bearer " "" = k).
Proof.
  assert (Htruthy : forall k : string, k <> "" -> JS.truthy_str k = true).
  { intros k Hk. unfold JS.truthy_str. destruct k; [congruence | reflexivity]. }
  split; [|split; [|split; [|split]]].
  - intros authorization key H. unfold Gateway.validateApiKey. now rewrite H.
  - intros key. unfold Gateway.validateApiKey. simpl.
    destruct key as [k|]; simpl; [|reflexivity].
    now rewrite orb_true_r.
  - intros k Hk. unfold Gateway.validateApiKey.
    cbv beta iota delta [option_map]. unfold Text.replace.
    rewrite (TextFacts.find_first_prefix "Bearer " k).
    cbn [Text.substitution append Gateway.same Plugin.missing].
    now rewrite (Htruthy k Hk), String.eqb_refl.
  - intros k Hk Hn. unfold Gateway.validateApiKey.
    cbv beta iota delta [option_map].
    rewrite (@TextFacts.replace_absent k "Bearer " "" Hn).
    cbn [Gateway.same Plugin.missing].
    now rewrite (Htruthy k Hk), String.eqb_refl.
  - intros authorization key. unfold Gateway.validateApiKey. split.
    + destruct key as [k|]; simpl; [|discriminate].
      destruct (JS.truthy_str k) eqn:Ek; simpl; [|discriminate].
      destruct authorization as [h|]; simpl; [|discriminate].
      destruct (String.eqb (Text.replace h "Bearer " "") k) eqn:E; simpl; [|discriminate].
      intros _. exists h, k. apply String.eqb_eq in E.
      repeat split; try assumption. intros ->. discriminate Ek.
    + intros (h & k & -> & -> & Hk & E). simpl.
      now rewrite (Htruthy k Hk), E, String.eqb_refl.
Qed.

Lemma api_key_gate_witness :
  Gateway.validateApiKey (Some "Bearer s3cret") None
    = Gateway.Unauthorized "Invalid API key"
  /\ Gateway.validateApiKey (Some "Bearer s3cret") (Some "s3cret") = Gateway.Next
  /\ Gateway.validateApiKey (Some "s3cret") (Some "s3cret") = Gateway.Next.
Proof.
  destruct api_key_gate as (H1 & _ & H3 & H4 & _). split; [|split].
  - apply H1. reflexivity.
  - apply (H3 "s3cret"). discriminate.
  - apply (H4 "s3cret"); [discriminate | reflexivity].
Defined.

(** ** The brace pattern on a wrapped object *)
Module WrapFacts.
Import JS.

Lemma from_first_open_skip (pre r : string) :
  occurs open_brace pre = false ->
  from_first_open (pre ++ String open_brace r) = Some (String open_brace r).
Proof.
  induction pre as [|c pre IH]; simpl.
  - reflexivity.
  - intros H. apply orb_false_iff in H. destruct H as [Hc Hpre].
    rewrite Hc. now apply IH.
Qed.

Lemma upto_last_close_stop (q post : string) :
  occurs close_brace post = false ->
  upto_last_close (q ++ String close_brace post) = Some (q ++ String close_brace "").
Proof.
  intros H. induction q as [|c q IH]; simpl.
  - apply JSFacts.upto_last_close_none in H. now rewrite H.
  - now rewrite IH.
Qed.

Lemma append_assoc (a b c : string) : (a ++ b) ++ c = a ++ (b ++ c).
Proof. induction a as [|x a IH]; simpl; [reflexivity | now rewrite IH]. Qed.

End WrapFacts.

(** Text around the object is ignored as long as it has no braces of its
    own: when nothing before the object contains an opening brace and
    nothing after it a closing brace, the pattern extracts exactly the
    object, and the parser returns what it returns on the bare object. *)
Theorem prose_around_object_ignored :
  forall (JSON_parse : string -> JS.throws JS.value) (pre mid post : string),
    JS.occurs JS.open_brace pre = false ->
    JS.occurs JS.close_brace post = false ->
    let object := String JS.open_brace (mid ++ String JS.close_brace "") in
    JS.match_braces (pre ++ object ++ post) = Some object
    /\ JS.match_braces object = Some object
    /\ Oracle.parseOracleResponse JSON_parse (JS.VStr (pre ++ object ++ post))
       = Oracle.parseOracleResponse JSON_parse (JS.VStr object).
Proof.
  intros JSON_parse pre mid post Hpre Hpost object.
  assert (H : forall pre' post', JS.occurs JS.open_brace pre' = false ->
               JS.occurs JS.close_brace post' = false ->
               JS.match_braces (pre' ++ object ++ post') = Some object).
  { intros pre' post' Hpre' Hpost'. unfold JS.match_braces. subst object.
    cbn [append]. rewrite (WrapFacts.from_first_open_skip _ _ Hpre').
    rewrite WrapFacts.append_assoc. cbn [append].
    exact (WrapFacts.upto_last_close_stop (String JS.open_brace mid) post' Hpost'). }
  assert (H0 : JS.match_braces object = Some object).
  { specialize (H "" "" eq_refl eq_refl). cbn [append] in H.
    replace (object ++ "") with object in H; [exact H|].
    clear. induction object as [|c s IH]; simpl; [reflexivity | now rewrite <- IH]. }
  split; [now apply H|]. split; [exact H0|].
  unfold Oracle.parseOracleResponse. now rewrite (H pre post Hpre Hpost), H0.
Qed.

Lemma prose_around_object_ignored_witness :
  JS.match_braces ("Answer: " ++ String JS.open_brace ("x" ++ String JS.close_brace "")
                   ++ " Thanks.")
    = Some (String JS.open_brace ("x" ++ String JS.close_brace "")).
Proof.
  apply (@prose_around_object_ignored Samples.JSON_parse "Answer: " "x" " Thanks."
           eq_refl eq_refl).
Defined.

(** ** The single-provider endpoint *)
Module EvaluateFacts.
Import JS Oracle.

Section Service.
Variable JSON_parse : string -> throws value.
Variable fetch : string -> string -> string -> throws Response.

Lemma parse_needs_text (raw : value) (v : OracleResponse) :
  parseOracleResponse JSON_parse raw = Ret v -> exists s, raw = VStr s.
Proof. destruct raw; simpl; try discriminate. eauto. Qed.


End Service.
End EvaluateFacts.



(** A response that is [ok] but lacks the expected fields is not an error
    of its own: the extracted text is never a falsy value other than the
    empty string, a body without [choices] (or [candidates] for gemini) gives
    the empty text, and the attempt is then recorded with the error
    ["No JSON found in response"]. *)
Theorem body_without_text :
  (forall (a : Oracle.adapter) (data : JS.value),
      data <> JS.VNull -> data <> JS.VUndefined ->
      exists text, Oracle.extract_text a data = JS.Ret text
                   /\ (text = JS.VStr "" \/ JS.truthy text = true))
  /\ (forall (JSON_parse : string -> JS.throws JS.value)
             (fetch : string -> string -> string -> JS.throws Oracle.Response)
             (pc : Oracle.ProviderConfig) (a : Oracle.adapter)
             (response : Oracle.Response) (fields : list (string * JS.value)),
      Oracle.LLM_CONFIGS (Oracle.pc_provider pc) = Some a ->
      fetch (Oracle.pc_provider pc) (Oracle.pc_model pc) (Oracle.pc_apiKey pc)
        = JS.Ret response ->
      Oracle.ok response = true ->
      Oracle.json response = JS.Ret (JS.VObj fields) ->
      JS.assoc (match a with Oracle.Gemini => "candidates" | _ => "choices" end) fields
        = JS.VUndefined ->
      Oracle.callLLMProvider fetch (Oracle.pc_provider pc) (Oracle.pc_model pc)
          (Oracle.pc_apiKey pc) = JS.Ret (JS.VStr "")
      /\ Oracle.attempt JSON_parse fetch pc
         = Oracle.failure pc (JS.Error "No JSON found in response")).
Proof.
  split.
  - intros a data Hn Hu. unfold Oracle.extract_text.
    assert (Hor : forall v, JS.or_empty v = JS.VStr "" \/ JS.truthy (JS.or_empty v) = true).
    { intros v. unfold JS.or_empty. destruct (JS.truthy v) eqn:E; auto. }
    destruct a, data; try congruence; simpl; eexists; (split; [reflexivity|]);
      apply Hor.
  - intros JSON_parse fetch pc a response fields Ha Hf Hok Hj Hk.
    assert (Hcall : Oracle.callLLMProvider fetch (Oracle.pc_provider pc)
                      (Oracle.pc_model pc) (Oracle.pc_apiKey pc) = JS.Ret (JS.VStr "")).
    { unfold Oracle.callLLMProvider. rewrite Ha, Hf. simpl. rewrite Hok, Hj. simpl.
      destruct a; simpl; rewrite Hk; reflexivity. }
    split; [exact Hcall|]. unfold Oracle.attempt. rewrite Hcall. reflexivity.
Qed.

Lemma body_without_text_witness :
  Oracle.attempt Samples.JSON_parse
      (Samples.upstream
         [("openai",
           JS.Ret (Samples.ok_response (JS.VObj [("error", JS.VStr "overloaded")])))])
      (Samples.cfg "openai" "gpt-4")
    = Oracle.failure (Samples.cfg "openai" "gpt-4")
        (JS.Error "No JSON found in response").
Proof.
  apply (proj2 body_without_text Samples.JSON_parse
           (Samples.upstream
              [("openai",
                JS.Ret (Samples.ok_response (JS.VObj [("error", JS.VStr "overloaded")])))])
           (Samples.cfg "openai" "gpt-4") Oracle.OpenAI
           (Samples.ok_response (JS.VObj [("error", JS.VStr "overloaded")]))
           [("error", JS.VStr "overloaded")]); reflexivity.
Defined.

(** The evaluator rates a stored consensus ["high"] exactly when its
    confidence is above 0.8, at least two providers contributed and at least
    one vote was cast, and ["medium"] otherwise.  The score follows the
    confidence alone: it is 0.9 exactly when the confidence is above 0.8,
    whatever the quality, and 0.7 exactly when it is not.  Hence a consensus
    of the plugin in which an option reached the threshold is rated high as
    soon as its confidence is above 0.8.  Without a consensus the score is
    0.5 and the quality ["unknown"]. *)
Theorem evaluator_rates_consensus :
  (forall (Number_toString : float -> string) (c : Plugin.ConsensusResult),
      let e := Evaluator.handler Number_toString (Some c) in
      (Evaluator.quality e = "high"
       <-> (0.8 <? Plugin.cr_confidence c)%float = true
           /\ 2 <= List.length (Plugin.cr_providers c)
           /\ 1 <= Plugin.optionA (Plugin.cr_votes c) + Plugin.optionB (Plugin.cr_votes c))
      /\ (Evaluator.quality e = "high" \/ Evaluator.quality e = "medium")
      /\ (Evaluator.quality e = "high" -> Evaluator.score e = 0.9%float)
      /\ ((0.8 <? Plugin.cr_confidence c)%float = false ->
          Evaluator.score e = 0.7%float /\ Evaluator.quality e = "medium")
      /\ (Evaluator.score e = 0.9%float <-> (0.8 <? Plugin.cr_confidence c)%float = true)
      /\ (Evaluator.score e = 0.7%float <-> (0.8 <? Plugin.cr_confidence c)%float = false)
      /\ (Evaluator.quality e = "medium"
          <-> (0.8 <? Plugin.cr_confidence c)%float = false
              \/ List.length (Plugin.cr_providers c) < 2
              \/ Plugin.optionA (Plugin.cr_votes c) + Plugin.optionB (Plugin.cr_votes c)
                 = 0))
  /\ (forall (Number_toString : float -> string)
             (JSON_parse : string -> JS.throws JS.value) (runtime : Plugin.Runtime)
             (q a b : string) (enabled : option (list string)) (r : Plugin.ConsensusResult),
      snd (Plugin.getConsensus JSON_parse runtime q a b enabled) = JS.Ret r ->
      Plugin.cr_optionATrue r = true \/ Plugin.cr_optionBTrue r = true ->
      (0.8 <? Plugin.cr_confidence r)%float = true ->
      Evaluator.quality (Evaluator.handler Number_toString (Some r)) = "high"
      /\ Evaluator.score (Evaluator.handler Number_toString (Some r)) = 0.9%float)
  /\ (forall Number_toString : float -> string,
        Evaluator.score (Evaluator.handler Number_toString None) = 0.5%float
        /\ Evaluator.quality (Evaluator.handler Number_toString None) = "unknown").
Proof.
  assert (Hq : forall (Number_toString : float -> string) (c : Plugin.ConsensusResult),
             Evaluator.quality (Evaluator.handler Number_toString (Some c)) = "high"
             <-> (0.8 <? Plugin.cr_confidence c)%float = true
                 /\ 2 <= List.length (Plugin.cr_providers c)
                 /\ 1 <= Plugin.optionA (Plugin.cr_votes c)
                         + Plugin.optionB (Plugin.cr_votes c)).
  { intros Number_toString c. unfold Evaluator.handler. cbn [Evaluator.quality].
    set (cond := (0.8 <? Plugin.cr_confidence c)%float
                 && Nat.leb 2 (List.length (Plugin.cr_providers c))
                 && (Nat.ltb 0 (Plugin.optionA (Plugin.cr_votes c))
                     || Nat.ltb 0 (Plugin.optionB (Plugin.cr_votes c)))).
    assert (Hc : cond = true
                 <-> (0.8 <? Plugin.cr_confidence c)%float = true
                     /\ 2 <= List.length (Plugin.cr_providers c)
                     /\ 1 <= Plugin.optionA (Plugin.cr_votes c)
                             + Plugin.optionB (Plugin.cr_votes c)).
    { subst cond. split.
      - intros H. apply andb_prop in H. destruct H as [H Hv].
        apply andb_prop in H. destruct H as [Hs Hn].
        apply Nat.leb_le in Hn. apply orb_prop in Hv.
        repeat split; try assumption.
        destruct Hv as [Hv|Hv]; apply Nat.ltb_lt in Hv; lia.
      - intros (Hs & Hn & Hv). rewrite Hs. apply Nat.leb_le in Hn. rewrite Hn.
        cbn [andb].
        destruct (Nat.ltb 0 (Plugin.optionA (Plugin.cr_votes c))) eqn:EA; [reflexivity|].
        apply Nat.ltb_ge in EA. cbn [orb]. apply Nat.ltb_lt. lia. }
    rewrite <- Hc. destruct cond; split; intros H; try reflexivity; discriminate H. }
  split; [|split].
  - intros Number_toString c e. subst e. split; [apply Hq|].
    assert (Hm : Evaluator.quality (Evaluator.handler Number_toString (Some c)) = "medium"
                 <-> Evaluator.quality (Evaluator.handler Number_toString (Some c))
                     <> "high").
    { unfold Evaluator.handler. cbn [Evaluator.quality].
      destruct ((0.8 <? Plugin.cr_confidence c)%float
                && Nat.leb 2 (List.length (Plugin.cr_providers c))
                && (Nat.ltb 0 (Plugin.optionA (Plugin.cr_votes c))
                    || Nat.ltb 0 (Plugin.optionB (Plugin.cr_votes c))));
        split; intros H; try reflexivity; try discriminate H; try congruence. }
    split; [|split; [|split; [|split; [|split]]]].
    + unfold Evaluator.handler. cbn [Evaluator.quality].
      destruct ((0.8 <? Plugin.cr_confidence c)%float
                && Nat.leb 2 (List.length (Plugin.cr_providers c))
                && (Nat.ltb 0 (Plugin.optionA (Plugin.cr_votes c))
                    || Nat.ltb 0 (Plugin.optionB (Plugin.cr_votes c)))); auto.
    + intros Hh. apply Hq in Hh. destruct Hh as [Hs _].
      unfold Evaluator.handler. cbn [Evaluator.score]. now rewrite Hs.
    + intros Hs. split.
      * unfold Evaluator.handler. cbn [Evaluator.score]. now rewrite Hs.
      * apply Hm. intros Hh. apply Hq in Hh. destruct Hh as [Hs' _]. congruence.
    + unfold Evaluator.handler. cbn [Evaluator.score].
      destruct (0.8 <? Plugin.cr_confidence c)%float; split; intros H;
        try reflexivity; try discriminate H.
    + unfold Evaluator.handler. cbn [Evaluator.score].
      destruct (0.8 <? Plugin.cr_confidence c)%float; split; intros H;
        try reflexivity; try discriminate H.
    + rewrite Hm, Hq. split.
      * intros Hn. destruct (0.8 <? Plugin.cr_confidence c)%float; [|now left].
        right.
        destruct (Nat.lt_ge_cases (List.length (Plugin.cr_providers c)) 2) as [Hl|Hl];
          [now left|].
        right.
        destruct (Plugin.optionA (Plugin.cr_votes c) + Plugin.optionB (Plugin.cr_votes c))
          as [|n] eqn:En; [reflexivity|].
        exfalso. apply Hn. repeat split; [exact Hl | lia].
      * intros [H|[H|H]] (Hs & Hl & Hv); [congruence | lia | lia].
  - intros Number_toString JSON_parse runtime q a b enabled r H Hflag Hconf.
    assert (Hhigh : Evaluator.quality (Evaluator.handler Number_toString (Some r)) = "high").
    { apply Hq. split; [exact Hconf|].
      unfold Plugin.getConsensus in H. rewrite PluginFacts.getConsensus_on_spec in H.
      simpl in H.
      destruct (Plugin.verdicts JSON_parse runtime q a b (Plugin.providersToUse enabled))
        as [|v l]; [discriminate|].
      set (vs := v :: l) in *.
      assert (Hne : vs <> []) by discriminate. clearbody vs.
      rewrite (PluginFacts.plugin_reduce_fields Hne) in H.
      pose proof (CountFacts.exclusive_counts Plugin.votes_A Plugin.votes_B vs
                    CountFacts.plugin_votes_exclusive) as Hx.
      revert H Hx.
      generalize (List.length (filter Plugin.votes_A vs))
                 (List.length (filter Plugin.votes_B vs)).
      intros na nb H Hx. injection H as Hr. subst r.
      cbn [Plugin.cr_optionATrue Plugin.cr_optionBTrue Plugin.cr_providers
           Plugin.cr_votes Plugin.optionA Plugin.optionB] in *.
      rewrite length_map. unfold Plugin.CONSENSUS_THRESHOLD in Hflag.
      destruct Hflag as [Hf|Hf];
        [destruct na as [|[|na]] | destruct nb as [|[|nb]]];
        try discriminate Hf; lia. }
    split; [exact Hhigh|].
    unfold Evaluator.handler. cbn [Evaluator.score]. now rewrite Hconf.
  - intros Number_toString. split; reflexivity.
Qed.

Lemma evaluator_rates_consensus_witness :
  exists r,
    snd (Plugin.getConsensus Samples.JSON_parse Samples.host_2A_1B Samples.question
           Samples.optionA_text Samples.optionB_text None) = JS.Ret r
    /\ Evaluator.quality (Evaluator.handler (fun _ => EmptyString) (Some r)) = "high"
    /\ Evaluator.score (Evaluator.handler (fun _ => EmptyString) (Some r)) = 0.9%float.
Proof.
  eexists. split; [reflexivity|].
  apply (proj1 (proj2 evaluator_rates_consensus) (fun _ => EmptyString) Samples.JSON_parse
           Samples.host_2A_1B Samples.question Samples.optionA_text
           Samples.optionB_text None); [reflexivity | now left | reflexivity].
Defined.

(** Every message that the action accepts, the evaluator accepts: a content
    whose [question], [optionA] and [optionB] are all truthy is an object
    that has the three keys.  The action's validation throws only on a
    content that is [null] or [undefined]. *)
Theorem action_validate_implies_evaluator :
  forall content : JS.value,
    (Action.validate content = JS.Ret true -> Evaluator.validate content = true)
    /\ (forall fields, content = JS.VObj fields ->
          Action.validate content
            = JS.Ret (JS.truthy (JS.assoc "question" fields)
                      && JS.truthy (JS.assoc "optionA" fields)
                      && JS.truthy (JS.assoc "optionB" fields)))
    /\ ((exists e, Action.validate content = JS.Throw e)
        <-> content = JS.VNull \/ content = JS.VUndefined).
Proof.
  assert (Hkey : forall k fields, JS.truthy (JS.assoc k fields) = true ->
                                  Evaluator.has_key k fields = true).
  { intros k fields. induction fields as [|[k' v] fields IH]; simpl; [discriminate|].
    destruct (String.eqb k k'); simpl; [reflexivity | exact IH]. }
  assert (Hobj : forall fields,
             Action.validate (JS.VObj fields)
             = JS.Ret (JS.truthy (JS.assoc "question" fields)
                       && JS.truthy (JS.assoc "optionA" fields)
                       && JS.truthy (JS.assoc "optionB" fields))).
  { intros fields. unfold Action.validate. cbn [JS.get JS.bind].
    destruct (JS.truthy (JS.assoc "question" fields)); cbn [JS.bind andb]; [|reflexivity].
    destruct (JS.truthy (JS.assoc "optionA" fields)); reflexivity. }
  intros content. split; [|split].
  - destruct content; try (cbv; discriminate).
    rewrite Hobj. intros [= H].
    apply andb_prop in H. destruct H as [H Hb]. apply andb_prop in H. destruct H as [Hq Ha].
    unfold Evaluator.validate. now rewrite (Hkey _ _ Hq), (Hkey _ _ Ha), (Hkey _ _ Hb).
  - intros fields ->. apply Hobj.
  - split.
    + intros [e H]. destruct content; auto; try (cbv in H; discriminate H).
      rewrite Hobj in H. discriminate H.
    + intros [-> | ->]; eexists; reflexivity.
Qed.

Lemma action_validate_implies_evaluator_witness :
  Evaluator.validate
    (JS.VObj [("question", JS.VStr "q"); ("optionA", JS.VStr "a"); ("optionB", JS.VStr "b")])
    = true.
Proof.
  apply (proj1 (action_validate_implies_evaluator
                  (JS.VObj [("question", JS.VStr "q"); ("optionA", JS.VStr "a");
                            ("optionB", JS.VStr "b")]))).
  reflexivity.
Defined.

(** The handler of the action returns [true] exactly when a consensus was
    obtained, [createMemory] stored it and the callback, if one was given,
    returned on the result; the callback then got the text, the consensus and
    ["EVALUATE_PREDICTION"].  An error of [getConsensus], of [createMemory]
    or of the callback on the result is caught: the callback is called with
    ["Error evaluating prediction: "] followed by the message, and the
    handler returns [false]; the message is
    ["No valid responses received from AI providers"] when no verdict was
    accepted.  Nothing is stored when [getConsensus] threw, and the memory has
    been passed to [createMemory] in the other cases.  The handler throws
    only what the callback throws on the report of an error, so never without
    a callback. *)
Theorem handler_reports_outcome :
  forall (JSON_parse : string -> JS.throws JS.value) (runtime : Plugin.Runtime)
         (template : option string) (agentId : string)
         (createMemory : Action.Memory -> JS.throws unit) (now : float)
         (Math_round : float -> float) (Number_toString : float -> string)
         (message : Action.Message),
    let run := Action.handler JSON_parse runtime template agentId createMemory now
                 Math_round Number_toString message in
    let c := Action.content message in
    let consensus :=
      snd (Plugin.getConsensus JSON_parse runtime (Action.question c) (Action.optionA c)
             (Action.optionB c) (Action.providers c)) in
    let memory := Action.memory_of template agentId now Math_round Number_toString message in
    let result := fun r =>
      Action.Result (Action.resultText template Math_round Number_toString c r) r
        "EVALUATE_PREDICTION" in
    let report := fun e =>
      Action.Failure ("Error evaluating prediction: " ++ JS.message e) (JS.message e) in
    let reported := fun (callback : option (Action.Payload -> JS.throws unit)) e =>
      match callback with
      | Some call =>
          match call (report e) with
          | JS.Ret _ => JS.Ret false
          | JS.Throw e' => JS.Throw e'
          end
      | None => JS.Ret false
      end in
    let calls := fun (callback : option (Action.Payload -> JS.throws unit)) payloads =>
      match callback with
      | Some _ => payloads
      | None => []
      end in
    (forall callback,
        Action.returned (run callback) = JS.Ret true
        <-> exists r, consensus = JS.Ret r /\ createMemory (memory r) = JS.Ret tt
                      /\ forall call, callback = Some call -> call (result r) = JS.Ret tt)
    /\ (forall callback r,
          consensus = JS.Ret r -> createMemory (memory r) = JS.Ret tt ->
          (forall call, callback = Some call -> call (result r) = JS.Ret tt) ->
          Action.called_back (run callback) = calls callback [result r]
          /\ Action.stored (run callback) = Some (memory r))
    /\ (forall callback e,
          consensus = JS.Throw e ->
          Action.returned (run callback) = reported callback e
          /\ Action.called_back (run callback) = calls callback [report e]
          /\ Action.stored (run callback) = None)
    /\ (Plugin.verdicts JSON_parse runtime (Action.question c) (Action.optionA c)
          (Action.optionB c) (Plugin.providersToUse (Action.providers c)) = [] ->
        forall call,
          Action.called_back (run (Some call))
          = [ Action.Failure
                "Error evaluating prediction: No valid responses received from AI providers"
                "No valid responses received from AI providers" ])
    /\ (forall callback r e,
          consensus = JS.Ret r -> createMemory (memory r) = JS.Throw e ->
          Action.returned (run callback) = reported callback e
          /\ Action.called_back (run callback) = calls callback [report e]
          /\ Action.stored (run callback) = Some (memory r))
    /\ (forall call r e,
          consensus = JS.Ret r -> createMemory (memory r) = JS.Ret tt ->
          call (result r) = JS.Throw e ->
          Action.returned (run (Some call)) = reported (Some call) e
          /\ Action.called_back (run (Some call)) = [result r; report e]
          /\ Action.stored (run (Some call)) = Some (memory r))
    /\ (forall callback e',
          Action.returned (run callback) = JS.Throw e' ->
          exists call e,
            callback = Some call /\ call (report e) = JS.Throw e'
            /\ In (report e) (Action.called_back (run callback)))
    /\ (Action.called_back (run None) = []
        /\ (Action.returned (run None) = JS.Ret true
            \/ Action.returned (run None) = JS.Ret false)).
Proof.
  intros JSON_parse runtime template agentId createMemory now Math_round Number_toString
         message run c consensus memory result report reported calls.
  subst run c consensus memory result report reported calls.
  unfold Action.handler, Action.failed, Action.notify, JS.bind.
  destruct (Plugin.getConsensus JSON_parse runtime
              (Action.question (Action.content message))
              (Action.optionA (Action.content message))
              (Action.optionB (Action.content message))
              (Action.providers (Action.content message))) as [out res] eqn:Eg.
  cbn [snd].
  split; [|split; [|split; [|split; [|split; [|split; [|split]]]]]].
  - intros callback. split.
    + destruct res as [r|e].
      * destruct (createMemory _) as [[]|e] eqn:Em.
        -- destruct callback as [call|].
           ++ destruct (call (Action.Result _ _ _)) as [[]|e] eqn:Ec.
              ** intros _. exists r. split; [reflexivity|]. split; [exact Em|].
                 intros call' [= <-]. exact Ec.
              ** cbn [Action.returned].
                 destruct (call (Action.Failure _ _)) as [[]|e']; intros H; discriminate H.
           ++ intros _. exists r. split; [reflexivity|]. split; [exact Em|].
              intros call' H. discriminate H.
        -- destruct callback as [call|]; cbn [Action.returned];
             [destruct (call (Action.Failure _ _)) as [[]|e']|]; intros H; discriminate H.
      * destruct callback as [call|]; cbn [Action.returned];
          [destruct (call (Action.Failure _ _)) as [[]|e']|]; intros H; discriminate H.
    + intros (r & -> & Hm & Hc). rewrite Hm.
      destruct callback as [call|]; [|reflexivity].
      now rewrite (Hc call eq_refl).
  - intros callback r -> Hm Hc. rewrite Hm.
    destruct callback as [call|]; [|split; reflexivity].
    rewrite (Hc call eq_refl). split; reflexivity.
  - intros callback e ->.
    destruct callback as [call|]; cbn [Action.returned Action.called_back Action.stored];
      repeat split.
  - intros Hv call. unfold Plugin.getConsensus in Eg.
    rewrite PluginFacts.getConsensus_on_spec, Hv in Eg. injection Eg as <- <-.
    reflexivity.
  - intros callback r e -> Hm. rewrite Hm.
    destruct callback as [call|]; cbn [Action.returned Action.called_back Action.stored];
      repeat split.
  - intros call r e -> Hm Hc. rewrite Hm, Hc.
    cbn [Action.returned Action.called_back Action.stored]. repeat split.
  - intros callback e'.
    destruct callback as [call|].
    + destruct res as [r|e].
      * destruct (createMemory _) as [[]|e].
        -- destruct (call (Action.Result _ _ _)) as [[]|e];
             [intros H; discriminate H|].
           cbn [Action.returned Action.called_back].
           destruct (call (Action.Failure _ _)) as [[]|e''] eqn:Ec;
             [intros H; discriminate H|].
           intros [= <-]. exists call, e. split; [reflexivity|]. split; [exact Ec|].
           right. now left.
        -- cbn [Action.returned Action.called_back].
           destruct (call (Action.Failure _ _)) as [[]|e''] eqn:Ec;
             [intros H; discriminate H|].
           intros [= <-]. exists call, e. split; [reflexivity|]. split; [exact Ec|].
           now left.
      * cbn [Action.returned Action.called_back].
        destruct (call (Action.Failure _ _)) as [[]|e''] eqn:Ec;
          [intros H; discriminate H|].
        intros [= <-]. exists call, e. split; [reflexivity|]. split; [exact Ec|].
        now left.
    + destruct res as [r|e]; [destruct (createMemory _) as [[]|e]|];
        intros H; discriminate H.
  - destruct res as [r|e]; [destruct (createMemory _) as [[]|e]|];
      cbn [Action.returned Action.called_back]; auto.
Qed.

Lemma handler_reports_outcome_witness :
  Action.called_back
    (Action.handler Samples.JSON_parse Samples.host_no_keys None "agent"
       (fun _ => JS.Ret tt) 0%float (fun x => x) (fun _ => EmptyString)
       {| Action.id := "m1"; Action.userId := "u1"; Action.roomId := "r1";
          Action.content :=
            {| Action.question := Samples.question;
               Action.optionA := Samples.optionA_text;
               Action.optionB := Samples.optionB_text;
               Action.providers := None |} |}
       (Some (fun _ => JS.Throw (JS.Error "callback failed"))))
  = [ Action.Failure
        "Error evaluating prediction: No valid responses received from AI providers"
        "No valid responses received from AI providers" ].
Proof.
  apply (handler_reports_outcome Samples.JSON_parse Samples.host_no_keys None "agent"
           (fun _ => JS.Ret tt) 0%float (fun x => x) (fun _ => EmptyString)
           {| Action.id := "m1"; Action.userId := "u1"; Action.roomId := "r1";
              Action.content :=
                {| Action.question := Samples.question;
                   Action.optionA := Samples.optionA_text;
                   Action.optionB := Samples.optionB_text;
                   Action.providers := None |} |}).
  reflexivity.
Defined.

(** ** What one call of the plugin leaves *)
Module CallFacts.
Import JS.

Section Action.
Variable JSON_parse : string -> throws value.
Variable runtime : Plugin.Runtime.
Variables q a b : string.

(** The [try] block returns a verdict of the provider and logs nothing, or
    returns [null] and logs one entry. *)
Lemma try_outcome (p : Plugin.LLMProvider) (out : list Plugin.log_entry)
  (response : option Plugin.ProviderResponse) :
  Plugin.callLLMProvider_try JSON_parse runtime q a b p = Ret (out, response) ->
  (exists v, response = Some v /\ out = []
             /\ Plugin.provider v = Plugin.name p /\ Plugin.pr_model v = Plugin.model p)
  \/ (response = None /\ exists entry, out = [entry]).
Proof.
  unfold Plugin.callLLMProvider_try.
  destruct (Plugin.missing _); [intros [= <- <-]; right; eauto|].
  destruct (Plugin.generateText runtime p q a b) as [response0|e]; [|discriminate].
  cbn [bind]. destruct response0; try discriminate.
  destruct (match_braces s) as [m|]; [|intros [= <- <-]; right; eauto].
  destruct (JSON_parse m) as [parsed|e]; [|discriminate]. cbn [bind].
  destruct (get parsed "optionATrue") as [va|e]; [|discriminate]. cbn [bind].
  destruct (get parsed "optionBTrue") as [vb|e]; [|discriminate]. cbn [bind].
  destruct (get parsed "confidence") as [vc|e]; [|discriminate]. cbn [bind].
  destruct (get parsed "reasoning") as [vr|e]; [|discriminate]. cbn [bind].
  destruct (typeof_differs va TBoolean || typeof_differs vb TBoolean
            || typeof_differs vc TNumber || typeof_differs vr TString);
    intros [= <- <-]; [right; eauto|].
  left. eexists. repeat split.
Qed.

Lemma call_outcome (p : Plugin.LLMProvider) :
  (exists v, Plugin.callLLMProvider JSON_parse runtime q a b p = ([], Some v)
             /\ Plugin.provider v = Plugin.name p /\ Plugin.pr_model v = Plugin.model p)
  \/ (exists entry, Plugin.callLLMProvider JSON_parse runtime q a b p = ([entry], None)).
Proof.
  unfold Plugin.callLLMProvider.
  destruct (Plugin.callLLMProvider_try JSON_parse runtime q a b p) as [[out response]|e] eqn:E;
    cbn [try_catch].
  - destruct (try_outcome p E) as [(v & -> & -> & Hp & Hm) | (-> & entry & ->)];
      [left | right]; eauto.
  - right. eauto.
Qed.

(** The providers of the verdicts are names of the roster, in its order. *)
Lemma verdict_providers (roster : list Plugin.LLMProvider) :
  exists keep : Plugin.LLMProvider -> bool,
    map Plugin.provider (Plugin.verdicts JSON_parse runtime q a b roster)
      = map Plugin.name (filter keep roster).
Proof.
  exists (fun p => match Plugin.accepted (snd (Plugin.callLLMProvider JSON_parse runtime q a b p))
                   with Some _ => true | None => false end).
  unfold Plugin.verdicts. induction roster as [|p roster IH]; [reflexivity|].
  cbn [flat_map filter]. rewrite map_app, IH.
  destruct (call_outcome p) as [(v & E & Hp & _) | (entry & E)]; rewrite E; cbn [snd].
  - unfold Plugin.accepted.
    destruct (Plugin.MIN_CONFIDENCE <=? Plugin.confidence v)%float; [|reflexivity].
    cbn [map app]. now rewrite Hp.
  - reflexivity.
Qed.

End Action.

Lemma NoDup_map_filter (A B : Type) (f : A -> B) (keep : A -> bool) (l : list A) :
  NoDup (map f l) -> NoDup (map f (filter keep l)).
Proof.
  induction l as [|x l IH]; simpl; [auto|].
  intros H. inversion H as [|? ? Hx Hl]; subst.
  destruct (keep x); simpl; [|auto].
  constructor; [|auto]. intros Hin. apply Hx.
  apply in_map_iff in Hin. destruct Hin as (y & Hy & Hin).
  apply filter_In in Hin. apply in_map_iff. exists y. tauto.
Qed.

Lemma roster_names_NoDup (enabled : option (list string)) :
  NoDup (map Plugin.name (Plugin.providersToUse enabled)).
Proof.
  destruct enabled as [names|].
  - unfold Plugin.providersToUse. apply NoDup_map_filter.
    repeat (apply NoDup_cons;
            [simpl; intros Hin;
             repeat (destruct Hin as [Hin|Hin]; [discriminate Hin|]); exact Hin|]).
    apply NoDup_nil.
  - repeat (apply NoDup_cons;
            [simpl; intros Hin;
             repeat (destruct Hin as [Hin|Hin]; [discriminate Hin|]); exact Hin|]).
    apply NoDup_nil.
Qed.

End CallFacts.

(** Every call of a provider in the plugin leaves exactly one trace: either
    it returns a verdict that bears the name and the model of the provider
    and writes nothing to the console, or it returns [null] and writes one
    entry.  So the console of an evaluation has one entry per provider that
    gave no verdict. *)
Theorem one_console_entry_per_failure :
  forall (JSON_parse : string -> JS.throws JS.value) (runtime : Plugin.Runtime)
         (q a b : string),
    (forall p : Plugin.LLMProvider,
        (exists v, Plugin.callLLMProvider JSON_parse runtime q a b p = ([], Some v)
                   /\ Plugin.provider v = Plugin.name p
                   /\ Plugin.pr_model v = Plugin.model p)
        \/ (exists entry, Plugin.callLLMProvider JSON_parse runtime q a b p
                          = ([entry], None)))
    /\ (forall roster : list Plugin.LLMProvider,
        List.length (Plugin.console JSON_parse runtime q a b roster)
        = List.length
            (filter (fun p => match snd (Plugin.callLLMProvider JSON_parse runtime q a b p)
                              with Some _ => false | None => true end) roster)).
Proof.
  intros JSON_parse runtime q a b. split.
  - apply CallFacts.call_outcome.
  - intros roster. unfold Plugin.console.
    induction roster as [|p roster IH]; [reflexivity|].
    cbn [flat_map filter]. rewrite length_app, IH.
    destruct (CallFacts.call_outcome JSON_parse runtime q a b p)
      as [(v & E & _) | (entry & E)]; rewrite E; reflexivity.
Qed.

(** In a consensus of the plugin no provider is counted twice, and every
    provider of the result is one of the configured providers that the
    caller enabled. *)
Theorem plugin_providers_distinct :
  forall (JSON_parse : string -> JS.throws JS.value) (runtime : Plugin.Runtime)
         (q a b : string) (enabled : option (list string)) (r : Plugin.ConsensusResult),
    snd (Plugin.getConsensus JSON_parse runtime q a b enabled) = JS.Ret r ->
    NoDup (Plugin.cr_providers r)
    /\ (forall n, In n (Plugin.cr_providers r) ->
          In n (map Plugin.name Plugin.LLM_PROVIDERS)
          /\ (forall names, enabled = Some names -> In n names)).
Proof.
  intros JSON_parse runtime q a b enabled r H.
  unfold Plugin.getConsensus in H. rewrite PluginFacts.getConsensus_on_spec in H.
  cbn [snd] in H.
  destruct (CallFacts.verdict_providers JSON_parse runtime q a b
              (Plugin.providersToUse enabled)) as [keep Hk].
  destruct (Plugin.verdicts JSON_parse runtime q a b (Plugin.providersToUse enabled))
    as [|v l]; [discriminate|].
  set (vs := v :: l) in *.
  assert (Hne : vs <> []) by discriminate. clearbody vs.
  rewrite (PluginFacts.plugin_reduce_fields Hne) in H. injection H as <-.
  cbn [Plugin.cr_providers]. rewrite Hk. split.
  - apply CallFacts.NoDup_map_filter, CallFacts.roster_names_NoDup.
  - intros n Hn. apply in_map_iff in Hn. destruct Hn as (p & <- & Hp).
    apply filter_In in Hp. destruct Hp as [Hp _].
    destruct enabled as [names|].
    + unfold Plugin.providersToUse in Hp. apply filter_In in Hp.
      destruct Hp as [Hp He]. split; [now apply in_map|].
      intros names' [= <-]. now apply RosterFacts.existsb_eqb_In.
    + split; [now apply in_map | discriminate].
Qed.

Lemma plugin_providers_distinct_witness :
  exists r,
    snd (Plugin.getConsensus Samples.JSON_parse Samples.host_one_down Samples.question
           Samples.optionA_text Samples.optionB_text (Some ["gemini"; "deepseek"]))
      = JS.Ret r
    /\ NoDup (Plugin.cr_providers r)
    /\ (forall n, In n (Plugin.cr_providers r) ->
          In n (map Plugin.name Plugin.LLM_PROVIDERS)
          /\ (forall names, Some ["gemini"; "deepseek"] = Some names -> In n names)).
Proof.
  eexists. split; [reflexivity|].
  apply (plugin_providers_distinct Samples.JSON_parse Samples.host_one_down
           Samples.question Samples.optionA_text Samples.optionB_text
           (Some ["gemini"; "deepseek"])).
  reflexivity.
Defined.



(** ** Replacing a placeholder in a template *)
Module TemplateFacts.
Import JS Template.

Lemma substitution_plain (matched pre post replacement : string) :
  occurs "$"%char replacement = false ->
  Text.substitution matched pre post replacement = replacement.
Proof.
  induction replacement as [|c r IH]; [reflexivity|].
  cbn [occurs]. intros H. apply orb_false_elim in H. destruct H as [Hc Hr].
  assert (E : Text.substitution matched pre post (String c r)
              = String c (Text.substitution matched pre post r)).
  { destruct c as [[] [] [] [] [] [] [] []]; try reflexivity. discriminate Hc. }
  rewrite E. now rewrite IH.
Qed.

Lemma append_empty (s : string) : s ++ "" = s.
Proof. induction s as [|c s IH]; simpl; [reflexivity | now rewrite IH]. Qed.

Lemma tag_opens (k : slot) : exists t, tag k = String open_brace t.
Proof. destruct k; eexists; reflexivity. Qed.

(** The search passes a text without opening brace. *)
Lemma find_first_skip (k : slot) (s t : string) :
  occurs open_brace s = false ->
  Text.find_first (tag k) (s ++ t)
  = match Text.find_first (tag k) t with
    | Some (pre, post) => Some (s ++ pre, post)
    | None => None
    end.
Proof.
  induction s as [|c s IH]; intros H.
  - simpl. now destruct (Text.find_first (tag k) t) as [[pre post]|].
  - cbn [occurs] in H. apply orb_false_elim in H. destruct H as [Hc Hs].
    destruct (tag_opens k) as [u Hu].
    change (String c s ++ t) with (String c (s ++ t)).
    cbn [Text.find_first]. rewrite Hu. cbn [Text.starts_with].
    rewrite Ascii.eqb_sym, Hc. cbn [andb]. rewrite <- Hu, (IH Hs).
    now destruct (Text.find_first (tag k) t) as [[pre post]|].
Qed.

(** The search passes another placeholder. *)
Lemma find_first_other (k j : slot) (t : string) :
  same_slot k j = false ->
  Text.find_first (tag k) (tag j ++ t)
  = match Text.find_first (tag k) t with
    | Some (pre, post) => Some (tag j ++ pre, post)
    | None => None
    end.
Proof.
  intros H.
  destruct k, j; try discriminate H; clear H;
    cbn; destruct (Text.find_first _ t) as [[pre post]|]; reflexivity.
Qed.

(** What the search finds in a template, and the template after the
    placeholder has been replaced. *)
Lemma find_first_pieces (k : slot) (pieces : list piece) :
  forallb literal pieces = true ->
  match Text.find_first (tag k) (text_of pieces) with
  | Some (pre, post) => forall v, text_of (fill k v pieces) = pre ++ v ++ post
  | None => forall v, text_of (fill k v pieces) = text_of pieces
  end.
Proof.
  induction pieces as [|[s|j] rest IH]; cbn [forallb literal text_of fill]; intros H.
  - destruct k; intros v; reflexivity.
  - apply andb_prop in H. destruct H as [Hs Hr].
    unfold braceless in Hs. apply negb_true_iff in Hs.
    rewrite (@find_first_skip k s (text_of rest) Hs). specialize (IH Hr).
    destruct (Text.find_first (tag k) (text_of rest)) as [[pre post]|]; intros v;
      cbn [text_of]; rewrite IH; [now rewrite WrapFacts.append_assoc | reflexivity].
  - destruct (same_slot k j) eqn:E.
    + assert (Hk : k = j) by (destruct k, j; try discriminate E; reflexivity).
      subst j. rewrite TextFacts.find_first_prefix. intros v. reflexivity.
    + rewrite (@find_first_other k j (text_of rest) E). specialize (IH H).
      destruct (Text.find_first (tag k) (text_of rest)) as [[pre post]|]; intros v;
        cbn [text_of]; rewrite IH; [now rewrite WrapFacts.append_assoc | reflexivity].
Qed.

(** One call of [replace] on a template fills the first placeholder. *)
Lemma replace_fill (k : slot) (v : string) (pieces : list piece) :
  forallb literal pieces = true ->
  occurs "$"%char v = false ->
  Text.replace (text_of pieces) (tag k) v = text_of (fill k v pieces).
Proof.
  intros Hl Hv. unfold Text.replace.
  pose proof (find_first_pieces k pieces Hl) as H.
  destruct (Text.find_first (tag k) (text_of pieces)) as [[pre post]|].
  - now rewrite (@substitution_plain (tag k) pre post v Hv), H.
  - now rewrite H.
Qed.

Lemma fill_literal (k : slot) (v : string) (pieces : list piece) :
  forallb literal pieces = true -> braceless v = true ->
  forallb literal (fill k v pieces) = true.
Proof.
  intros Hl Hv. induction pieces as [|[s|j] rest IH]; cbn [fill forallb literal] in *.
  - reflexivity.
  - apply andb_prop in Hl. destruct Hl as [Hs Hr]. now rewrite Hs, IH.
  - destruct (same_slot k j); cbn [forallb literal]; [now rewrite Hv | now apply IH].
Qed.

Lemma plain_parts (s : string) :
  plain s = true -> braceless s = true /\ occurs "$"%char s = false.
Proof.
  unfold plain. intros H. apply andb_prop in H. destruct H as [Hb Hd].
  apply negb_true_iff in Hd. auto.
Qed.

Lemma plain_app (a b : string) : plain a = true -> plain b = true -> plain (a ++ b) = true.
Proof.
  unfold plain, braceless. rewrite !JSFacts.occurs_app.
  intros Ha Hb. apply andb_prop in Ha. apply andb_prop in Hb.
  destruct Ha as [Ha1 Ha2], Hb as [Hb1 Hb2].
  apply negb_true_iff in Ha1, Ha2, Hb1, Hb2. now rewrite Ha1, Ha2, Hb1, Hb2.
Qed.

Lemma plain_join (names : list string) :
  Forall (fun n => plain n = true) names -> plain (join ", " names) = true.
Proof.
  induction names as [|x names IH]; intros H; [reflexivity|].
  inversion H as [|? ? Hx Hn]; subst.
  destruct names as [|y names]; [exact Hx|].
  change (join ", " (x :: y :: names)) with (x ++ ", " ++ join ", " (y :: names)).
  apply plain_app; [exact Hx|]. apply plain_app; [reflexivity | now apply IH].
Qed.

Lemma label_plain (consensus : Plugin.ConsensusResult) :
  plain (Action.result_label consensus) = true.
Proof.
  unfold Action.result_label.
  destruct (Plugin.cr_optionATrue consensus), (Plugin.cr_optionBTrue consensus);
    reflexivity.
Qed.

End TemplateFacts.

(** The text of the result.  It is rendered from the template of the
    character when that is not empty, and from the default template
    otherwise.  On a template made of placeholders and of texts without an
    opening brace, with values free of braces and of [$], each of the seven
    calls of [replace] fills the first occurrence of its placeholder with its
    value and leaves every other piece, later occurrences of the same
    placeholder included; so the default template gives the seven values in
    its fixed text.  A template without any placeholder is returned as it
    is, whatever the values. *)
Theorem template_rendering :
  forall (Math_round : float -> float) (Number_toString : float -> string)
         (c : Action.Content) (consensus : Plugin.ConsensusResult),
    let confidence :=
      Number_toString (Math_round (Plugin.cr_confidence consensus * 100)%float) in
    let providers := JS.join ", " (Plugin.cr_providers consensus) in
    let votesA := Number_toString (JS.of_nat (Plugin.optionA (Plugin.cr_votes consensus))) in
    let votesB := Number_toString (JS.of_nat (Plugin.optionB (Plugin.cr_votes consensus))) in
    Action.resultText None Math_round Number_toString c consensus
      = Action.resultText (Some Action.default_template) Math_round Number_toString
          c consensus
    /\ Action.resultText (Some "") Math_round Number_toString c consensus
       = Action.resultText None Math_round Number_toString c consensus
    /\ (forall t : string,
        t <> "" ->
        Text.find_first "{{question}}" t = None ->
        Text.find_first "{{result}}" t = None ->
        Text.find_first "{{confidence}}" t = None ->
        Text.find_first "{{providers}}" t = None ->
        Text.find_first "{{votesA}}" t = None ->
        Text.find_first "{{votesB}}" t = None ->
        Text.find_first "{{reasoning}}" t = None ->
        Action.resultText (Some t) Math_round Number_toString c consensus = t)
    /\ (Template.plain (Action.question c) = true ->
        (forall x, Template.plain (Number_toString x) = true) ->
        Forall (fun n => Template.plain n = true) (Plugin.cr_providers consensus) ->
        JS.occurs "$"%char (Plugin.cr_reasoning consensus) = false ->
        (forall pieces : list Template.piece,
            Template.text_of pieces <> "" ->
            forallb Template.literal pieces = true ->
            Action.resultText (Some (Template.text_of pieces)) Math_round Number_toString
              c consensus
            = Template.text_of
                (Template.fill Template.Reasoning (Plugin.cr_reasoning consensus)
                   (Template.fill Template.VotesB votesB
                      (Template.fill Template.VotesA votesA
                         (Template.fill Template.Providers providers
                            (Template.fill Template.Confidence confidence
                               (Template.fill Template.Result
                                  (Action.result_label consensus)
                                  (Template.fill Template.Question (Action.question c)
                                     pieces))))))))
        /\ Action.resultText None Math_round Number_toString c consensus
           = "AI Consensus Result:" ++ Action.newline ++ Action.newline
             ++ "Question: " ++ Action.question c ++ Action.newline
             ++ "Result: Option " ++ Action.result_label consensus ++ " more likely"
             ++ Action.newline
             ++ "Confidence: " ++ confidence ++ "%" ++ Action.newline
             ++ "Providers: " ++ providers ++ Action.newline
             ++ "Votes: A=" ++ votesA ++ ", B=" ++ votesB ++ Action.newline
             ++ Action.newline
             ++ "Reasoning: " ++ Plugin.cr_reasoning consensus).
Proof.
  intros Math_round Number_toString c consensus confidence providers votesA votesB.
  split; [reflexivity|]. split; [reflexivity|]. split.
  { intros t Ht H1 H2 H3 H4 H5 H6 H7. unfold Action.resultText.
    assert (E : JS.truthy_str t = true).
    { unfold JS.truthy_str. destruct t; [congruence | reflexivity]. }
    rewrite E.
    rewrite (@TextFacts.replace_absent t "{{question}}" _ H1).
    rewrite (@TextFacts.replace_absent t "{{result}}" _ H2).
    rewrite (@TextFacts.replace_absent t "{{confidence}}" _ H3).
    rewrite (@TextFacts.replace_absent t "{{providers}}" _ H4).
    rewrite (@TextFacts.replace_absent t "{{votesA}}" _ H5).
    rewrite (@TextFacts.replace_absent t "{{votesB}}" _ H6).
    apply (@TextFacts.replace_absent t "{{reasoning}}" _ H7). }
  intros Hq Hn Hp Hr.
  destruct (@TemplateFacts.plain_parts _ Hq) as [Hq1 Hq2].
  destruct (@TemplateFacts.plain_parts _ (TemplateFacts.label_plain consensus)) as [Hl1 Hl2].
  destruct (@TemplateFacts.plain_parts _ (Hn (Math_round (Plugin.cr_confidence consensus * 100)%float)))
    as [Hc1 Hc2].
  destruct (@TemplateFacts.plain_parts _ (@TemplateFacts.plain_join _ Hp)) as [Hp1 Hp2].
  destruct (TemplateFacts.plain_parts _
              (Hn (JS.of_nat (Plugin.optionA (Plugin.cr_votes consensus))))) as [Ha1 Ha2].
  destruct (TemplateFacts.plain_parts _
              (Hn (JS.of_nat (Plugin.optionB (Plugin.cr_votes consensus))))) as [Hb1 Hb2].
  assert (Hgen : forall pieces : list Template.piece,
             forallb Template.literal pieces = true ->
             Text.replace
               (Text.replace
                  (Text.replace
                     (Text.replace
                        (Text.replace
                           (Text.replace
                              (Text.replace (Template.text_of pieces) (Template.tag Template.Question)
                                 (Action.question c))
                              (Template.tag Template.Result) (Action.result_label consensus))
                           (Template.tag Template.Confidence) confidence)
                        (Template.tag Template.Providers) providers)
                     (Template.tag Template.VotesA) votesA)
                  (Template.tag Template.VotesB) votesB)
               (Template.tag Template.Reasoning) (Plugin.cr_reasoning consensus)
             = Template.text_of
                 (Template.fill Template.Reasoning (Plugin.cr_reasoning consensus)
                    (Template.fill Template.VotesB votesB
                       (Template.fill Template.VotesA votesA
                          (Template.fill Template.Providers providers
                             (Template.fill Template.Confidence confidence
                                (Template.fill Template.Result
                                   (Action.result_label consensus)
                                   (Template.fill Template.Question (Action.question c)
                                      pieces)))))))).
  { intros pieces Hlit. unfold confidence, providers, votesA, votesB.
    pose proof (@TemplateFacts.fill_literal Template.Question _ _ Hlit Hq1) as L1.
    pose proof (@TemplateFacts.fill_literal Template.Result _ _ L1 Hl1) as L2.
    pose proof (@TemplateFacts.fill_literal Template.Confidence _ _ L2 Hc1) as L3.
    pose proof (@TemplateFacts.fill_literal Template.Providers _ _ L3 Hp1) as L4.
    pose proof (@TemplateFacts.fill_literal Template.VotesA _ _ L4 Ha1) as L5.
    pose proof (@TemplateFacts.fill_literal Template.VotesB _ _ L5 Hb1) as L6.
    rewrite (@TemplateFacts.replace_fill Template.Question _ _ Hlit Hq2).
    rewrite (@TemplateFacts.replace_fill Template.Result _ _ L1 Hl2).
    rewrite (@TemplateFacts.replace_fill Template.Confidence _ _ L2 Hc2).
    rewrite (@TemplateFacts.replace_fill Template.Providers _ _ L3 Hp2).
    rewrite (@TemplateFacts.replace_fill Template.VotesA _ _ L4 Ha2).
    rewrite (@TemplateFacts.replace_fill Template.VotesB _ _ L5 Hb2).
    apply (@TemplateFacts.replace_fill Template.Reasoning _ _ L6 Hr). }
  split.
  - intros pieces Hne Hlit. unfold Action.resultText.
    assert (E : JS.truthy_str (Template.text_of pieces) = true).
    { unfold JS.truthy_str. destruct (Template.text_of pieces); [congruence | reflexivity]. }
    rewrite E. now apply Hgen.
  - unfold Action.resultText.
    change Action.default_template with (Template.text_of Template.default_pieces).
    etransitivity; [apply (Hgen Template.default_pieces eq_refl)|].
    cbn [Template.default_pieces Template.fill Template.same_slot Template.text_of].
    rewrite TemplateFacts.append_empty. reflexivity.
Qed.

Lemma template_rendering_witness :
  Action.resultText None (fun x => x) (fun _ => "82")
    {| Action.question := Samples.question; Action.optionA := Samples.optionA_text;
       Action.optionB := Samples.optionB_text; Action.providers := None |}
    {| Plugin.cr_optionATrue := true; Plugin.cr_optionBTrue := false;
       Plugin.cr_confidence := 0.8%float; Plugin.cr_reasoning := "openai: rates fall";
       Plugin.cr_providers := ["openai"; "gemini"];
       Plugin.cr_votes := {| Plugin.optionA := 2; Plugin.optionB := 0 |} |}
  = "AI Consensus Result:" ++ Action.newline ++ Action.newline
    ++ "Question: Will the index close higher this year?" ++ Action.newline
    ++ "Result: Option A more likely" ++ Action.newline
    ++ "Confidence: 82%" ++ Action.newline
    ++ "Providers: openai, gemini" ++ Action.newline
    ++ "Votes: A=82, B=82" ++ Action.newline ++ Action.newline
    ++ "Reasoning: openai: rates fall".
Proof.
  destruct (template_rendering (fun x => x) (fun _ => "82")
              {| Action.question := Samples.question;
                 Action.optionA := Samples.optionA_text;
                 Action.optionB := Samples.optionB_text;
                 Action.providers := None |}
              {| Plugin.cr_optionATrue := true; Plugin.cr_optionBTrue := false;
                 Plugin.cr_confidence := 0.8%float;
                 Plugin.cr_reasoning := "openai: rates fall";
                 Plugin.cr_providers := ["openai"; "gemini"];
                 Plugin.cr_votes := {| Plugin.optionA := 2; Plugin.optionB := 0 |} |})
    as (_ & _ & _ & H).
  apply H; [reflexivity | intros x; reflexivity | repeat constructor | reflexivity].
Defined.
